(** * Service-account token rotation plugin (plugin.py)

    A shallow embedding of [plugin.py]: the plugin lists the token secrets
    of a service account, issues a new one, waits until the cluster has
    populated it, writes the token to the remote secret manager and, when
    asked to, deletes the secrets it listed at the start.

    Every call that leaves the process (clock, cluster API, HTTP, output
    files, diagnostics) is an event of an interaction tree; Python
    exceptions and [sys.exit] are the two abnormal outcomes of a
    computation.  A run is the tree played against a handler, which
    answers each event from a state of its own; theorems about "every
    run" quantify over every handler and every state of it, that is, over
    every sequence of answers the environment can give. *)

From Stdlib Require Import String Ascii List ZArith Lia Bool.
From Stdlib Require Import DecimalString DecimalZ.
Import ListNotations.
Local Open Scope string_scope.
Local Open Scope Z_scope.

Set Implicit Arguments.
Set Warnings "-register-all".

Arguments String.append : simpl never.

(** ** Python strings *)

Module PyStr.

(** [needle in hay] on two strings. *)
Fixpoint contains (needle hay : string) : bool :=
  if String.prefix needle hay then true
  else match hay with
       | EmptyString => false
       | String _ rest => contains needle rest
       end.

(** [s[n:]] *)
Fixpoint drop (n : nat) (s : string) : string :=
  match n, s with
  | O, _ => s
  | S _, EmptyString => EmptyString
  | S m, String _ rest => drop m rest
  end.

Definition lower_ascii (c : ascii) : ascii :=
  let n := nat_of_ascii c in
  if (Nat.leb 65 n && Nat.leb n 90)%bool then ascii_of_nat (n + 32) else c.

(** [s.lower()], on the ASCII letters: cluster object names are DNS
    labels, which are ASCII. *)
Fixpoint lower (s : string) : string :=
  match s with
  | EmptyString => EmptyString
  | String c rest => String (lower_ascii c) (lower rest)
  end.

(** Truth value of a string: [if s:]. *)
Definition truthy (s : string) : bool :=
  match s with EmptyString => false | _ => true end.

(** [str(n)] for an integer. *)
Definition of_int (n : Z) : string := NilEmpty.string_of_int (Z.to_int n).

Definition of_nat (n : nat) : string := of_int (Z.of_nat n).

End PyStr.

(** Python dictionaries with string keys keep insertion order. *)
Definition dict (V : Type) := list (string * V).

Fixpoint dict_get {V} (key : string) (d : dict V) : option V :=
  match d with
  | [] => None
  | (k, v) :: rest => if String.eqb k key then Some v else dict_get key rest
  end.

Definition dict_has {V} (key : string) (d : dict V) : bool :=
  match dict_get key d with Some _ => true | None => false end.

Definition dict_keys {V} (d : dict V) : list string := map fst d.

(** ** JSON values, as [json.loads] and [response.json()] return them *)

Inductive json : Type :=
| JNull
| JBool (b : bool)
| JNum (literal : string)
| JStr (s : string)
| JArr (items : list json)
| JObj (members : list (string * json)).

Definition json_of_dict (d : dict string) : json :=
  JObj (map (fun kv => (fst kv, JStr (snd kv))) d).

(** ** External objects *)

(** A [requests.Response]: what the code reads of it. [json_body] is the
    parsed body, [None] when the body is not JSON. *)
Record Response := {
  status_code : Z;
  reason : string;
  url : string;
  text : string;
  json_body : option json
}.

(** The exceptions (subclasses of [Exception]) the code raises, catches or
    lets through. *)
Inductive exn : Type :=
| ApiException (status : Z) (api_reason : string)
| ConfigException (msg : string)
| HTTPError (response : Response)
| JSONDecodeError (msg : string)
| TypeError (msg : string)
| AttributeError (msg : string)
| ValueError (msg : string)
| ConnectionError (msg : string)
| Exception (msg : string).

Definition is_ApiException (e : exn) : bool :=
  match e with ApiException _ _ => true | _ => false end.

Definition is_ConfigException (e : exn) : bool :=
  match e with ConfigException _ => true | _ => false end.

(** [except Exception] catches every [exn]; [SystemExit] is not one. *)
Definition is_Exception (e : exn) : bool := true.

Definition http_error_text (r : Response) : string :=
  PyStr.of_int (status_code r)
  ++ (if status_code r <? 500 then " Client Error: " else " Server Error: ")
  ++ reason r ++ " for url: " ++ url r.

(** [str(e)] as the diagnostics print it (for an [ApiException], without
    the lines for the response headers and body). *)
Definition exn_str (e : exn) : string :=
  match e with
  | ApiException st rs =>
      "(" ++ PyStr.of_int st ++ ")" ++ String "010" ("Reason: " ++ rs ++ String "010" EmptyString)
  | HTTPError r => http_error_text r
  | ConfigException m | JSONDecodeError m | TypeError m | AttributeError m
  | ValueError m | ConnectionError m | Exception m => m
  end.

(** What a library call gives back: a value, or an exception. *)
Inductive reply (X : Type) : Type :=
| Ok (x : X)
| Err (e : exn).
Arguments Ok {X} x.
Arguments Err {X} e.

(** A [V1Secret] of the cluster API: the fields the code builds or reads. *)
Record V1Secret := {
  metadata_name : string;
  metadata_annotations : dict string;
  metadata_labels : dict string;
  metadata_creation_timestamp : option string;
  secret_type : option string;
  data : option (dict string)
}.

(** An entry of the list [list_k8s_secrets] returns. *)
Record secret_info := {
  name : string;
  type : option string;
  creation_timestamp : option string;
  data_keys : list string
}.

(** ** Events: the calls that leave the process *)

Inductive event : Type -> Type :=
| time_time : event Z
| time_sleep (seconds : Z) : event unit
| print (line : string) : event unit
| logging_info (msg : string) : event unit
| logging_error (msg : string) : event unit
| load_incluster_config : event (reply unit)
| load_kube_config (config_file : option string) : event (reply unit)
| list_namespaced_secret (namespace : string) : event (reply (list V1Secret))
| create_namespaced_secret (namespace : string) (body : V1Secret) : event (reply unit)
| read_namespaced_secret (secret_name namespace : string) : event (reply V1Secret)
| delete_namespaced_secret (secret_name namespace : string) : event (reply unit)
| requests_put (target : string) (headers params : dict string) (payload : json)
    : event (reply Response)
| requests_post (target : string) (headers params : dict string) (payload : json)
    : event (reply Response)
| write_file (path : string) (lines : list string) : event unit.

(** ** Interaction trees and Python computations *)

Inductive io (A : Type) : Type :=
| Ret (a : A)
| Vis (X : Type) (e : event X) (k : X -> io A).
Arguments Ret {A} a.
Arguments Vis {A X} e k.

Fixpoint bind {A B} (p : io A) (f : A -> io B) : io B :=
  match p with
  | Ret a => f a
  | Vis e k => Vis e (fun x => bind (k x) f)
  end.

(** How a computation ends: it returns, raises an exception, or leaves
    through [sys.exit]. *)
Inductive outcome (A : Type) : Type :=
| Return (a : A)
| Raise (e : exn)
| Exit (code : Z).
Arguments Return {A} a.
Arguments Raise {A} e.
Arguments Exit {A} code.

Definition py (A : Type) : Type := io (outcome A).

Definition ret {A} (a : A) : py A := Ret (Return a).
Definition raise {A} (e : exn) : py A := Ret (Raise e).
Definition exit {A} (code : Z) : py A := Ret (Exit code).

Definition andThen {A B} (o : outcome A) (f : A -> py B) : py B :=
  match o with
  | Return a => f a
  | Raise e => Ret (Raise e)
  | Exit c => Ret (Exit c)
  end.

Definition pbind {A B} (p : py A) (f : A -> py B) : py B :=
  bind p (fun o => andThen o f).

(** [try: p  except <class> as e: handler e] *)
Definition try_except {A} (p : py A) (caught : exn -> bool) (handler : exn -> py A)
  : py A :=
  bind p (fun o =>
    match o with
    | Raise e => if caught e then handler e else Ret (Raise e)
    | _ => Ret o
    end).

(** An event that cannot fail, and a library call that may raise. *)
Definition perform {X} (e : event X) : py X := Vis e (fun x => Ret (Return x)).

Definition of_reply {X} (r : reply X) : outcome X :=
  match r with Ok x => Return x | Err e => Raise e end.

Definition call {X} (e : event (reply X)) : py X := Vis e (fun r => Ret (of_reply r)).

Arguments ret {A} a /.
Arguments raise {A} e /.
Arguments exit {A} code /.
Arguments pbind {A B} p f /.
Arguments try_except {A} p caught handler /.
Arguments perform {X} e /.
Arguments call {X} e /.

Declare Scope py_scope.
Delimit Scope py_scope with py.
Notation "x <- p ;; q" := (pbind p (fun x => q))
  (at level 61, p at next level, right associativity) : py_scope.
Notation "p ;; q" := (pbind p (fun _ => q))
  (at level 61, right associativity) : py_scope.
Local Open Scope py_scope.

(** ** Runs *)

(** One answered event. *)
Inductive entry : Type :=
| Entry (X : Type) (e : event X) (x : X).
Arguments Entry {X} e x.

Definition handler (W : Type) : Type := forall X, event X -> W -> X * W.

Record ran (W A : Type) : Type := Ran {
  result : A;
  trace : list entry;
  world : W
}.
Arguments Ran {W A} result trace world.

Fixpoint run {W A} (h : handler W) (p : io A) (w : W) : ran W A :=
  match p with
  | Ret a => Ran a [] w
  | Vis e k =>
      let xw := h _ e w in
      let r := run h (k (fst xw)) (snd xw) in
      Ran (result r) (Entry e (fst xw) :: trace r) (world r)
  end.

(** The exit status of the process when [main()] ends with [o]: a normal
    return ends the interpreter with status 0, an uncaught exception with
    status 1, [sys.exit(c)] with [c]. *)
Definition exit_status {A} (o : outcome A) : Z :=
  match o with
  | Return _ => 0
  | Raise _ => 1
  | Exit c => c
  end.

(** ** The plugin *)

Section Plugin.

(** The process environment ([os.environ]); the plugin only reads it. *)
Variable env : string -> option string.

(** [json.loads], and [base64.b64decode(v).decode("utf-8")]: library
    functions of the interpreter, total on strings up to an exception. *)
Variable json_loads : string -> reply json.
Variable b64decode_utf8 : string -> reply string.

Definition getenv (variable : string) (default : option string) : option string :=
  match env variable with
  | Some v => Some v
  | None => default
  end.

(** The lines [write_outputs] and [write_secret_outputs] write.  Opening
    and writing an output file is one event, taken to succeed. *)
Definition output_lines (outputs : dict string) : list string :=
  map (fun kv => fst kv ++ "=" ++ snd kv ++ String "010" EmptyString) outputs.

Definition write_outputs (outputs : dict string) : py unit :=
  let output_file :=
    match getenv "DRONE_OUTPUT" (Some "DRONE_OUTPUT.env") with
    | Some path => path
    | None => "DRONE_OUTPUT.env"
    end in
  perform (write_file output_file (output_lines outputs)).

Definition write_secret_outputs (outputs : dict string) : py unit :=
  let output_file :=
    match getenv "HARNESS_OUTPUT_SECRET_FILE" (Some "HARNESS_OUTPUT_SECRET.env") with
    | Some path => path
    | None => "HARNESS_OUTPUT_SECRET.env"
    end in
  perform (write_file output_file (output_lines outputs)).

Definition check_env (variable : string) (default : option string) : py string :=
  match getenv variable default with
  | None =>
      let stripped_variable :=
        if negb (PyStr.contains "PLUGIN_" variable) then variable
        else PyStr.drop 7 variable in
      perform (print (stripped_variable ++ " required")) ;;
      exit 1
  | Some value => ret value
  end.

Definition load_k8s_config (kubeconfig_path : option string) : py unit :=
  match kubeconfig_path with
  | Some ((String _ _) as path) => call (load_kube_config (Some path))
  | _ =>
      try_except (call load_incluster_config) is_ConfigException
        (fun _ => call (load_kube_config None))
  end.

Definition secret_info_of (secret : V1Secret) : secret_info :=
  {| name := metadata_name secret;
     type := secret_type secret;
     creation_timestamp := metadata_creation_timestamp secret;
     data_keys := match data secret with
                  | Some ((_ :: _) as d) => dict_keys d
                  | _ => []
                  end |}.

Definition list_k8s_secrets (namespace search_string : string)
    (kubeconfig_path : option string) : py (list secret_info) :=
  try_except
    (load_k8s_config kubeconfig_path ;;
     secrets <- call (list_namespaced_secret namespace) ;;
     let search_lower := PyStr.lower search_string in
     ret (map secret_info_of
            (filter (fun secret =>
                       negb (PyStr.truthy search_string)
                       || PyStr.contains search_lower
                            (PyStr.lower (metadata_name secret)))%bool
                    secrets)))
    is_ApiException
    (fun e =>
       perform (print ("Error listing secrets in namespace '" ++ namespace
                       ++ "': " ++ exn_str e)) ;;
       raise e).

(** [secret_obj.data and "token" in secret_obj.data], with the value. *)
Definition token_material (secret_obj : V1Secret) : option string :=
  match data secret_obj with
  | Some ((_ :: _) as d) => dict_get "token" d
  | _ => None
  end.

(** The loop [for i in range(max_retries)] followed by the final
    [raise]; [remaining] counts the iterations left. *)
Fixpoint poll_token (namespace token_name : string) (max_retries : nat)
    (remaining : nat) : py string :=
  match remaining with
  | O => raise (Exception ("Token not populated after "
                           ++ PyStr.of_nat max_retries ++ " seconds"))
  | S fewer =>
      secret_obj <- call (read_namespaced_secret token_name namespace) ;;
      match token_material secret_obj with
      | Some material => Ret (of_reply (b64decode_utf8 material))
      | None =>
          perform (time_sleep 1) ;;
          poll_token namespace token_name max_retries fewer
      end
  end.

Definition token_secret (service_account token_name : string)
    (labels : dict string) : V1Secret :=
  {| metadata_name := token_name;
     metadata_annotations := [("kubernetes.io/service-account.name", service_account)];
     metadata_labels := labels;
     metadata_creation_timestamp := None;
     secret_type := Some "kubernetes.io/service-account-token";
     data := None |}.

Definition create_service_account_token (namespace service_account token_name : string)
    (labels : dict string) (kubeconfig_path : option string) : py string :=
  try_except
    (load_k8s_config kubeconfig_path ;;
     let secret := token_secret service_account token_name labels in
     try_except
       (call (create_namespaced_secret namespace secret) ;;
        perform (print ("Service account token '" ++ token_name
                        ++ "' created successfully")))
       is_ApiException
       (fun e =>
          match e with
          | ApiException status _ =>
              if status =? 409
              then
                perform (print ("Service account token '" ++ token_name
                                ++ "' already exists, retrieving...")) ;;
                call (read_namespaced_secret token_name namespace) ;;
                ret tt
              else raise e
          | _ => raise e
          end) ;;
     let max_retries := 10%nat in
     poll_token namespace token_name max_retries max_retries)
    is_ApiException
    (fun e =>
       perform (print ("Error creating service account token '" ++ token_name
                       ++ "': " ++ exn_str e)) ;;
       raise e).

Definition delete_k8s_secret (namespace secret_name : string)
    (kubeconfig_path : option string) : py unit :=
  try_except
    (load_k8s_config kubeconfig_path ;;
     call (delete_namespaced_secret secret_name namespace) ;;
     perform (print ("Secret '" ++ secret_name ++ "' deleted successfully")))
    is_ApiException
    (fun e =>
       perform (print ("Error deleting secret '" ++ secret_name ++ "': " ++ exn_str e)) ;;
       raise e).

(** The query parameters and the body both remote calls build. *)
Definition secret_params (harness_account harness_org harness_project : string)
  : dict string :=
  ([("private_secret", "false");
    ("routingId", harness_account);
    ("accountIdentifier", harness_account)]
   ++ (if PyStr.truthy harness_org then [("orgIdentifier", harness_org)] else [])
   ++ (if PyStr.truthy harness_project then [("projectIdentifier", harness_project)] else [])
  )%list.

Definition secret_payload (harness_org harness_project secret_identifier token : string)
    (tags : json) (description secret_manager : string) : json :=
  JObj [("secret",
         JObj ([("name", JStr secret_identifier);
                ("identifier", JStr secret_identifier);
                ("tags", tags);
                ("description", JStr description);
                ("type", JStr "SecretText");
                ("spec", JObj [("secretManagerIdentifier", JStr secret_manager);
                               ("valueType", JStr "Inline");
                               ("value", JStr token)])]
               ++ (if PyStr.truthy harness_org
                   then [("orgIdentifier", JStr harness_org)] else [])
               ++ (if PyStr.truthy harness_project
                   then [("projectIdentifier", JStr harness_project)] else []))%list)].

(** The collection both remote calls address. *)
Definition secrets_endpoint (host : string) : string :=
  "https://" ++ host ++ "/gateway/ng/api/v2/secrets".

(** [response.raise_for_status()] *)
Definition raise_for_status (response : Response) : py unit :=
  if ((400 <=? status_code response) && (status_code response <? 600))%bool
  then raise (HTTPError response)
  else ret tt.

Definition create_harness_secret
    (harness_account harness_org harness_project secret_identifier token : string)
    (tags : json) (description secret_manager : string) : py bool :=
  let params := secret_params harness_account harness_org harness_project in
  let payload := secret_payload harness_org harness_project secret_identifier token
                   tags description secret_manager in
  host <- check_env "PLUGIN_HARNESS_URL" (Some "app.harness.io") ;;
  api_key <- check_env "PLUGIN_HARNESS_PLATFORM_API_KEY" None ;;
  response <- call (requests_post
                      (secrets_endpoint host)
                      [("Harness-Account", harness_account); ("x-api-key", api_key)]
                      params payload) ;;
  try_except (raise_for_status response) is_Exception
    (fun e => perform (print (text response)) ;; raise e) ;;
  ret true.

(** [response.json()] *)
Definition response_json (response : Response) : reply json :=
  match json_body response with
  | Some value => Ok value
  | None => Err (JSONDecodeError "Expecting value")
  end.

(** [data.get(key)]: only a JSON object (a [dict]) has [get]; a missing
    key gives [None]. *)
Definition json_get (data : json) (key : string) : reply json :=
  match data with
  | JObj members =>
      Ok (match dict_get key members with Some value => value | None => JNull end)
  | _ => Err (AttributeError "object has no attribute 'get'")
  end.

Definition is_JStr (s : string) (j : json) : bool :=
  match j with JStr s' => String.eqb s' s | _ => false end.

(** [needle in container] for a string [needle]: substring of a string,
    element of a list, key of a dict; [None], booleans and numbers are
    not iterable. *)
Definition py_in (needle : string) (container : json) : reply bool :=
  match container with
  | JStr s => Ok (PyStr.contains needle s)
  | JArr items => Ok (existsb (is_JStr needle) items)
  | JObj members => Ok (dict_has needle members)
  | JNull | JBool _ | JNum _ => Err (TypeError "argument is not iterable")
  end.

Definition lift {A} (r : reply A) : py A := Ret (of_reply r).
Arguments lift {A} r /.

Definition update_harness_secret
    (harness_account harness_org harness_project secret_identifier token : string)
    (tags : json) (description secret_manager : string) : py bool :=
  let params := secret_params harness_account harness_org harness_project in
  let payload := secret_payload harness_org harness_project secret_identifier token
                   tags description secret_manager in
  host <- check_env "PLUGIN_HARNESS_URL" (Some "app.harness.io") ;;
  api_key <- check_env "PLUGIN_HARNESS_PLATFORM_API_KEY" None ;;
  response <- call (requests_put
                      (secrets_endpoint host ++ "/" ++ secret_identifier)
                      [("Harness-Account", harness_account); ("x-api-key", api_key)]
                      params payload) ;;
  (* [Some r]: the [except] block returned [r]; [None]: control reaches
     the statement after the [try]. *)
  returned <- try_except (raise_for_status response ;; ret None) is_Exception
    (fun e =>
       fallback <- try_except
         (data <- lift (response_json response) ;;
          message <- lift (json_get data "message") ;;
          found <- lift (py_in "No such secret found" message) ;;
          if found : bool
          then
            created <- create_harness_secret harness_account harness_org
                         harness_project secret_identifier token tags
                         description secret_manager ;;
            ret (Some created)
          else ret None)
         is_Exception
         (fun f => raise f) ;;
       match fallback with
       | Some created => ret (Some created)
       | None => perform (print (text response)) ;; raise e
       end) ;;
  match returned with
  | Some created => ret created
  | None => ret true
  end.

(** The loop [for secret in secrets] of [main]. *)
Fixpoint cleanup (namespace : string) (secrets : list secret_info) : py unit :=
  match secrets with
  | [] => ret tt
  | secret :: rest =>
      delete_k8s_secret namespace (name secret) None ;;
      perform (logging_info ("Deleted k8s secret: " ++ name secret)) ;;
      cleanup namespace rest
  end.

(** The name of the secret a rotation creates. *)
Definition new_token_name_of (service_account_name : string)
    (current_unix_timestamp : Z) : string :=
  service_account_name ++ "-" ++ PyStr.of_int current_unix_timestamp.

Definition token_labels (harness_account harness_org harness_project : string)
  : dict string :=
  ([("harness_account", harness_account)]
   ++ (if PyStr.truthy harness_org then [("harness_org", harness_org)] else [])
   ++ (if PyStr.truthy harness_project then [("harness_project", harness_project)] else [])
  )%list.

Definition main : py unit :=
  current_unix_timestamp <- perform time_time ;;
  namespace <- check_env "PLUGIN_NAMESPACE" (Some "harness-delegate-ng") ;;
  service_account_name <-
    check_env "PLUGIN_SERVICE_ACCOUNT_NAME" (Some "harness-delegate-ng") ;;
  harness_account <- check_env "PLUGIN_HARNESS_ACCOUNT" None ;;
  harness_org <- check_env "PLUGIN_HARNESS_ORG" None ;;
  harness_project <- check_env "PLUGIN_HARNESS_PROJECT" None ;;
  secret_identifier <- check_env "PLUGIN_SECRET_IDENTIFIER" (Some service_account_name) ;;
  tags_text <- check_env "PLUGIN_SECRET_TAGS" (Some "{}") ;;
  secret_tags <- lift (json_loads tags_text) ;;
  let new_token_name := new_token_name_of service_account_name current_unix_timestamp in
  let labels := token_labels harness_account harness_org harness_project in
  secrets <- list_k8s_secrets namespace service_account_name None ;;
  perform (logging_info ("Found " ++ PyStr.of_nat (length secrets)
                         ++ " existing secrets for service account "
                         ++ service_account_name)) ;;
  token <- create_service_account_token namespace service_account_name
             new_token_name labels None ;;
  perform (logging_info ("Created service account token: " ++ new_token_name)) ;;
  (* [false]: the [except] block returned from [main]. *)
  published <- try_except
    (description <- check_env "PLUGIN_SECRET_DESCRIPTION" (Some "created by automation") ;;
     secret_manager <- check_env "PLUGIN_SECRET_MANAGER" (Some "harnessSecretManager") ;;
     update_harness_secret harness_account harness_org harness_project
       secret_identifier token secret_tags description secret_manager ;;
     perform (logging_info ("Updated harness secret: " ++ secret_identifier)) ;;
     ret true)
    is_Exception
    (fun e =>
       perform (logging_error ("Failed to update harness secret: " ++ exn_str e)) ;;
       ret false) ;;
  if published : bool
  then
    delete_flag <- check_env "PLUGIN_DELETE_K8S_SECRETS" (Some EmptyString) ;;
    (if PyStr.truthy delete_flag then cleanup namespace secrets else ret tt) ;;
    write_outputs [("created_token", new_token_name);
                   ("updated_secret", secret_identifier)] ;;
    write_secret_outputs [("token", token)]
  else ret tt.

End Plugin.

(** ** What a trace shows *)

Definition status_is_error (response : Response) : bool :=
  ((400 <=? status_code response) && (status_code response <? 600))%bool.

(** The remote manager accepted the write: the call returned a response
    that [raise_for_status] lets through. *)
Definition accepted (r : reply Response) : bool :=
  match r with
  | Ok response => negb (status_is_error response)
  | Err _ => false
  end.

(** What reaches the caller when a remote call was not accepted and no
    fallback applies. *)
Definition failure_of (r : reply Response) : exn :=
  match r with
  | Ok response => HTTPError response
  | Err e => e
  end.

Inductive remote_call : Type := PUT | POST.

(** The kind and the reply of a request to the remote manager. *)
Definition remote_of (en : entry) : option (remote_call * reply Response) :=
  match en with
  | Entry e x =>
      match e in event X return X -> option (remote_call * reply Response) with
      | requests_put _ _ _ _ => fun r => Some (PUT, r)
      | requests_post _ _ _ _ => fun r => Some (POST, r)
      | _ => fun _ => None
      end x
  end.

Definition read_reply_of (en : entry) : option (reply V1Secret) :=
  match en with
  | Entry e x =>
      match e in event X return X -> option (reply V1Secret) with
      | read_namespaced_secret _ _ => fun r => Some r
      | _ => fun _ => None
      end x
  end.

(** The name and the reply of a deletion request. *)
Definition deletion_of (en : entry) : option (string * reply unit) :=
  match en with
  | Entry e x =>
      match e in event X return X -> option (string * reply unit) with
      | delete_namespaced_secret secret_name _ => fun r => Some (secret_name, r)
      | _ => fun _ => None
      end x
  end.

Definition written_file_of (en : entry) : option (string * list string) :=
  match en with
  | Entry e _ =>
      match e with
      | write_file path lines => Some (path, lines)
      | _ => None
      end
  end.

Definition sleep_of (en : entry) : option Z :=
  match en with
  | Entry e _ =>
      match e with
      | time_sleep seconds => Some seconds
      | _ => None
      end
  end.

(** A call to the cluster API or to the remote manager. *)
Definition is_external (en : entry) : bool :=
  match en with
  | Entry e _ =>
      match e with
      | list_namespaced_secret _ | create_namespaced_secret _ _
      | read_namespaced_secret _ _ | delete_namespaced_secret _ _
      | requests_put _ _ _ _ | requests_post _ _ _ _ => true
      | _ => false
      end
  end.

Fixpoint collect {B} (f : entry -> option B) (tr : list entry) : list B :=
  match tr with
  | [] => []
  | en :: rest =>
      match f en with
      | Some b => b :: collect f rest
      | None => collect f rest
      end
  end.

Definition is_put (c : remote_call * reply Response) : bool :=
  match fst c with PUT => true | POST => false end.

Definition is_post (c : remote_call * reply Response) : bool :=
  match fst c with PUT => false | POST => true end.

Definition remote_log := collect remote_of.
Definition remote_calls (tr : list entry) : list remote_call := map fst (remote_log tr).
Definition puts (tr : list entry) : list (reply Response) :=
  map snd (filter is_put (remote_log tr)).
Definition posts (tr : list entry) : list (reply Response) :=
  map snd (filter is_post (remote_log tr)).
Definition reads := collect read_reply_of.
Definition deletions := collect deletion_of.
Definition written_files := collect written_file_of.
Definition sleeps := collect sleep_of.
Definition external_calls (tr : list entry) : list entry := filter is_external tr.

(** The entry is a remote write that was accepted. *)
Definition accepts_write (en : entry) : bool :=
  match remote_of en with
  | Some (_, r) => accepted r
  | None => false
  end.

(** Some remote write of the trace was accepted. *)
Definition published (tr : list entry) : bool := existsb accepts_write tr.

(** The remote manager reports that the identifier does not exist, the way
    [update_harness_secret] recognises it: an error status whose JSON body
    is an object with a ["message"] that contains "No such secret found". *)
Definition says_not_found (r : reply Response) : bool :=
  match r with
  | Ok response =>
      (status_is_error response
       && match json_body response with
          | Some (JObj members) =>
              match dict_get "message" members with
              | Some (JStr s) => PyStr.contains "No such secret found" s
              | Some (JArr items) => existsb (is_JStr "No such secret found") items
              | Some (JObj keys) => dict_has "No such secret found" keys
              | _ => false
              end
          | _ => false
          end)%bool
  | Err _ => false
  end.

(** The events of a trace, without the answers. *)
Inductive called : Type :=
| Called (X : Type) (e : event X).
Arguments Called {X} e.

Definition call_of (en : entry) : called :=
  match en with Entry e _ => Called e end.

Definition calls (tr : list entry) : list called := map call_of tr.

(** One poll attempt that finds no token: the read and the wait after it. *)
Definition idle_attempt (namespace token_name : string) : list called :=
  [Called (read_namespaced_secret token_name namespace); Called (time_sleep 1)].

(** The reply shows a secret without token material. *)
Definition not_ready (x : reply V1Secret) : Prop :=
  exists secret_obj, x = Ok secret_obj /\ token_material secret_obj = None.

(** The reply to the first creation request of a trace, and the trace
    after it. *)
Fixpoint after_create (tr : list entry) : option (reply unit * list entry) :=
  match tr with
  | [] => None
  | Entry e x :: rest =>
      match e in event X return X -> option (reply unit * list entry) with
      | create_namespaced_secret _ _ => fun r => Some (r, rest)
      | _ => fun _ => after_create rest
      end x
  end.

(** The trace after a leading diagnostic line. *)
Definition skip_print (tr : list entry) : option (list entry) :=
  match tr with
  | Entry e _ :: rest =>
      match e with
      | print _ => Some rest
      | _ => None
      end
  | [] => None
  end.

(** A leading read request: the name, the namespace, the reply and the
    trace after it. *)
Definition next_read (tr : list entry)
  : option (string * string * reply V1Secret * list entry) :=
  match tr with
  | Entry e x :: rest =>
      match e in event X return X -> option (string * string * reply V1Secret * list entry) with
      | read_namespaced_secret secret_name namespace =>
          fun r => Some (secret_name, namespace, r, rest)
      | _ => fun _ => None
      end x
  | [] => None
  end.

(** No deletion request, no request to the remote manager and no output
    file. *)
Definition quiet (tr : list entry) : Prop :=
  deletions tr = [] /\ remote_log tr = [] /\ written_files tr = [].

(** The error of a deletion request that failed. *)
Definition failed_deletion_of (en : entry) : option exn :=
  match deletion_of en with
  | Some (_, Err e) => Some e
  | _ => None
  end.

Definition failed_deletions := collect failed_deletion_of.

(** [l1] is an initial segment of [l2]. *)
Definition initial_segment {B} (l1 l2 : list B) : Prop :=
  exists rest, l2 = (l1 ++ rest)%list.

(** The errors among the replies to deletion requests. *)
Fixpoint errors_of (ds : list (string * reply unit)) : list exn :=
  match ds with
  | [] => []
  | (_, Err e) :: rest => e :: errors_of rest
  | (_, Ok _) :: rest => errors_of rest
  end.

(** The diagnostics [logging.error] received. *)
Definition error_log_of (en : entry) : option string :=
  match en with
  | Entry e _ =>
      match e with
      | logging_error msg => Some msg
      | _ => None
      end
  end.

Definition error_log := collect error_log_of.

(** ** Every run of a tree *)

(** [wp p Q]: whatever the environment answers, [p] ends with a result and
    a trace that satisfy [Q]. *)
Fixpoint wp {A} (p : io A) (Q : A -> list entry -> Prop) : Prop :=
  match p with
  | Ret a => Q a []
  | Vis e k => forall x, wp (k x) (fun a tr => Q a (Entry e x :: tr))
  end.

(** [is_run p tr a]: the tree [p] can be played with the answers recorded
    in [tr] and then ends with [a]. *)
Inductive is_run {A : Type} : io A -> list entry -> A -> Prop :=
| is_run_Ret (a : A) : is_run (Ret a) [] a
| is_run_Vis (X : Type) (e : event X) (k : X -> io A) (x : X) (tr : list entry) (a : A) :
    is_run (k x) tr a -> is_run (Vis e k) (Entry e x :: tr) a.

(** ** Contracts: what every run of a function satisfies *)

(** How the body of a failed update decides between fallback, secondary
    error and the original error. *)
Definition fallback_post (o : outcome bool) (tr : list entry) : Prop :=
  match puts tr with
  | [Ok response] =>
      if status_is_error response
      then match json_body response with
           | None => o = Raise (JSONDecodeError "Expecting value") /\ posts tr = []
           | Some (JObj members) =>
               match dict_get "message" members with
               | None => o = Raise (TypeError "argument is not iterable")
                         /\ posts tr = []
               | Some (JStr s) =>
                   if PyStr.contains "No such secret found" s then True
                   else o = Raise (HTTPError response) /\ posts tr = []
               | Some (JArr items) =>
                   if existsb (is_JStr "No such secret found") items then True
                   else o = Raise (HTTPError response) /\ posts tr = []
               | Some (JObj keys) =>
                   if dict_has "No such secret found" keys then True
                   else o = Raise (HTTPError response) /\ posts tr = []
               | Some _ => o = Raise (TypeError "argument is not iterable")
                           /\ posts tr = []
               end
           | Some _ => o = Raise (AttributeError "object has no attribute 'get'")
                       /\ posts tr = []
           end
      else True
  | _ => True
  end.

(** What every run of the poll loop with [remaining] attempts left
    satisfies. *)
Section PollContract.

Variable b64decode_utf8 : string -> reply string.
Variables namespace token_name : string.
Variable max_retries : nat.

Definition poll_post (remaining : nat) (o : outcome string) (tr : list entry) : Prop :=
  (length (reads tr) <= remaining)%nat
  /\ (forall n secret_obj material,
         nth_error (reads tr) n = Some (Ok secret_obj) ->
         token_material secret_obj = Some material ->
         o = of_reply (b64decode_utf8 material)
         /\ length (reads tr) = S n
         /\ calls tr = (concat (repeat (idle_attempt namespace token_name) n)
                        ++ [Called (read_namespaced_secret token_name namespace)])%list)
  /\ ((forall x, In x (reads tr) -> not_ready x) ->
      calls tr = concat (repeat (idle_attempt namespace token_name) remaining)
      /\ o = Raise (Exception ("Token not populated after "
                               ++ PyStr.of_nat max_retries ++ " seconds"))).

End PollContract.

Section IssueContract.

Variable b64decode_utf8 : string -> reply string.
Variables namespace token_name : string.

(** [tr] is a run of the poll loop (ten attempts) that ends with [o],
    possibly followed by the diagnostic line of the outer handler. *)
Definition polled (o : outcome string) (tr : list entry) : Prop :=
  exists tp,
    is_run (poll_token b64decode_utf8 namespace token_name 10 10) tp o
    /\ (tr = tp \/ exists line, tr = (tp ++ [Entry (print line) tt])%list).

(** How a run of [create_service_account_token] continues after its
    creation request. *)
Definition issue_post (o : outcome string) (tr : list entry) : Prop :=
  match after_create tr with
  | None => True
  | Some (Ok _, rest) =>
      match skip_print rest with
      | Some rest' => polled o rest'
      | None => False
      end
  | Some (Err (ApiException status api_reason), rest) =>
      if status =? 409
      then match skip_print rest with
           | Some rest' =>
               match next_read rest' with
               | Some (secret_name, namespace', x, rest'') =>
                   secret_name = token_name /\ namespace' = namespace
                   /\ match x with
                      | Ok _ => polled o rest''
                      | Err e => o = Raise e
                      end
               | None => False
               end
           | None => False
           end
      else o = Raise (ApiException status api_reason)
  | Some (Err e, _) => o = Raise e
  end.

End IssueContract.

(** [published_before]: a remote write was accepted before [tr].  Every
    deletion request of [tr] comes after an accepted remote write. *)
Fixpoint deletions_after_publish (published_before : bool) (tr : list entry) : Prop :=
  match tr with
  | [] => True
  | en :: rest =>
      match deletion_of en with
      | Some _ => published_before = true
      | None => True
      end
      /\ deletions_after_publish (published_before || accepts_write en)%bool rest
  end.

(** After a deletion request that failed the run makes no further deletion
    request, writes no output and ends with the error of that request; an
    output is written only after the last deletion request. *)
Fixpoint aborts_on_failed_deletion (o : outcome unit) (tr : list entry) : Prop :=
  match tr with
  | [] => True
  | en :: rest =>
      match failed_deletion_of en with
      | Some e => deletions rest = [] /\ written_files rest = [] /\ o = Raise e
      | None =>
          (written_file_of en = None \/ deletions rest = [])
          /\ aborts_on_failed_deletion o rest
      end
  end.

(** What every run of the cleanup loop over [secrets] satisfies. *)
Definition cleanup_post (secrets : list secret_info) (o : outcome unit)
    (tr : list entry) : Prop :=
  remote_log tr = [] /\ written_files tr = []
  /\ aborts_on_failed_deletion o tr
  /\ initial_segment (map fst (deletions tr)) (map name secrets)
  /\ (o = Return tt ->
      map fst (deletions tr) = map name secrets /\ failed_deletions tr = [])
  /\ (forall code, o <> Exit code).

(** What every run of [update_harness_secret] satisfies, whatever the
    environment variables are. *)
Definition upsert_post (env : string -> option string) (o : outcome bool)
    (tr : list entry) : Prop :=
  deletions tr = [] /\ written_files tr = []
  /\ (o = Return true <-> published tr = true)
  /\ (forall v, o = Return v -> v = true)
  /\ (forall code, o = Exit code -> code = 1)
  /\ (env "PLUGIN_HARNESS_PLATFORM_API_KEY" = None -> remote_log tr = [] /\ o = Exit 1).

(** The deletion requests of [tr], if any, come after a complete call of
    [update_harness_secret] that returned [True]: nothing is deleted and
    no remote request is made before that call, nothing is deleted during
    it, and no remote request is made after it. *)
Definition deletes_only_after_publish (env : string -> option string)
    (tr : list entry) : Prop :=
  deletions tr = []
  \/ exists harness_account harness_org harness_project secret_identifier token
            tags description secret_manager t0 tu t2,
       tr = (t0 ++ tu ++ t2)%list
       /\ deletions t0 = [] /\ remote_log t0 = []
       /\ is_run (update_harness_secret env harness_account harness_org
                    harness_project secret_identifier token tags description
                    secret_manager) tu (Return true)
       /\ deletions tu = []
       /\ remote_log t2 = [].

(** ** A reference environment

    A cluster that stores secrets and fills in the token of a
    service-account-token secret some seconds after its creation, and a
    remote manager that stores one value per identifier.  It is used to
    play concrete runs; the general theorems do not depend on it. *)

Record Stored := {
  stored_namespace : string;
  stored_secret : V1Secret;
  (** seconds until the token controller populates the secret; 0: done *)
  populated_in : nat
}.

Record World := {
  now : Z;
  in_cluster : bool;
  cluster : list Stored;
  token_latency : nat;
  (** the token material (base64) the controller issues for a secret name *)
  mint : string -> string;
  remote : dict string
}.

Definition set_cluster (w : World) (c : list Stored) : World :=
  {| now := now w; in_cluster := in_cluster w; cluster := c;
     token_latency := token_latency w; mint := mint w; remote := remote w |}.

Definition set_remote (w : World) (r : dict string) : World :=
  {| now := now w; in_cluster := in_cluster w; cluster := cluster w;
     token_latency := token_latency w; mint := mint w; remote := r |}.

Definition is_secret (namespace secret_name : string) (s : Stored) : bool :=
  (String.eqb (stored_namespace s) namespace
   && String.eqb (metadata_name (stored_secret s)) secret_name)%bool.

Definition find_secret (namespace secret_name : string) (c : list Stored) : option Stored :=
  find (is_secret namespace secret_name) c.

Definition with_token (material : string) (s : V1Secret) : V1Secret :=
  {| metadata_name := metadata_name s;
     metadata_annotations := metadata_annotations s;
     metadata_labels := metadata_labels s;
     metadata_creation_timestamp := metadata_creation_timestamp s;
     secret_type := secret_type s;
     data := Some [("token", material)] |}.

Definition created_at (t : Z) (s : V1Secret) : V1Secret :=
  {| metadata_name := metadata_name s;
     metadata_annotations := metadata_annotations s;
     metadata_labels := metadata_labels s;
     metadata_creation_timestamp := Some (PyStr.of_int t);
     secret_type := secret_type s;
     data := data s |}.

(** The token controller, [seconds] later. *)
Definition controller (mint : string -> string) (seconds : nat) (s : Stored) : Stored :=
  match populated_in s with
  | O => s
  | S _ =>
      if Nat.leb (populated_in s) seconds
      then {| stored_namespace := stored_namespace s;
              stored_secret := with_token (mint (metadata_name (stored_secret s)))
                                 (stored_secret s);
              populated_in := 0 |}
      else {| stored_namespace := stored_namespace s;
              stored_secret := stored_secret s;
              populated_in := populated_in s - seconds |}
  end.

Definition store_secret (w : World) (namespace : string) (body : V1Secret) : Stored :=
  match token_latency w with
  | O => {| stored_namespace := namespace;
            stored_secret := with_token (mint w (metadata_name body))
                               (created_at (now w) body);
            populated_in := 0 |}
  | S _ => {| stored_namespace := namespace;
              stored_secret := created_at (now w) body;
              populated_in := token_latency w |}
  end.

Fixpoint json_path (path : list string) (j : json) : option json :=
  match path with
  | [] => Some j
  | key :: rest =>
      match j with
      | JObj members =>
          match dict_get key members with
          | Some v => json_path rest v
          | None => None
          end
      | _ => None
      end
  end.

Definition json_string (path : list string) (j : json) : string :=
  match json_path path j with
  | Some (JStr s) => s
  | _ => EmptyString
  end.

Fixpoint dict_set {V} (key : string) (v : V) (d : dict V) : dict V :=
  match d with
  | [] => [(key, v)]
  | (k, v') :: rest =>
      if String.eqb k key then (k, v) :: rest else (k, v') :: dict_set key v rest
  end.

Definition http_ok (target : string) : Response :=
  {| status_code := 200; reason := "OK"; url := target;
     text := "SUCCESS";
     json_body := Some (JObj [("status", JStr "SUCCESS")]) |}.

Definition http_not_found (target identifier : string) : Response :=
  {| status_code := 404; reason := "Not Found"; url := target;
     text := "No such secret found";
     json_body := Some (JObj [("status", JStr "ERROR");
                              ("message", JStr ("No such secret found [" ++ identifier ++ "]"))]) |}.

Definition http_duplicate (target identifier : string) : Response :=
  {| status_code := 400; reason := "Bad Request"; url := target;
     text := "Duplicate identifier";
     json_body := Some (JObj [("status", JStr "ERROR");
                              ("message", JStr ("Duplicate identifier [" ++ identifier ++ "]"))]) |}.

Definition world_step : handler World :=
  fun X e =>
    match e in event X return World -> X * World with
    | time_time => fun w => (now w, w)
    | time_sleep seconds =>
        fun w =>
          (tt, {| now := now w + seconds; in_cluster := in_cluster w;
                  cluster := map (controller (mint w) (Z.to_nat seconds)) (cluster w);
                  token_latency := token_latency w; mint := mint w;
                  remote := remote w |})
    | print _ | logging_info _ | logging_error _ | write_file _ _ => fun w => (tt, w)
    | load_incluster_config =>
        fun w =>
          (if in_cluster w then Ok tt
           else Err (ConfigException "Service host/port is not set."), w)
    | load_kube_config _ => fun w => (Ok tt, w)
    | list_namespaced_secret namespace =>
        fun w =>
          (Ok (map stored_secret
                 (filter (fun s => String.eqb (stored_namespace s) namespace) (cluster w))),
           w)
    | create_namespaced_secret namespace body =>
        fun w =>
          match find_secret namespace (metadata_name body) (cluster w) with
          | Some _ => (Err (ApiException 409 "Conflict"), w)
          | None => (Ok tt, set_cluster w (cluster w ++ [store_secret w namespace body]))
          end
    | read_namespaced_secret secret_name namespace =>
        fun w =>
          match find_secret namespace secret_name (cluster w) with
          | Some s => (Ok (stored_secret s), w)
          | None => (Err (ApiException 404 "Not Found"), w)
          end
    | delete_namespaced_secret secret_name namespace =>
        fun w =>
          match find_secret namespace secret_name (cluster w) with
          | Some _ =>
              (Ok tt, set_cluster w (filter (fun s => negb (is_secret namespace secret_name s))
                                            (cluster w)))
          | None => (Err (ApiException 404 "Not Found"), w)
          end
    | requests_put target _ _ payload =>
        fun w =>
          let identifier := json_string ["secret"; "identifier"] payload in
          if dict_has identifier (remote w)
          then (Ok (http_ok target),
                set_remote w (dict_set identifier
                                (json_string ["secret"; "spec"; "value"] payload)
                                (remote w)))
          else (Ok (http_not_found target identifier), w)
    | requests_post target _ _ payload =>
        fun w =>
          let identifier := json_string ["secret"; "identifier"] payload in
          if dict_has identifier (remote w)
          then (Ok (http_duplicate target identifier), w)
          else (Ok (http_ok target),
                set_remote w (dict_set identifier
                                (json_string ["secret"; "spec"; "value"] payload)
                                (remote w)))
    end.

(** Answer some events by [f] instead of the environment (a fault, or a
    scripted reply). *)
Definition override {W} (f : forall X, event X -> option X) (h : handler W) : handler W :=
  fun X e w =>
    match f X e with
    | Some x => (x, w)
    | None => h X e w
    end.

(** Something else changes the environment just before the events that
    [trigger] selects. *)
Definition meanwhile {W} (trigger : forall X, event X -> bool) (act : W -> W)
    (h : handler W) : handler W :=
  fun X e w => h X e (if trigger X e then act w else w).

(** The names of the secrets the cluster holds. *)
Definition secret_names (w : World) : list string :=
  map (fun s => metadata_name (stored_secret s)) (cluster w).

(** Scripted replies for [override]. *)
Definition put_replies (r : reply Response) : forall X, event X -> option X :=
  fun X e =>
    match e in event X return option X with
    | requests_put _ _ _ _ => Some r
    | _ => None
    end.

Definition deleting_fails (victim : string) (e' : exn) : forall X, event X -> option X :=
  fun X e =>
    match e in event X return option X with
    | delete_namespaced_secret secret_name _ =>
        if String.eqb secret_name victim then Some (Err e') else None
    | _ => None
    end.

Definition is_put_event : forall X, event X -> bool :=
  fun X e =>
    match e with
    | requests_put _ _ _ _ => true
    | _ => false
    end.

(** Another actor removes a secret from the cluster. *)
Definition removed (namespace secret_name : string) (w : World) : World :=
  set_cluster w (filter (fun s => negb (is_secret namespace secret_name s)) (cluster w)).

(** ** Sample inputs for concrete runs *)

Definition env_of (settings : dict string) : string -> option string :=
  fun variable => dict_get variable settings.

(** [json.loads] on the default tag text; other texts are rejected. *)
Definition loads_braces (s : string) : reply json :=
  if String.eqb s "{}" then Ok (JObj []) else Err (JSONDecodeError "Expecting value").

(** The decoder on the one token the sample cluster issues. *)
Definition decode_tok123 (s : string) : reply string :=
  if String.eqb s "dG9rMTIz" then Ok "tok123" else Err (ValueError "Incorrect padding").

Definition settings_a : dict string :=
  [("PLUGIN_NAMESPACE", "ns1");
   ("PLUGIN_SERVICE_ACCOUNT_NAME", "svc-a");
   ("PLUGIN_HARNESS_ACCOUNT", "acct");
   ("PLUGIN_HARNESS_ORG", EmptyString);
   ("PLUGIN_HARNESS_PROJECT", EmptyString);
   ("PLUGIN_SECRET_IDENTIFIER", "cred-svc-a");
   ("PLUGIN_HARNESS_PLATFORM_API_KEY", "pat.acct.key")].

(** The same, with cleanup requested. *)
Definition settings_cleanup : dict string :=
  (settings_a ++ [("PLUGIN_DELETE_K8S_SECRETS", "true")])%list.

(** A cluster without secrets and a remote manager without values, at
    second 1700000000; the controller takes [latency] seconds. *)
Definition fresh_world (latency : nat) : World :=
  {| now := 1700000000; in_cluster := true; cluster := [];
     token_latency := latency; mint := fun _ => "dG9rMTIz"; remote := [] |}.

Definition plugin_main (settings : dict string) : py unit :=
  main (env_of settings) loads_braces decode_tok123.

(** A "not found" reply whose message is a list, not a string. *)
Definition listed_message : Response :=
  {| status_code := 404; reason := "Not Found";
     url := "https://app.harness.io/gateway/ng/api/v2/secrets/cred-svc-a";
     text := "No such secret found";
     json_body := Some (JObj [("message", JArr [JStr "No such secret found"])]) |}.

(** A server error. *)
Definition server_error : Response :=
  {| status_code := 500; reason := "Internal Server Error";
     url := "https://app.harness.io/gateway/ng/api/v2/secrets/cred-svc-a";
     text := "upstream unavailable";
     json_body := Some (JObj [("message", JStr "upstream unavailable")]) |}.

(** A cluster in which the token secret ["svc-a-1700000000"] exists and
    will be populated in [latency] seconds. *)
Definition pending_world (latency : nat) : World :=
  {| now := 1700000000; in_cluster := true;
     cluster := [ {| stored_namespace := "ns1";
                     stored_secret :=
                       created_at 1700000000
                         (token_secret "svc-a" "svc-a-1700000000"
                            [("harness_account", "acct")]);
                     populated_in := latency |} ];
     token_latency := latency; mint := fun _ => "dG9rMTIz"; remote := [] |}.

(** A cluster that holds three populated token secrets of earlier
    rotations, and a remote manager that holds the credential. *)
Definition stale_secret (secret_name : string) : Stored :=
  {| stored_namespace := "ns1";
     stored_secret :=
       with_token "b2xk"
         (created_at 1699990000
            (token_secret "svc-a" secret_name [("harness_account", "acct")]));
     populated_in := 0 |}.

Definition stale_world : World :=
  {| now := 1700000000; in_cluster := true;
     cluster := [stale_secret "svc-a-1699990001";
                 stale_secret "svc-a-1699990002";
                 stale_secret "svc-a-1699990003"];
     token_latency := 0; mint := fun _ => "dG9rMTIz";
     remote := [("cred-svc-a", "old")] |}.

(** The settings without the remote API key. *)
Definition settings_without_key : dict string :=
  [("PLUGIN_NAMESPACE", "ns1");
   ("PLUGIN_SERVICE_ACCOUNT_NAME", "svc-a");
   ("PLUGIN_HARNESS_ACCOUNT", "acct");
   ("PLUGIN_HARNESS_ORG", EmptyString);
   ("PLUGIN_HARNESS_PROJECT", EmptyString);
   ("PLUGIN_SECRET_IDENTIFIER", "cred-svc-a");
   ("PLUGIN_DELETE_K8S_SECRETS", "true")].

(** The settings without the account identifier. *)
Definition settings_without_account : dict string :=
  [("PLUGIN_NAMESPACE", "ns1");
   ("PLUGIN_SERVICE_ACCOUNT_NAME", "svc-a");
   ("PLUGIN_HARNESS_PLATFORM_API_KEY", "pat.acct.key")].


(** ** The rest of the plugin *)

(** The loop of [get_k8s_secret] over the items of [secret.data] (a
    dictionary: its keys are distinct). *)
Fixpoint decode_items (b64decode_utf8 : string -> reply string) (items : dict string)
  : py (dict string) :=
  match items with
  | [] => ret []
  | (key, value) :: rest =>
      decoded <- lift (b64decode_utf8 value) ;;
      secret_data <- decode_items b64decode_utf8 rest ;;
      ret ((key, decoded) :: secret_data)
  end.

Definition get_k8s_secret (b64decode_utf8 : string -> reply string)
    (namespace name : string) (kubeconfig_path : option string) : py (dict string) :=
  try_except
    (load_k8s_config kubeconfig_path ;;
     secret <- call (read_namespaced_secret name namespace) ;;
     match data secret with
     | Some ((_ :: _) as items) => decode_items b64decode_utf8 items
     | _ => ret []
     end)
    is_ApiException
    (fun e =>
       perform (print ("Error retrieving secret '" ++ name ++ "' from namespace '"
                       ++ namespace ++ "': " ++ exn_str e)) ;;
       raise e).

(** ** More of what a trace shows *)

Definition list_reply_of (en : entry) : option (reply (list V1Secret)) :=
  match en with
  | Entry e x =>
      match e in event X return X -> option (reply (list V1Secret)) with
      | list_namespaced_secret _ => fun r => Some r
      | _ => fun _ => None
      end x
  end.

(** The body of a creation request. *)
Definition creation_of (en : entry) : option V1Secret :=
  match en with
  | Entry e _ =>
      match e with
      | create_namespaced_secret _ body => Some body
      | _ => None
      end
  end.

(** A request to the remote manager, as sent. *)
Record request := {
  method : remote_call;
  target : string;
  headers : dict string;
  params : dict string;
  payload : json
}.

Definition request_of (en : entry) : option request :=
  match en with
  | Entry e _ =>
      match e with
      | requests_put t h p j =>
          Some {| method := PUT; target := t; headers := h; params := p; payload := j |}
      | requests_post t h p j =>
          Some {| method := POST; target := t; headers := h; params := p; payload := j |}
      | _ => None
      end
  end.

Definition printed_of (en : entry) : option string :=
  match en with
  | Entry e _ =>
      match e with
      | print line => Some line
      | _ => None
      end
  end.

Definition list_replies := collect list_reply_of.
Definition creations := collect creation_of.
Definition requests := collect request_of.
Definition printed := collect printed_of.

(** The test of [list_k8s_secrets] on a secret name. *)
Definition name_matches (search_string secret_name : string) : bool :=
  (negb (PyStr.truthy search_string)
   || PyStr.contains (PyStr.lower search_string) (PyStr.lower secret_name))%bool.

(** The secrets [list_k8s_secrets] keeps of a listing. *)
Definition discovered (search_string : string) (secrets : list V1Secret)
  : list secret_info :=
  map secret_info_of
    (filter (fun secret => name_matches search_string (metadata_name secret)) secrets).

(** The value of a setting that has a default. *)
Definition setting (env : string -> option string) (variable default : string) : string :=
  match env variable with
  | Some value => value
  | None => default
  end.

(** The error is the conflict (409) of the cluster API. *)
Definition is_conflict (e : exn) : bool :=
  match e with
  | ApiException status _ => status =? 409
  | _ => false
  end.

(** What every run of the poll loop with [remaining] attempts left keeps
    within bounds. *)
Definition poll_bounds (b64decode_utf8 : string -> reply string) (remaining : nat)
    (o : outcome string) (tr : list entry) : Prop :=
  (length (reads tr) <= remaining)%nat
  /\ (length (sleeps tr) <= remaining)%nat
  /\ Forall (fun seconds => seconds = 1) (sleeps tr)
  /\ creations tr = [] /\ list_replies tr = []
  /\ match o with
     | Return token =>
         exists earlier secret_obj material,
           reads tr = (earlier ++ [Ok secret_obj])%list
           /\ token_material secret_obj = Some material
           /\ b64decode_utf8 material = Ok token
     | Raise _ => True
     | Exit _ => False
     end.

(** What every run of [create_service_account_token] keeps within bounds. *)
Definition issue_bounds (b64decode_utf8 : string -> reply string)
    (service_account token_name : string) (labels : dict string)
    (o : outcome string) (tr : list entry) : Prop :=
  (length (reads tr) <= 11)%nat
  /\ (length (sleeps tr) <= 10)%nat
  /\ Forall (fun seconds => seconds = 1) (sleeps tr)
  /\ initial_segment (creations tr) [token_secret service_account token_name labels]
  /\ list_replies tr = []
  /\ match after_create tr with
     | Some (Ok _, _) => (length (reads tr) <= 10)%nat
     | Some (Err e, _) =>
         if is_conflict e then True
         else o = Raise e /\ reads tr = [] /\ sleeps tr = []
     | None => reads tr = [] /\ sleeps tr = [] /\ creations tr = []
     end
  /\ match o with
     | Return token =>
         exists earlier secret_obj material,
           reads tr = (earlier ++ [Ok secret_obj])%list
           /\ token_material secret_obj = Some material
           /\ b64decode_utf8 material = Ok token
     | Raise _ => True
     | Exit _ => False
     end.

(** What every run of [list_k8s_secrets] satisfies. *)
Definition list_contract (search_string : string) (o : outcome (list secret_info))
    (tr : list entry) : Prop :=
  quiet tr /\ creations tr = [] /\ reads tr = []
  /\ match o with
     | Return found =>
         exists secrets,
           list_replies tr = [Ok secrets] /\ found = discovered search_string secrets
     | Raise e => list_replies tr = [] \/ list_replies tr = [Err e]
     | Exit _ => False
     end.

(** A scripted reply to creation requests, for [override]. *)
Definition create_replies (r : reply unit) : forall X, event X -> option X :=
  fun X e =>
    match e in event X return option X with
    | create_namespaced_secret _ _ => Some r
    | _ => None
    end.

(** The items of [secret.data]; none when the secret has no data. *)
Definition secret_items (secret : V1Secret) : dict string :=
  match data secret with
  | Some items => items
  | None => []
  end.

(** [decoded] holds the keys of [items] in the same order, each with the
    decoded value. *)
Definition decodes_to (b64decode_utf8 : string -> reply string)
    (items decoded : dict string) : Prop :=
  Forall2 (fun kv kv' => fst kv = fst kv' /\ b64decode_utf8 (snd kv) = Ok (snd kv'))
          items decoded.

(** [e] is the error of the first value of [items] that does not decode. *)
Definition first_undecodable (b64decode_utf8 : string -> reply string)
    (items : dict string) (e : exn) : Prop :=
  exists before key value after decoded,
    items = (before ++ (key, value) :: after)%list
    /\ decodes_to b64decode_utf8 before decoded
    /\ b64decode_utf8 value = Err e.

(** What every run of [get_k8s_secret] satisfies. *)
Definition get_contract (b64decode_utf8 : string -> reply string)
    (o : outcome (dict string)) (tr : list entry) : Prop :=
  quiet tr /\ creations tr = [] /\ list_replies tr = []
  /\ match o with
     | Return decoded =>
         exists secret,
           reads tr = [Ok secret]
           /\ decodes_to b64decode_utf8 (secret_items secret) decoded
     | Raise e =>
         reads tr = [] \/ reads tr = [Err e]
         \/ exists secret,
              reads tr = [Ok secret]
              /\ first_undecodable b64decode_utf8 (secret_items secret) e
     | Exit _ => False
     end.

(** The decoder on the two token materials of the sample clusters. *)
Definition decode_samples (s : string) : reply string :=
  if String.eqb s "dG9rMTIz" then Ok "tok123"
  else if String.eqb s "b2xk" then Ok "old"
  else Err (ValueError "Incorrect padding").

(** The request both remote calls build from the arguments, up to the
    method and the target. *)
Definition carries (env : string -> option string)
    (harness_account harness_org harness_project secret_identifier token : string)
    (tags : json) (description secret_manager : string) (q : request) : Prop :=
  headers q = [("Harness-Account", harness_account);
               ("x-api-key", setting env "PLUGIN_HARNESS_PLATFORM_API_KEY" EmptyString)]
  /\ params q = secret_params harness_account harness_org harness_project
  /\ payload q = secret_payload harness_org harness_project secret_identifier token
                   tags description secret_manager
  /\ target q
     = match method q with
       | PUT => secrets_endpoint (setting env "PLUGIN_HARNESS_URL" "app.harness.io")
                ++ "/" ++ secret_identifier
       | POST => secrets_endpoint (setting env "PLUGIN_HARNESS_URL" "app.harness.io")
       end.

(** The text printed for a remote call that was answered with an error
    status. *)
Definition error_text (r : reply Response) : list string :=
  match r with
  | Ok response => if status_is_error response then [text response] else []
  | Err _ => []
  end.

(** The last read of [tr] shows the token material that decodes to
    [token]. *)
Definition issued (b64decode_utf8 : string -> reply string) (tr : list entry)
    (token : string) : Prop :=
  exists earlier secret_obj material,
    reads tr = (earlier ++ [Ok secret_obj])%list
    /\ token_material secret_obj = Some material
    /\ b64decode_utf8 material = Ok token.

(** The setting [main] asks for when account, organisation or project
    is not set: the first of them that is missing. *)
Definition first_missing (env : string -> option string) : string :=
  match env "PLUGIN_HARNESS_ACCOUNT" with
  | None => "HARNESS_ACCOUNT"
  | Some _ =>
      match env "PLUGIN_HARNESS_ORG" with
      | None => "HARNESS_ORG"
      | Some _ => "HARNESS_PROJECT"
      end
  end.

(** The settings without the organisation. *)
Definition settings_without_org : dict string :=
  [("PLUGIN_NAMESPACE", "ns1");
   ("PLUGIN_SERVICE_ACCOUNT_NAME", "svc-a");
   ("PLUGIN_HARNESS_ACCOUNT", "acct");
   ("PLUGIN_HARNESS_PROJECT", "proj");
   ("PLUGIN_HARNESS_PLATFORM_API_KEY", "pat.acct.key")].

(** The settings with a tag text that is not JSON. *)
Definition settings_bad_tags : dict string :=
  (settings_a ++ [("PLUGIN_SECRET_TAGS", "{team: platform")])%list.

(** What a run of [main] shows once account, organisation and project
    are resolved and the tags are parsed. *)
Definition rotation_facts (env : string -> option string)
    (b64decode_utf8 : string -> reply string)
    (harness_account harness_org harness_project : string) (tags : json)
    (o : outcome unit) (tr : list entry) : Prop :=
  let service_account_name :=
    setting env "PLUGIN_SERVICE_ACCOUNT_NAME" "harness-delegate-ng" in
  let secret_identifier :=
    setting env "PLUGIN_SECRET_IDENTIFIER" service_account_name in
  let description := setting env "PLUGIN_SECRET_DESCRIPTION" "created by automation" in
  let secret_manager := setting env "PLUGIN_SECRET_MANAGER" "harnessSecretManager" in
  let delete_flag := setting env "PLUGIN_DELETE_K8S_SECRETS" EmptyString in
  exists current_unix_timestamp rest,
    let new_token_name :=
      new_token_name_of service_account_name current_unix_timestamp in
    tr = Entry time_time current_unix_timestamp :: rest
    /\ (length (list_replies tr) <= 1)%nat
    /\ initial_segment (creations tr)
         [token_secret service_account_name new_token_name
            (token_labels harness_account harness_org harness_project)]
    /\ (creations tr <> [] -> exists secrets, list_replies tr = [Ok secrets])
    /\ (reads tr <> [] -> creations tr <> [])
    /\ (requests tr <> [] ->
        exists token,
          issued b64decode_utf8 tr token
          /\ Forall (carries env harness_account harness_org harness_project
                       secret_identifier token tags description secret_manager)
               (requests tr))
    /\ (deletions tr <> [] ->
        PyStr.truthy delete_flag = true
        /\ exists secrets,
             list_replies tr = [Ok secrets]
             /\ initial_segment (map fst (deletions tr))
                  (map name (discovered service_account_name secrets)))
    /\ (written_files tr <> [] ->
        o = Return tt /\ published tr = true /\ failed_deletions tr = []
        /\ exists token secrets,
             issued b64decode_utf8 tr token
             /\ list_replies tr = [Ok secrets]
             /\ written_files tr
                = [(setting env "DRONE_OUTPUT" "DRONE_OUTPUT.env",
                    output_lines [("created_token", new_token_name);
                                  ("updated_secret", secret_identifier)]);
                   (setting env "HARNESS_OUTPUT_SECRET_FILE" "HARNESS_OUTPUT_SECRET.env",
                    output_lines [("token", token)])]
             /\ (PyStr.truthy delete_flag = true ->
                 map fst (deletions tr)
                 = map name (discovered service_account_name secrets)))
    /\ (forall code,
           o = Exit code ->
           code = 1
           /\ exists secrets token,
                list_replies tr = [Ok secrets]
                /\ creations tr <> []
                /\ issued b64decode_utf8 tr token).

(** The run stopped while resolving its settings: after reading the
    clock it printed at most one line. *)
Definition stopped_early (tr : list entry) : Prop :=
  exists current_unix_timestamp,
    tr = [Entry time_time current_unix_timestamp]
    \/ exists line, tr = [Entry time_time current_unix_timestamp; Entry (print line) tt].

(** The namespace a request to the cluster addresses. *)
Definition namespace_of (en : entry) : option string :=
  match en with
  | Entry e _ =>
      match e with
      | list_namespaced_secret namespace => Some namespace
      | create_namespaced_secret namespace _ => Some namespace
      | read_namespaced_secret _ namespace => Some namespace
      | delete_namespaced_secret _ namespace => Some namespace
      | _ => None
      end
  end.

(** The name of the secret a read request asks for. *)
Definition read_name_of (en : entry) : option string :=
  match en with
  | Entry e _ =>
      match e with
      | read_namespaced_secret secret_name _ => Some secret_name
      | _ => None
      end
  end.

Definition namespaces := collect namespace_of.
Definition read_names := collect read_name_of.

(** Every request to the cluster addresses [namespace], and every read
    asks for [token_name]. *)
Definition stays_in (namespace token_name : string) (tr : list entry) : Prop :=
  Forall (eq namespace) (namespaces tr) /\ Forall (eq token_name) (read_names tr).



(** * Properties *)

(** ** Traces and weakest preconditions *)

Lemma collect_app {B} (f : entry -> option B) (t1 t2 : list entry) :
  collect f (t1 ++ t2) = (collect f t1 ++ collect f t2)%list.
Proof.
  induction t1 as [|en t1 IH]; simpl; [reflexivity|].
  destruct (f en); simpl; now rewrite IH.
Qed.

Lemma wp_sound {A} (p : io A) (Q : A -> list entry -> Prop) :
  wp p Q ->
  forall W (h : handler W) (w : W), Q (result (run h p w)) (trace (run h p w)).
Proof.
  revert Q; induction p as [a|X e k IH]; intros Q Hwp W h w; simpl in *.
  - exact Hwp.
  - apply (IH (fst (h X e w)) _ (Hwp _)).
Qed.

Lemma wp_mono {A} (p : io A) (Q Q' : A -> list entry -> Prop) :
  wp p Q -> (forall a tr, Q a tr -> Q' a tr) -> wp p Q'.
Proof.
  revert Q Q'; induction p as [a|X e k IH]; intros Q Q' Hwp Himp; simpl in *.
  - auto.
  - intro x. eapply IH; [apply Hwp|]. intros; apply Himp; assumption.
Qed.

Lemma wp_bind {A B} (p : io A) (f : A -> io B) (Q : B -> list entry -> Prop) :
  wp p (fun a t1 => wp (f a) (fun b t2 => Q b (t1 ++ t2)%list)) ->
  wp (bind p f) Q.
Proof.
  revert Q; induction p as [a|X e k IH]; intros Q Hwp; simpl in *.
  - eapply wp_mono; [exact Hwp|]. intros; assumption.
  - intro x. apply IH. eapply wp_mono; [apply Hwp|].
    intros a t1 H. exact H.
Qed.

Lemma wp_pbind {A B} (p : py A) (f : A -> py B) (Q : outcome B -> list entry -> Prop) :
  wp p (fun o t1 =>
          match o with
          | Return a => wp (f a) (fun b t2 => Q b (t1 ++ t2)%list)
          | Raise e => Q (Raise e) t1
          | Exit c => Q (Exit c) t1
          end) ->
  wp (pbind p f) Q.
Proof.
  intro H. unfold pbind. apply wp_bind.
  eapply wp_mono; [exact H|].
  intros [a|e|c] t1 Ho; simpl; rewrite ?app_nil_r; assumption.
Qed.

Lemma wp_try_except {A} (p : py A) (caught : exn -> bool) (hd : exn -> py A)
    (Q : outcome A -> list entry -> Prop) :
  wp p (fun o t1 =>
          match o with
          | Raise e =>
              if caught e then wp (hd e) (fun b t2 => Q b (t1 ++ t2)%list)
              else Q (Raise e) t1
          | _ => Q o t1
          end) ->
  wp (try_except p caught hd) Q.
Proof.
  intro H. unfold try_except. apply wp_bind.
  eapply wp_mono; [exact H|].
  intros [a|e|c] t1 Ho; simpl; rewrite ?app_nil_r; try assumption.
  destruct (caught e); simpl; rewrite ?app_nil_r; assumption.
Qed.

(** The run of a sequence is the run of its first part followed by the run
    of the rest. *)
Lemma run_bind {W A B} (h : handler W) (p : io A) (f : A -> io B) (w : W) :
  run h (bind p f) w =
  let r1 := run h p w in
  let r2 := run h (f (result r1)) (world r1) in
  Ran (result r2) (trace r1 ++ trace r2) (world r2).
Proof.
  revert w; induction p as [a|X e k IH]; intro w; simpl.
  - destruct (run h (f a) w); reflexivity.
  - rewrite IH. reflexivity.
Qed.

(** ** Tactics *)

(** Symbolic execution of a tree: answer each event with an arbitrary
    reply and split on whatever the program inspects. *)
Ltac split_innermost x :=
  lazymatch x with
  | context [match ?y with _ => _ end] => split_innermost y
  | _ => destruct x eqn:?
  end.

Ltac wp_split :=
  match goal with
  | |- wp ?p _ =>
      match p with
      | context [of_reply ?x] => is_var x; destruct x
      | context [match ?x with _ => _ end] => split_innermost x
      end
  end.

Ltac wp_run := repeat (simpl; intros; try wp_split).

Ltac observe :=
  unfold puts, posts, reads, deletions, written_files, sleeps, remote_calls,
    remote_log, external_calls, published, accepts_write; simpl.


(** Continue a symbolic execution through a call whose contract is known. *)
Ltac wp_focus contract :=
  lazymatch goal with
  | |- wp (bind _ _) _ => apply wp_bind; wp_focus contract
  | |- _ => eapply wp_mono; [apply contract|]; cbv beta
  end.

(** ** The remote upsert *)

Section Upsert.

Variable env : string -> option string.
Variable api_key : string.
Hypothesis api_key_set : env "PLUGIN_HARNESS_PLATFORM_API_KEY" = Some api_key.

Variables harness_account harness_org harness_project : string.
Variables secret_identifier token : string.
Variable tags : json.
Variables description secret_manager : string.

Lemma upsert_wp :
  wp (update_harness_secret env harness_account harness_org harness_project
        secret_identifier token tags description secret_manager) (fun o tr =>
    match puts tr with
    | [put_reply] =>
      remote_calls tr = PUT :: map (fun _ => POST) (posts tr)
      /\ if says_not_found put_reply
         then match posts tr with
              | [post_reply] =>
                  o = if accepted post_reply then Return true
                      else Raise (failure_of post_reply)
              | _ => False
              end
         else posts tr = []
              /\ if accepted put_reply then o = Return true
                 else exists e, o = Raise e
    | _ => False
    end).
Proof.
  unfold update_harness_secret, create_harness_secret, check_env, getenv.
  rewrite api_key_set.
  unfold raise_for_status, response_json, json_get, py_in.
  unfold says_not_found, accepted, status_is_error.
  destruct (env "PLUGIN_HARNESS_URL") as [host|]; simpl.
  all: intros [[st rs u tx jb]|e]; simpl.
  all: wp_run.
  all: observe; repeat split; eauto.
Qed.
End Upsert.

(** C4. The upsert issues one update request first.  It issues a create
    request, exactly one and after the update, if and only if the reply to
    the update reports that the secret does not exist; it never repeats
    the update.  The result of the create is then the result of the
    upsert, so a failed create reaches the caller; an update that fails in
    any other way reaches the caller as an exception too. *)
Theorem update_then_create_on_not_found :
  forall (env : string -> option string) (api_key : string),
    env "PLUGIN_HARNESS_PLATFORM_API_KEY" = Some api_key ->
    forall (harness_account harness_org harness_project secret_identifier token : string)
           (tags : json) (description secret_manager : string)
           (W : Type) (h : handler W) (w : W),
      let r := run h (update_harness_secret env harness_account harness_org
                        harness_project secret_identifier token tags description
                        secret_manager) w in
      exists put_reply,
        puts (trace r) = [put_reply]
        /\ remote_calls (trace r) = PUT :: map (fun _ => POST) (posts (trace r))
        /\ (says_not_found put_reply = true ->
            exists post_reply,
              posts (trace r) = [post_reply]
              /\ result r = if accepted post_reply then Return true
                            else Raise (failure_of post_reply))
        /\ (says_not_found put_reply = false ->
            posts (trace r) = []
            /\ if accepted put_reply then result r = Return true
               else exists e, result r = Raise e).
Proof.
  intros env api_key Hkey account org project identifier token tags description
    manager W h w r.
  pose proof (wp_sound _ _ (upsert_wp env Hkey account org project identifier token
                              tags description manager) h w) as H.
  fold r in H. cbv beta in H.
  destruct (puts (trace r)) as [|put_reply [|? ?]]; try contradiction.
  exists put_reply. destruct H as [Hcalls H].
  split; [reflexivity|]. split; [exact Hcalls|].
  destruct (says_not_found put_reply).
  - split; [|discriminate]. intros _.
    destruct (posts (trace r)) as [|post_reply [|? ?]]; try contradiction.
    exists post_reply. split; [reflexivity|exact H].
  - split; [discriminate|]. intros _. exact H.
Qed.

Lemma update_then_create_on_not_found_witness :
  env_of settings_a "PLUGIN_HARNESS_PLATFORM_API_KEY" = Some "pat.acct.key"
  /\ let r := run world_step
                (update_harness_secret (env_of settings_a) "acct" EmptyString EmptyString
                   "cred-svc-a" "tok123" (JObj []) "created by automation"
                   "harnessSecretManager") (fresh_world 0) in
     exists put_reply,
       puts (trace r) = [put_reply]
       /\ remote_calls (trace r) = PUT :: map (fun _ => POST) (posts (trace r))
       /\ (says_not_found put_reply = true ->
           exists post_reply,
             posts (trace r) = [post_reply]
             /\ result r = if accepted post_reply then Return true
                           else Raise (failure_of post_reply))
       /\ (says_not_found put_reply = false ->
           posts (trace r) = []
           /\ if accepted put_reply then result r = Return true
              else exists e, result r = Raise e).
Proof.
  split; [reflexivity|].
  apply (@update_then_create_on_not_found (env_of settings_a) "pat.acct.key").
  reflexivity.
Defined.

Lemma existsb_is_JStr (needle : string) (items : list json) :
  existsb (is_JStr needle) items = true -> In (JStr needle) items.
Proof.
  induction items as [|j items IH]; simpl; [discriminate|].
  destruct (is_JStr needle j) eqn:Hj; simpl.
  - intros _. left. destruct j; try discriminate.
    simpl in Hj. apply String.eqb_eq in Hj. now subst.
  - intro H. right. auto.
Qed.

Section Fallback.

Variable env : string -> option string.
Variable api_key : string.
Hypothesis api_key_set : env "PLUGIN_HARNESS_PLATFORM_API_KEY" = Some api_key.

Variables harness_account harness_org harness_project : string.
Variables secret_identifier token : string.
Variable tags : json.
Variables description secret_manager : string.

Lemma fallback_wp :
  wp (update_harness_secret env harness_account harness_org harness_project
        secret_identifier token tags description secret_manager) fallback_post.
Proof.
  unfold update_harness_secret, create_harness_secret, check_env, getenv.
  rewrite api_key_set.
  unfold raise_for_status, response_json, json_get, py_in, fallback_post.
  unfold status_is_error.
  destruct (env "PLUGIN_HARNESS_URL") as [host|]; simpl.
  all: intros [[st rs u tx jb]|e]; simpl.
  all: wp_run.
  all: observe; rewrite ?Heqb; simpl; repeat split; eauto.
Qed.

End Fallback.

(** C10 (amended). When the update fails with an error status: a body that
    is not JSON makes the upsert end with the decoding error, and a JSON
    object without a ["message"] with the type error of the membership
    test on [None]; neither is the HTTP error, and no create is attempted.
    A create is attempted only if the body is a JSON object whose
    ["message"] holds "No such secret found" the way Python's [in] reads
    it: as a substring of a string, an element of a list or a key of an
    object. *)
Theorem fallback_needs_message :
  forall (env : string -> option string) (api_key : string),
    env "PLUGIN_HARNESS_PLATFORM_API_KEY" = Some api_key ->
    forall (harness_account harness_org harness_project secret_identifier token : string)
           (tags : json) (description secret_manager : string)
           (W : Type) (h : handler W) (w : W),
      let r := run h (update_harness_secret env harness_account harness_org
                        harness_project secret_identifier token tags description
                        secret_manager) w in
      forall response : Response,
        puts (trace r) = [Ok response] ->
        status_is_error response = true ->
        (json_body response = None ->
         result r = Raise (JSONDecodeError "Expecting value") /\ posts (trace r) = [])
        /\ (forall members,
               json_body response = Some (JObj members) ->
               dict_get "message" members = None ->
               result r = Raise (TypeError "argument is not iterable")
               /\ posts (trace r) = [])
        /\ (posts (trace r) <> [] ->
            exists members message,
              json_body response = Some (JObj members)
              /\ dict_get "message" members = Some message
              /\ ((exists s, message = JStr s
                             /\ PyStr.contains "No such secret found" s = true)
                  \/ (exists items, message = JArr items
                                    /\ In (JStr "No such secret found") items)
                  \/ (exists keys, message = JObj keys
                                   /\ dict_has "No such secret found" keys = true))).
Proof.
  intros env api_key Hkey account org project identifier token tags description
    manager W h w r response Hput Herr.
  pose proof (wp_sound _ _ (fallback_wp env Hkey account org project identifier token
                              tags description manager) h w) as H.
  fold r in H. unfold fallback_post in H. rewrite Hput, Herr in H.
  split; [|split].
  - intro Hnone. rewrite Hnone in H. exact H.
  - intros members Hbody Hmsg. rewrite Hbody, Hmsg in H. exact H.
  - intro Hposts.
    destruct (json_body response) as [[| | | | |members]|];
      try (destruct H as [_ H]; contradiction).
    destruct (dict_get "message" members) as [message|] eqn:Hmsg;
      [|destruct H as [_ H]; contradiction].
    exists members, message. split; [reflexivity|]. split; [exact Hmsg|].
    destruct message as [| | |s|items|keys];
      try (destruct H as [_ H]; contradiction).
    + left. exists s. split; [reflexivity|].
      destruct (PyStr.contains "No such secret found" s); [reflexivity|].
      destruct H as [_ H]; contradiction.
    + right; left. exists items. split; [reflexivity|].
      apply existsb_is_JStr.
      destruct (existsb (is_JStr "No such secret found") items); [reflexivity|].
      destruct H as [_ H]; contradiction.
    + right; right. exists keys. split; [reflexivity|].
      destruct (dict_has "No such secret found" keys); [reflexivity|].
      destruct H as [_ H]; contradiction.
Qed.

Lemma fallback_needs_message_witness :
  env_of settings_a "PLUGIN_HARNESS_PLATFORM_API_KEY" = Some "pat.acct.key"
  /\ let r := run (override (put_replies (Ok listed_message)) world_step)
                (update_harness_secret (env_of settings_a) "acct" EmptyString EmptyString
                   "cred-svc-a" "tok123" (JObj []) "created by automation"
                   "harnessSecretManager") (fresh_world 0) in
     puts (trace r) = [Ok listed_message]
     /\ status_is_error listed_message = true
     /\ (json_body listed_message = None ->
         result r = Raise (JSONDecodeError "Expecting value") /\ posts (trace r) = [])
     /\ (forall members,
            json_body listed_message = Some (JObj members) ->
            dict_get "message" members = None ->
            result r = Raise (TypeError "argument is not iterable")
            /\ posts (trace r) = [])
     /\ (posts (trace r) <> [] ->
         exists members message,
           json_body listed_message = Some (JObj members)
           /\ dict_get "message" members = Some message
           /\ ((exists s, message = JStr s
                          /\ PyStr.contains "No such secret found" s = true)
               \/ (exists items, message = JArr items
                                 /\ In (JStr "No such secret found") items)
               \/ (exists keys, message = JObj keys
                                /\ dict_has "No such secret found" keys = true))).
Proof.
  split; [reflexivity|].
  cbv zeta. split; [reflexivity|]. split; [reflexivity|].
  apply (@fallback_needs_message (env_of settings_a) "pat.acct.key" eq_refl
           "acct" EmptyString EmptyString "cred-svc-a" "tok123" (JObj [])
           "created by automation" "harnessSecretManager" World
           (override (put_replies (Ok listed_message)) world_step) (fresh_world 0)
           listed_message); reflexivity.
Defined.

(** C10, as stated, fails: an error body whose ["message"] is the list
    ["No such secret found"] holds no message string, and the create is
    attempted all the same. *)
Lemma fallback_on_listed_message :
  let r := run (override (put_replies (Ok listed_message)) world_step)
             (update_harness_secret (env_of settings_a) "acct" EmptyString EmptyString
                "cred-svc-a" "tok123" (JObj []) "created by automation"
                "harnessSecretManager") (fresh_world 0) in
  puts (trace r) = [Ok listed_message]
  /\ remote_calls (trace r) = [PUT; POST]
  /\ result r = Return true
  /\ ~ (exists members s,
          json_body listed_message = Some (JObj members)
          /\ dict_get "message" members = Some (JStr s)
          /\ PyStr.contains "No such secret found" s = true).
Proof.
  cbv zeta. split; [reflexivity|]. split; [reflexivity|]. split; [reflexivity|].
  intros (members & s & Hbody & Hmsg & _).
  simpl in Hbody. injection Hbody as <-. simpl in Hmsg. discriminate.
Qed.

(** ** Issuing a token *)

Lemma wp_is_run {A} (p : io A) : wp p (fun a tr => is_run p tr a).
Proof.
  induction p as [a|X e k IH]; simpl.
  - constructor.
  - intro x. eapply wp_mono; [apply IH|].
    intros a tr H. now constructor.
Qed.

Lemma run_is_run {W A} (h : handler W) (p : io A) (w : W) :
  is_run p (trace (run h p w)) (result (run h p w)).
Proof. apply (wp_sound _ _ (wp_is_run p)). Qed.

Lemma is_run_wp {A} (p : io A) (Q : A -> list entry -> Prop) :
  wp p Q -> forall tr a, is_run p tr a -> Q a tr.
Proof.
  intros Hwp tr a Hrun. revert Q Hwp.
  induction Hrun as [a|X e k x tr a Hrun IH]; intros Q Hwp; simpl in Hwp.
  - exact Hwp.
  - apply (IH _ (Hwp x)).
Qed.

Section Poll.

Variable b64decode_utf8 : string -> reply string.
Variables namespace token_name : string.
Variable max_retries : nat.

Lemma poll_wp (remaining : nat) :
  wp (poll_token b64decode_utf8 namespace token_name max_retries remaining)
     (poll_post b64decode_utf8 namespace token_name max_retries remaining).
Proof.
  induction remaining as [|fewer IH]; simpl.
  - unfold poll_post; simpl. split; [lia|]. split; [|auto].
    intros [|n] s m Hn; discriminate Hn.
  - intros [secret_obj|e]; simpl.
    + destruct (token_material secret_obj) as [material|] eqn:Hmat; simpl.
      * unfold poll_post; observe. split; [lia|]. split.
        -- intros [|n] s m Hn Hm; simpl in Hn.
           ++ injection Hn as <-. rewrite Hmat in Hm. injection Hm as <-.
              repeat split; reflexivity.
           ++ destruct n; discriminate Hn.
        -- intro Hall. destruct (Hall (Ok secret_obj)) as (s & Hs & Hnone).
           ++ now left.
           ++ injection Hs as <-. rewrite Hmat in Hnone. discriminate.
      * intros []. simpl. eapply wp_mono; [exact IH|].
        intros o tr (Hlen & Hfound & Hnever).
        unfold poll_post; observe. fold (reads tr). split; [lia|]. split.
        -- intros [|n] s m Hn Hm; simpl in Hn.
           ++ injection Hn as <-. rewrite Hmat in Hm. discriminate.
           ++ destruct (Hfound n s m Hn Hm) as (Ho & Hl & Hc).
              split; [exact Ho|]. split; [now rewrite Hl|].
              unfold calls in *. simpl. now rewrite Hc.
        -- intro Hall. destruct Hnever as (Hc & Ho).
           ++ intros x Hx. apply Hall. now right.
           ++ split; [|exact Ho]. unfold calls in *. simpl. now rewrite Hc.
    + unfold poll_post; observe. split; [lia|]. split.
      * intros [|n] s m Hn; simpl in Hn; [discriminate|destruct n; discriminate].
      * intro Hall. destruct (Hall (Err e)) as (s & Hs & _); [now left|discriminate].
Qed.

End Poll.

Opaque poll_token.

Section Issue.

Variable b64decode_utf8 : string -> reply string.
Variables namespace service_account token_name : string.
Variable labels : dict string.
Variable kubeconfig_path : option string.

Lemma issue_wp :
  wp (create_service_account_token b64decode_utf8 namespace service_account
        token_name labels kubeconfig_path)
     (issue_post b64decode_utf8 namespace token_name).
Proof.
  unfold create_service_account_token, load_k8s_config.
  destruct kubeconfig_path as [[|c path]|]; simpl.
  all: wp_run.
  all: try (wp_focus (@wp_is_run (outcome string)); intros o tp Hrun; wp_run).
  all: unfold issue_post; simpl;
    repeat match goal with H : (_ =? 409) = _ |- _ => rewrite H end;
    simpl; auto.
  all: repeat match goal with u : unit |- _ => destruct u end.
  all: try (repeat split; auto; exists tp; split; [exact Hrun|];
            rewrite ?app_nil_r; eauto; fail).
  all: try match goal with
       | H : is_ApiException ?e = false |- _ =>
           destruct e; try discriminate H; reflexivity
       end.
  all: congruence.
Qed.

End Issue.

Transparent poll_token.

(** C5. The poll loop makes at most ten read attempts.  If the attempt
    number [n + 1] is the one that shows the token material, the loop ends
    there with the decoded token: it has made [n + 1] reads, each of the
    [n] idle ones followed by a wait of one second.  If no attempt shows
    the material, the loop makes exactly ten reads, each followed by a
    wait of one second, and then raises "Token not populated after 10
    seconds" (the error the specification calls TokenNotReady).  In
    [create_service_account_token], after a creation request that
    succeeded, the call goes on with the poll loop, the result of which is
    the result of the call. *)
Theorem poll_until_ready_or_ten_attempts :
  forall (b64decode_utf8 : string -> reply string) (namespace token_name : string),
    (forall (W : Type) (h : handler W) (w : W),
        let r := run h (poll_token b64decode_utf8 namespace token_name 10 10) w in
        (length (reads (trace r)) <= 10)%nat
        /\ (forall n secret_obj material,
               nth_error (reads (trace r)) n = Some (Ok secret_obj) ->
               token_material secret_obj = Some material ->
               result r = of_reply (b64decode_utf8 material)
               /\ length (reads (trace r)) = S n
               /\ calls (trace r)
                  = (concat (repeat (idle_attempt namespace token_name) n)
                     ++ [Called (read_namespaced_secret token_name namespace)])%list)
        /\ ((forall x, In x (reads (trace r)) -> not_ready x) ->
            calls (trace r) = concat (repeat (idle_attempt namespace token_name) 10)
            /\ result r = Raise (Exception "Token not populated after 10 seconds")))
    /\ (forall (service_account : string) (labels : dict string)
               (kubeconfig_path : option string)
               (W : Type) (h : handler W) (w : W),
           let r := run h (create_service_account_token b64decode_utf8 namespace
                             service_account token_name labels kubeconfig_path) w in
           forall rest,
             after_create (trace r) = Some (Ok tt, rest) ->
             exists line tail,
               rest = Entry (print line) tt :: tail
               /\ polled b64decode_utf8 namespace token_name (result r) tail).
Proof.
  intros b64 namespace token_name. split.
  - intros W h w r.
    pose proof (wp_sound _ _ (poll_wp b64 namespace token_name 10 10) h w) as H.
    fold r in H. exact H.
  - intros sa labels kube W h w r rest Hafter.
    pose proof (wp_sound _ _ (issue_wp b64 namespace sa token_name labels kube) h w) as H.
    fold r in H. unfold issue_post in H. rewrite Hafter in H.
    destruct rest as [|[X e x] tail]; simpl in H; [contradiction|].
    destruct e; try contradiction. destruct x.
    exists line, tail. split; [reflexivity|exact H].
Qed.

Lemma poll_until_ready_or_ten_attempts_witness :
  (let r := run world_step (poll_token decode_tok123 "ns1" "svc-a-1700000000" 10 10)
              (pending_world 2) in
   exists secret_obj,
     nth_error (reads (trace r)) 2 = Some (Ok secret_obj)
     /\ token_material secret_obj = Some "dG9rMTIz"
     /\ result r = of_reply (decode_tok123 "dG9rMTIz")
     /\ length (reads (trace r)) = 3%nat
     /\ calls (trace r)
        = (concat (repeat (idle_attempt "ns1" "svc-a-1700000000") 2)
           ++ [Called (read_namespaced_secret "svc-a-1700000000" "ns1")])%list)
  /\ (let r := run world_step (poll_token decode_tok123 "ns1" "svc-a-1700000000" 10 10)
                 (pending_world 60) in
      (forall x, In x (reads (trace r)) -> not_ready x)
      /\ calls (trace r) = concat (repeat (idle_attempt "ns1" "svc-a-1700000000") 10)
      /\ result r = Raise (Exception "Token not populated after 10 seconds"))
  /\ (let r := run world_step
                 (create_service_account_token decode_tok123 "ns1" "svc-a"
                    "svc-a-1700000000" [("harness_account", "acct")] None)
                 (fresh_world 2) in
      exists rest,
        after_create (trace r) = Some (Ok tt, rest)
        /\ exists line tail,
             rest = Entry (print line) tt :: tail
             /\ polled decode_tok123 "ns1" "svc-a-1700000000" (result r) tail).
Proof.
  pose proof (poll_until_ready_or_ten_attempts decode_tok123 "ns1" "svc-a-1700000000")
    as [Hpoll Hissue].
  split; [|split].
  - cbv zeta.
    destruct (Hpoll World world_step (pending_world 2)) as (_ & Hfound & _).
    eexists. split; [reflexivity|]. split; [reflexivity|].
    eapply Hfound; reflexivity.
  - cbv zeta.
    destruct (Hpoll World world_step (pending_world 60)) as (_ & _ & Hnever).
    assert (Hall : forall x,
               In x (reads (trace (run world_step
                                     (poll_token decode_tok123 "ns1" "svc-a-1700000000" 10 10)
                                     (pending_world 60)))) -> not_ready x).
    { intros x Hx. vm_compute in Hx.
      repeat (destruct Hx as [<-|Hx]; [eexists; split; reflexivity|]).
      contradiction. }
    split; [exact Hall|]. apply Hnever. exact Hall.
  - cbv zeta. eexists. split; [reflexivity|].
    apply Hissue. reflexivity.
Defined.

(** ** Token-secret names *)

Lemma append_inj_r (s a b : string) : s ++ a = s ++ b -> a = b.
Proof.
  induction s as [|c s IH]; simpl; intro H.
  - exact H.
  - injection H as H. auto.
Qed.

Lemma of_int_inj (a b : Z) : PyStr.of_int a = PyStr.of_int b -> a = b.
Proof.
  unfold PyStr.of_int. intro H.
  assert (Hint : Z.to_int a = Z.to_int b).
  { pose proof (NilEmpty.isi (Z.to_int a)) as Ha.
    pose proof (NilEmpty.isi (Z.to_int b)) as Hb.
    rewrite H in Ha. rewrite Ha in Hb. now injection Hb. }
  rewrite <- (DecimalZ.of_to a), <- (DecimalZ.of_to b). now rewrite Hint.
Qed.

Lemma new_token_name_inj (service_account_name : string) (t1 t2 : Z) :
  new_token_name_of service_account_name t1 = new_token_name_of service_account_name t2 ->
  t1 = t2.
Proof.
  unfold new_token_name_of. intro H.
  apply append_inj_r in H. apply (append_inj_r "-") in H.
  now apply of_int_inj.
Qed.

(** C6. For one service account, rotations at different timestamps derive
    different token-secret names and rotations at the same timestamp the
    same name.  When the creation request of an issuance is answered with
    the conflict 409, the call does not fail with it: it prints that the
    secret exists, reads the secret once and, if that read returns, goes
    on with the poll loop, the result of which is the result of the
    call. *)
Theorem names_differ_and_conflict_polls :
  (forall (service_account_name : string) (t1 t2 : Z),
      t1 <> t2 ->
      new_token_name_of service_account_name t1
      <> new_token_name_of service_account_name t2)
  /\ (forall (service_account_name : string) (t1 t2 : Z),
         t1 = t2 ->
         new_token_name_of service_account_name t1
         = new_token_name_of service_account_name t2)
  /\ (forall (b64decode_utf8 : string -> reply string)
             (namespace service_account token_name : string) (labels : dict string)
             (kubeconfig_path : option string)
             (W : Type) (h : handler W) (w : W),
         let r := run h (create_service_account_token b64decode_utf8 namespace
                           service_account token_name labels kubeconfig_path) w in
         forall api_reason rest,
           after_create (trace r) = Some (Err (ApiException 409 api_reason), rest) ->
           exists line x tail,
             rest = Entry (print line) tt
                    :: Entry (read_namespaced_secret token_name namespace) x :: tail
             /\ match x with
                | Ok _ => polled b64decode_utf8 namespace token_name (result r) tail
                | Err e => result r = Raise e
                end).
Proof.
  split; [|split].
  - intros sa t1 t2 Hneq Heq. apply Hneq. now apply (new_token_name_inj sa).
  - intros sa t1 t2 ->. reflexivity.
  - intros b64 namespace sa token_name labels kube W h w r api_reason rest Hafter.
    pose proof (wp_sound _ _ (issue_wp b64 namespace sa token_name labels kube) h w) as H.
    fold r in H. unfold issue_post in H. rewrite Hafter in H. simpl in H.
    destruct rest as [|[X e x] rest]; simpl in H; [contradiction|].
    destruct e; try contradiction. destruct x.
    destruct rest as [|[X e x] tail]; simpl in H; [contradiction|].
    destruct e; try contradiction.
    destruct H as (-> & -> & H).
    exists line, x, tail. split; [reflexivity|exact H].
Qed.

Lemma names_differ_and_conflict_polls_witness :
  1700000000 <> 1700000001
  /\ new_token_name_of "svc-a" 1700000000 <> new_token_name_of "svc-a" 1700000001
  /\ new_token_name_of "svc-a" 1700000000 = new_token_name_of "svc-a" 1700000000
  /\ (let r := run world_step
                 (create_service_account_token decode_tok123 "ns1" "svc-a"
                    (new_token_name_of "svc-a" 1700000000)
                    [("harness_account", "acct")] None)
                 (pending_world 2) in
      exists rest,
        after_create (trace r) = Some (Err (ApiException 409 "Conflict"), rest)
        /\ result r = Return "tok123"
        /\ exists line x tail,
             rest = Entry (print line) tt
                    :: Entry (read_namespaced_secret
                                (new_token_name_of "svc-a" 1700000000) "ns1") x :: tail
             /\ match x with
                | Ok _ => polled decode_tok123 "ns1"
                            (new_token_name_of "svc-a" 1700000000) (result r) tail
                | Err e => result r = Raise e
                end).
Proof.
  destruct names_differ_and_conflict_polls as (Hdiff & Hsame & Hconflict).
  split; [lia|]. split; [apply Hdiff; lia|]. split; [apply Hsame; reflexivity|].
  cbv zeta. eexists. split; [reflexivity|]. split; [reflexivity|].
  eapply Hconflict. reflexivity.
Defined.

(** ** Traces: deletions, remote writes and outputs *)

Lemma published_app (t1 t2 : list entry) :
  published (t1 ++ t2) = (published t1 || published t2)%bool.
Proof. unfold published. apply existsb_app. Qed.

Lemma quiet_nil : quiet [].
Proof. repeat split. Qed.

Lemma quiet_app (t1 t2 : list entry) : quiet t1 -> quiet t2 -> quiet (t1 ++ t2).
Proof.
  unfold quiet, deletions, remote_log, written_files.
  intros (H1 & H2 & H3) (H4 & H5 & H6).
  rewrite !collect_app, H1, H2, H3, H4, H5, H6. repeat split.
Qed.

Lemma remote_log_nil_published (tr : list entry) :
  remote_log tr = [] -> published tr = false.
Proof.
  unfold remote_log, published.
  induction tr as [|en tr IH]; simpl; [reflexivity|].
  unfold accepts_write. destruct (remote_of en); [discriminate|]. exact IH.
Qed.

Lemma deletions_cons_nil (en : entry) (tr : list entry) :
  deletions (en :: tr) = [] -> deletion_of en = None /\ deletions tr = [].
Proof.
  unfold deletions; simpl. destruct (deletion_of en); [discriminate|]. auto.
Qed.

Lemma deletion_is_no_write (en : entry) (d : string * reply unit) :
  deletion_of en = Some d -> written_file_of en = None /\ remote_of en = None.
Proof. destruct en as [X e x]; destruct e; simpl; try discriminate; auto. Qed.

Lemma failed_deletion_is_deletion (en : entry) (e : exn) :
  failed_deletion_of en = Some e -> exists d, deletion_of en = Some d.
Proof.
  unfold failed_deletion_of. destruct (deletion_of en) as [d|]; [eauto|discriminate].
Qed.

Lemma no_deletions_no_failed (tr : list entry) :
  deletions tr = [] -> failed_deletions tr = [].
Proof.
  unfold deletions, failed_deletions.
  induction tr as [|en tr IH]; simpl; [reflexivity|].
  unfold failed_deletion_of at 1. destruct (deletion_of en); [discriminate|]. exact IH.
Qed.

Lemma dap_true (tr : list entry) : deletions_after_publish true tr.
Proof.
  induction tr as [|en tr IH]; simpl; [exact I|].
  split; [destruct (deletion_of en); auto|exact IH].
Qed.

Lemma dap_no_deletions (b : bool) (tr : list entry) :
  deletions tr = [] -> deletions_after_publish b tr.
Proof.
  revert b; induction tr as [|en tr IH]; intros b H; simpl; [exact I|].
  apply deletions_cons_nil in H as [Hen Htr]. rewrite Hen. auto.
Qed.

Lemma dap_app (b : bool) (t1 t2 : list entry) :
  deletions_after_publish b t1 ->
  deletions_after_publish (b || published t1) t2 ->
  deletions_after_publish b (t1 ++ t2).
Proof.
  revert b; induction t1 as [|en t1 IH]; intros b H1 H2; simpl in *.
  - now rewrite orb_false_r in H2.
  - destruct H1 as [Hen H1]. split; [exact Hen|].
    apply IH; [exact H1|]. now rewrite <- orb_assoc.
Qed.

Lemma dap_split (b : bool) (tr pre post : list entry) (en : entry)
    (d : string * reply unit) :
  deletions_after_publish b tr ->
  tr = (pre ++ en :: post)%list ->
  deletion_of en = Some d ->
  (b || published pre)%bool = true.
Proof.
  intros H -> Hen. revert b H.
  induction pre as [|x pre IH]; intros b H; simpl in *.
  - destruct H as [H _]. rewrite Hen in H. now rewrite H.
  - destruct H as [_ H]. apply IH in H. now rewrite <- orb_assoc in H.
Qed.

Lemma aofd_no_deletions (o : outcome unit) (tr : list entry) :
  deletions tr = [] -> aborts_on_failed_deletion o tr.
Proof.
  induction tr as [|en tr IH]; intro H; simpl; [exact I|].
  apply deletions_cons_nil in H as [Hen Htr].
  unfold failed_deletion_of. rewrite Hen. auto.
Qed.

Lemma aofd_app_quiet (o : outcome unit) (t1 t2 : list entry) :
  deletions t1 = [] -> written_files t1 = [] ->
  aborts_on_failed_deletion o t2 ->
  aborts_on_failed_deletion o (t1 ++ t2).
Proof.
  induction t1 as [|en t1 IH]; intros Hd Hw H2; simpl; [exact H2|].
  apply deletions_cons_nil in Hd as [Hen Hd].
  unfold failed_deletion_of. rewrite Hen.
  unfold written_files in Hw; simpl in Hw.
  destruct (written_file_of en); [discriminate|]. auto.
Qed.

Lemma aofd_app_ok (o : outcome unit) (t1 t2 : list entry) :
  failed_deletions t1 = [] -> written_files t1 = [] ->
  aborts_on_failed_deletion o t2 ->
  aborts_on_failed_deletion o (t1 ++ t2).
Proof.
  induction t1 as [|en t1 IH]; intros Hf Hw H2; simpl; [exact H2|].
  unfold failed_deletions in Hf; simpl in Hf.
  destruct (failed_deletion_of en); [discriminate|].
  unfold written_files in Hw; simpl in Hw.
  destruct (written_file_of en); [discriminate|]. auto.
Qed.

Lemma aofd_app_end (o : outcome unit) (t1 t2 : list entry) :
  aborts_on_failed_deletion o t1 ->
  deletions t2 = [] -> written_files t2 = [] ->
  aborts_on_failed_deletion o (t1 ++ t2).
Proof.
  induction t1 as [|en t1 IH]; intros H1 Hd Hw; simpl in *.
  - now apply aofd_no_deletions.
  - unfold deletions, written_files in *.
    destruct (failed_deletion_of en).
    + rewrite !collect_app, Hd, Hw, !app_nil_r. exact H1.
    + destruct H1 as [Hor H1]. split; [|auto].
      destruct Hor as [Hor|Hor]; [now left|right].
      now rewrite collect_app, Hor, Hd.
Qed.

Lemma aofd_split (o : outcome unit) (tr pre post : list entry) (en : entry) (e : exn) :
  aborts_on_failed_deletion o tr ->
  tr = (pre ++ en :: post)%list ->
  failed_deletion_of en = Some e ->
  deletions post = [] /\ written_files tr = [] /\ o = Raise e.
Proof.
  intros H -> Hen.
  destruct (failed_deletion_is_deletion _ Hen) as [d Hd].
  destruct (deletion_is_no_write _ Hd) as [Hw _].
  induction pre as [|x pre IH]; simpl in *.
  - rewrite Hen in H. destruct H as (H1 & H2 & H3).
    unfold written_files in *; simpl. rewrite Hw. auto.
  - assert (Hne : deletions (pre ++ en :: post) <> []).
    { unfold deletions. rewrite collect_app. simpl. rewrite Hd.
      destruct (collect deletion_of pre); discriminate. }
    destruct (failed_deletion_of x).
    + destruct H as [H _]. contradiction.
    + destruct H as [[Hx|Hx] H]; [|contradiction].
      destruct (IH H) as (H1 & H2 & H3).
      unfold written_files in *; simpl. rewrite Hx. auto.
Qed.

(** ** Contracts of the plugin's functions *)

Ltac collect_solve :=
  unfold quiet, deletions, failed_deletions, remote_log, written_files in *;
  simpl in *;
  repeat match goal with H : _ /\ _ |- _ => destruct H end;
  repeat (progress (rewrite ?collect_app;
                    repeat match goal with
                           | H : collect _ _ = [] |- _ => rewrite H
                           end;
                    simpl));
  auto.

Lemma check_env_wp (env : string -> option string) (variable : string)
    (default : option string) :
  wp (check_env env variable default)
     (fun o tr =>
        match getenv env variable default with
        | Some value => o = Return value /\ tr = []
        | None => o = Exit 1 /\ exists line, tr = [Entry (print line) tt]
        end).
Proof.
  unfold check_env. destruct (getenv env variable default); simpl; [auto|].
  intros []. eauto.
Qed.

Lemma load_quiet (kubeconfig_path : option string) :
  wp (load_k8s_config kubeconfig_path) (fun _ tr => quiet tr).
Proof.
  unfold load_k8s_config. destruct kubeconfig_path as [[|c path]|].
  all: wp_run; repeat split; reflexivity.
Qed.

Lemma list_quiet (namespace search_string : string) (kubeconfig_path : option string) :
  wp (list_k8s_secrets namespace search_string kubeconfig_path)
     (fun o tr => quiet tr /\ forall code, o <> Exit code).
Proof.
  unfold list_k8s_secrets, load_k8s_config. destruct kubeconfig_path as [[|c path]|].
  all: wp_run; repeat split; try reflexivity; discriminate.
Qed.

Lemma poll_quiet (b64decode_utf8 : string -> reply string)
    (namespace token_name : string) (max_retries remaining : nat) :
  wp (poll_token b64decode_utf8 namespace token_name max_retries remaining)
     (fun o tr => quiet tr /\ forall code, o <> Exit code).
Proof.
  induction remaining as [|fewer IH]; simpl.
  - split; [apply quiet_nil|discriminate].
  - intros [secret_obj|e]; simpl; [|repeat split; try reflexivity; discriminate].
    destruct (token_material secret_obj); simpl.
    + split; [repeat split; reflexivity|].
      destruct (b64decode_utf8 s); discriminate.
    + intros []. simpl. eapply wp_mono; [exact IH|].
      intros o tr [H Hne]. split; [collect_solve|exact Hne].
Qed.

Opaque poll_token.

Lemma issue_quiet (b64decode_utf8 : string -> reply string)
    (namespace service_account token_name : string) (labels : dict string)
    (kubeconfig_path : option string) :
  wp (create_service_account_token b64decode_utf8 namespace service_account
        token_name labels kubeconfig_path)
     (fun o tr => quiet tr /\ forall code, o <> Exit code).
Proof.
  unfold create_service_account_token, load_k8s_config.
  destruct kubeconfig_path as [[|c path]|]; simpl.
  all: wp_run.
  all: try (wp_focus poll_quiet; intros o tp [Hq Hne]; wp_run).
  all: split; [collect_solve|].
  all: try discriminate.
  all: try assumption.
Qed.

Transparent poll_token.

Lemma delete_wp (namespace secret_name : string) (kubeconfig_path : option string) :
  wp (delete_k8s_secret namespace secret_name kubeconfig_path)
     (fun o tr =>
        remote_log tr = [] /\ written_files tr = []
        /\ aborts_on_failed_deletion o tr
        /\ initial_segment (map fst (deletions tr)) [secret_name]
        /\ match o with
           | Return _ => deletions tr = [(secret_name, Ok tt)]
           | Raise e => deletions tr = [] \/ deletions tr = [(secret_name, Err e)]
           | Exit _ => False
           end).
Proof.
  unfold delete_k8s_secret, load_k8s_config. destruct kubeconfig_path as [[|c path]|].
  all: wp_run.
  all: repeat match goal with u : unit |- _ => destruct u end.
  all: unfold initial_segment; observe; unfold failed_deletion_of; simpl.
  all: repeat split; eauto.
Qed.

Lemma failed_of_deletions (tr : list entry) :
  failed_deletions tr = errors_of (deletions tr).
Proof.
  unfold failed_deletions, deletions.
  induction tr as [|en tr IH]; simpl; [reflexivity|].
  unfold failed_deletion_of at 1.
  destruct (deletion_of en) as [[n [u|e]]|]; simpl; now rewrite IH.
Qed.

Opaque delete_k8s_secret.

Lemma cleanup_wp (namespace : string) (secrets : list secret_info) :
  wp (cleanup namespace secrets) (cleanup_post secrets).
Proof.
  induction secrets as [|secret rest IH]; simpl.
  - unfold cleanup_post, initial_segment; observe.
    repeat split; eauto. discriminate.
  - wp_focus delete_wp.
    intros o t1 (Hr & Hw & Ha & Hseg & Ho).
    destruct o as [u|e|code]; [| |contradiction]; simpl.
    + intros []. eapply wp_mono; [exact IH|].
      intros o t2 (Hr2 & Hw2 & Ha2 & Hseg2 & Ho2 & Hx2).
      assert (Hf1 : failed_deletions t1 = [])
        by (rewrite failed_of_deletions, Ho; reflexivity).
      unfold cleanup_post. split; [collect_solve|]. split; [collect_solve|].
      split.
      { apply aofd_app_ok; auto. simpl. split; [now left|exact Ha2]. }
      unfold deletions in *. rewrite !collect_app, Ho. simpl.
      split.
      { destruct Hseg2 as [more Hmore]. exists more. simpl. now rewrite Hmore. }
      split; [|exact Hx2].
      intros ->. destruct (Ho2 eq_refl) as [Hn Hf2]. split; [now rewrite Hn|].
      unfold failed_deletions in *. rewrite collect_app, Hf1. exact Hf2.
    + unfold cleanup_post. rewrite !app_nil_r.
      split; [exact Hr|]. split; [exact Hw|]. split; [exact Ha|].
      split.
      { destruct Hseg as [more Hmore]. exists (more ++ map name rest)%list.
        rewrite app_assoc, <- Hmore. reflexivity. }
      split; [discriminate|discriminate].
Qed.

Transparent delete_k8s_secret.

Lemma upsert_any_env (env : string -> option string)
    (harness_account harness_org harness_project secret_identifier token : string)
    (tags : json) (description secret_manager : string) :
  wp (update_harness_secret env harness_account harness_org harness_project
        secret_identifier token tags description secret_manager)
     (upsert_post env).
Proof.
  unfold update_harness_secret, create_harness_secret, check_env, getenv.
  unfold raise_for_status, response_json, json_get, py_in, upsert_post.
  destruct (env "PLUGIN_HARNESS_PLATFORM_API_KEY") as [api_key|];
    destruct (env "PLUGIN_HARNESS_URL") as [host|]; simpl.
  all: wp_run.
  all: observe; unfold accepted, status_is_error; simpl.
  all: repeat match goal with H : (_ && _)%bool = _ |- _ => rewrite H end; simpl.
  all: repeat split; try discriminate; try congruence; auto.
Qed.

(** ** Runs of [main] *)

Lemma wp_any {A} (p : io A) : wp p (fun _ _ => True).
Proof. eapply wp_mono; [apply wp_is_run|]. auto. Qed.

Opaque check_env list_k8s_secrets create_service_account_token
  update_harness_secret cleanup.

(** One step of [main]: an event, or a call replaced by its contract. *)
Ltac head_of p :=
  lazymatch p with
  | bind ?q _ => head_of q
  | _ => p
  end.

Ltac env_step :=
  wp_focus check_env_wp;
  let o := fresh "o" in
  let t := fresh "t" in
  let H := fresh "Henv" in
  intros o t H;
  match type of H with
  | match getenv ?env ?v ?d with _ => _ end =>
      let E := fresh "Hget" in
      destruct (getenv env v d) eqn:E;
      [ destruct H as [-> ->]
      | destruct H as [-> [? ->]];
        try (unfold getenv in E; destruct (env v); discriminate E) ]
  end.

Ltac call_step contract :=
  wp_focus contract;
  let o := fresh "o" in
  let t := fresh "t" in
  let H := fresh "Hcall" in
  intros o t H; destruct o as [?|?|?].

Ltac quiet_step contract :=
  wp_focus contract;
  let o := fresh "o" in
  let t := fresh "t" in
  let H := fresh "Hcall" in
  let Hne := fresh "Hne" in
  intros o t [H Hne]; destruct o as [?|?|?];
  [ clear Hne | clear Hne | exfalso; eapply Hne; reflexivity ].

Ltac main_step :=
  simpl;
  lazymatch goal with
  | |- forall _, _ => intros ?
  | |- wp ?p _ =>
      let q := head_of p in
      lazymatch q with
      | check_env _ _ _ => env_step
      | list_k8s_secrets _ _ _ => quiet_step list_quiet
      | create_service_account_token _ _ _ _ _ _ => quiet_step issue_quiet
      | update_harness_secret _ _ _ _ _ _ _ _ _ => call_step upsert_any_env
      | cleanup _ _ => call_step cleanup_wp
      | match ?x with _ => _ end => destruct x eqn:?
      | andThen (of_reply ?x) _ => destruct x eqn:?
      end
  end.

(** What the contracts say about deletions and accepted writes. *)
Ltac known_facts :=
  repeat match goal with
  | u : unit |- _ => destruct u
  | H : quiet ?t |- _ =>
      let Hd := fresh "Hd" in
      let Hr := fresh "Hr" in
      let Hw := fresh "Hw" in
      destruct H as (Hd & Hr & Hw);
      pose proof (remote_log_nil_published _ Hr)
  | H : upsert_post _ (Return ?a) ?t |- _ =>
      let Hd := fresh "Hd" in
      let Hw := fresh "Hw" in
      let Hiff := fresh "Hiff" in
      let Hv := fresh "Hv" in
      let Hx := fresh "Hx" in
      let Hk := fresh "Hk" in
      destruct H as (Hd & Hw & Hiff & Hv & Hx & Hk);
      pose proof (Hv a eq_refl); subst a;
      pose proof (proj1 Hiff eq_refl)
  | H : upsert_post _ _ ?t |- _ =>
      let Hd := fresh "Hd" in
      let Hw := fresh "Hw" in
      let Hiff := fresh "Hiff" in
      let Hv := fresh "Hv" in
      let Hx := fresh "Hx" in
      let Hk := fresh "Hk" in
      destruct H as (Hd & Hw & Hiff & Hv & Hx & Hk)
  end.

Ltac dap_finish :=
  simpl; known_facts;
  repeat (unfold accepts_write; simpl;
          match goal with
          | |- True => exact I
          | |- _ /\ _ => split
          | |- deletions_after_publish true _ => apply dap_true
          | |- deletions_after_publish _ _ =>
              solve [apply dap_no_deletions; collect_solve]
          | |- deletions_after_publish _ ((_ ++ _) ++ _) => rewrite <- app_assoc
          | |- deletions_after_publish _ (?t ++ _) =>
              apply dap_app;
              [ solve [apply dap_no_deletions; assumption]
              | match goal with
                | H : published t = _ |- _ => rewrite H
                end ]
          end).

Ltac cleanup_facts :=
  repeat match goal with
  | H : cleanup_post _ (Return tt) ?t |- _ =>
      let Hr := fresh "Hr" in
      let Hw := fresh "Hw" in
      let Ha := fresh "Ha" in
      let Hseg := fresh "Hseg" in
      let Hret := fresh "Hret" in
      let Hx := fresh "Hx" in
      destruct H as (Hr & Hw & Ha & Hseg & Hret & Hx);
      destruct (Hret eq_refl)
  | H : cleanup_post _ _ ?t |- _ =>
      let Hr := fresh "Hr" in
      let Hw := fresh "Hw" in
      let Ha := fresh "Ha" in
      let Hseg := fresh "Hseg" in
      let Hret := fresh "Hret" in
      let Hx := fresh "Hx" in
      destruct H as (Hr & Hw & Ha & Hseg & Hret & Hx)
  end.

Ltac aofd_finish :=
  simpl; known_facts; cleanup_facts;
  repeat (unfold failed_deletion_of; simpl;
          match goal with
          | |- True => exact I
          | |- _ /\ _ => split
          | |- None = None \/ _ => left; reflexivity
          | |- _ \/ deletions _ = [] => right; reflexivity
          | |- aborts_on_failed_deletion _ _ =>
              solve [apply aofd_no_deletions; collect_solve]
          | |- aborts_on_failed_deletion _ ((_ ++ _) ++ _) => rewrite <- app_assoc
          | |- aborts_on_failed_deletion _ (?t ++ []) =>
              rewrite app_nil_r; assumption
          | |- aborts_on_failed_deletion _ (?t ++ _) =>
              first [ apply aofd_app_quiet; [assumption|assumption|]
                    | apply aofd_app_ok; [assumption|assumption|] ]
          end).

Section Main.

Variable env : string -> option string.
Variable json_loads : string -> reply json.
Variable b64decode_utf8 : string -> reply string.

Lemma main_deletions_after_publish :
  wp (main env json_loads b64decode_utf8)
     (fun _ tr => deletions_after_publish false tr).
Proof.
  unfold main.
  repeat main_step.
  all: dap_finish.
Qed.

Lemma main_aborts_on_failed_deletion :
  wp (main env json_loads b64decode_utf8) aborts_on_failed_deletion.
Proof.
  unfold main.
  repeat main_step.
  all: aofd_finish.
Qed.

Lemma main_without_api_key :
  env "PLUGIN_HARNESS_PLATFORM_API_KEY" = None ->
  wp (main env json_loads b64decode_utf8)
     (fun o tr =>
        remote_log tr = [] /\ deletions tr = [] /\ written_files tr = []
        /\ exit_status o = 1).
Proof.
  intro Hkey. unfold main.
  repeat main_step.
  all: simpl; known_facts.
  all: try match goal with
           | H : env "PLUGIN_HARNESS_PLATFORM_API_KEY" = None -> _ |- _ =>
               destruct (H Hkey) as [? ?]
           end.
  all: try discriminate.
  all: repeat split; try reflexivity; try solve [collect_solve].
Qed.

Lemma main_without_account :
  env "PLUGIN_HARNESS_ACCOUNT" = None ->
  wp (main env json_loads b64decode_utf8)
     (fun o tr => external_calls tr = [] /\ o = Exit 1).
Proof.
  intro Hacct. unfold main.
  repeat main_step.
  all: try match goal with
           | H : getenv env "PLUGIN_HARNESS_ACCOUNT" None = Some _ |- _ =>
               unfold getenv in H; rewrite Hacct in H; discriminate H
           end.
  all: simpl; split; reflexivity.
Qed.

End Main.

(** ** Deletions come after a successful publish *)

Lemma wp_conj {A} (p : io A) (Q1 Q2 : A -> list entry -> Prop) :
  wp p Q1 -> wp p Q2 -> wp p (fun a tr => Q1 a tr /\ Q2 a tr).
Proof.
  revert Q1 Q2; induction p as [a|X e k IH]; intros Q1 Q2 H1 H2; simpl in *.
  - auto.
  - intro x. apply (IH x _ _ (H1 x) (H2 x)).
Qed.

Transparent update_harness_secret.

Lemma upsert_run_env (env : string -> option string)
    (harness_account harness_org harness_project secret_identifier token : string)
    (tags : json) (description secret_manager : string) :
  wp (update_harness_secret env harness_account harness_org harness_project
        secret_identifier token tags description secret_manager)
     (fun o tr =>
        upsert_post env o tr
        /\ is_run (update_harness_secret env harness_account harness_org
                     harness_project secret_identifier token tags description
                     secret_manager) tr o).
Proof. apply wp_conj; [apply upsert_any_env|apply wp_is_run]. Qed.

Opaque update_harness_secret.

Section OnlyAfterPublish.

Variable env : string -> option string.

Lemma doap_none (tr : list entry) :
  deletions tr = [] -> deletes_only_after_publish env tr.
Proof. intro H. now left. Qed.

Lemma doap_app (t tr : list entry) :
  deletions t = [] -> remote_log t = [] ->
  deletes_only_after_publish env tr ->
  deletes_only_after_publish env (t ++ tr).
Proof.
  intros Hd Hr [H|H].
  - left. unfold deletions in *. now rewrite collect_app, Hd, H.
  - destruct H as (a & o & p & i & k & g & d & m & t0 & tu & t2 & -> & H0 & H1 & H).
    right. exists a, o, p, i, k, g, d, m, (t ++ t0)%list, tu, t2.
    split; [now rewrite app_assoc|].
    unfold deletions, remote_log in *. rewrite !collect_app, Hd, Hr, H0, H1.
    auto.
Qed.

Lemma doap_cons (en : entry) (tr : list entry) :
  deletion_of en = None -> remote_of en = None ->
  deletes_only_after_publish env tr ->
  deletes_only_after_publish env (en :: tr).
Proof.
  intros Hd Hr H. apply (doap_app [en]); [| |exact H].
  - unfold deletions; simpl. now rewrite Hd.
  - unfold remote_log; simpl. now rewrite Hr.
Qed.

Lemma doap_published
    (harness_account harness_org harness_project secret_identifier token : string)
    (tags : json) (description secret_manager : string) (tu t2 : list entry) :
  is_run (update_harness_secret env harness_account harness_org harness_project
            secret_identifier token tags description secret_manager)
         tu (Return true) ->
  deletions tu = [] -> remote_log t2 = [] ->
  deletes_only_after_publish env (tu ++ t2).
Proof.
  intros Hrun Hd Hr. right.
  exists harness_account, harness_org, harness_project, secret_identifier, token,
    tags, description, secret_manager, [], tu, t2.
  repeat split; auto.
Qed.

End OnlyAfterPublish.

Ltac main_step_run :=
  simpl;
  lazymatch goal with
  | |- forall _, _ => intros ?
  | |- wp ?p _ =>
      let q := head_of p in
      lazymatch q with
      | check_env _ _ _ => env_step
      | list_k8s_secrets _ _ _ => quiet_step list_quiet
      | create_service_account_token _ _ _ _ _ _ => quiet_step issue_quiet
      | update_harness_secret _ _ _ _ _ _ _ _ _ =>
          wp_focus upsert_run_env;
          let o := fresh "o" in
          let t := fresh "t" in
          let H := fresh "Hcall" in
          let Hrun := fresh "Hrun" in
          intros o t [H Hrun]; destruct o as [?|?|?]
      | cleanup _ _ => call_step cleanup_wp
      | match ?x with _ => _ end => destruct x eqn:?
      | andThen (of_reply ?x) _ => destruct x eqn:?
      end
  end.

Ltac doap_finish :=
  simpl; known_facts; cleanup_facts;
  repeat (simpl;
          match goal with
          | |- deletes_only_after_publish _ _ =>
              solve [apply doap_none; collect_solve]
          | |- deletes_only_after_publish _ ((_ ++ _) ++ _) => rewrite <- app_assoc
          | Hrun : is_run _ ?t (Return true)
            |- deletes_only_after_publish _ (?t ++ _) =>
              eapply doap_published; [exact Hrun|assumption|solve [collect_solve]]
          | |- deletes_only_after_publish _ (?t ++ _) =>
              apply doap_app; [assumption|assumption|]
          | |- deletes_only_after_publish _ (_ :: _) =>
              apply doap_cons; [reflexivity|reflexivity|]
          end).

Lemma main_deletes_only_after_publish (env : string -> option string)
    (json_loads : string -> reply json) (b64decode_utf8 : string -> reply string) :
  wp (main env json_loads b64decode_utf8)
     (fun _ tr => deletes_only_after_publish env tr).
Proof.
  unfold main.
  repeat main_step_run.
  all: doap_finish.
Qed.

Lemma dap_unpublished (b : bool) (tr : list entry) :
  deletions_after_publish b tr ->
  (b || published tr)%bool = false ->
  deletions tr = [].
Proof.
  revert b; induction tr as [|en tr IH]; intros b H Hb; [reflexivity|].
  simpl in H. destruct H as [Hen H].
  unfold published in Hb. simpl in Hb. rewrite orb_assoc in Hb.
  apply orb_false_elim in Hb as Hb'. destruct Hb' as [Hb1 _].
  apply orb_false_elim in Hb1 as [-> _].
  unfold deletions; simpl. destruct (deletion_of en); [discriminate Hen|].
  apply (IH _ H Hb).
Qed.

(** C1. In every run of [main], every deletion request is preceded by a
    remote write that was accepted.  More precisely, either the run makes
    no deletion request at all, or its trace is a part without deletion
    requests and remote requests, followed by a complete call of
    [update_harness_secret] that returned [True] and deleted nothing,
    followed by the rest, in which no remote request is made.  A run
    without an accepted remote write makes no deletion request, and a call
    of [update_harness_secret] returns [True] exactly when one of its
    remote writes was accepted. *)
Theorem no_deletion_before_publish :
  forall (env : string -> option string) (json_loads : string -> reply json)
         (b64decode_utf8 : string -> reply string)
         (W : Type) (h : handler W) (w : W),
    let r := run h (main env json_loads b64decode_utf8) w in
    (forall pre post secret_name namespace x,
        trace r = (pre ++ Entry (delete_namespaced_secret secret_name namespace) x
                   :: post)%list ->
        published pre = true)
    /\ deletes_only_after_publish env (trace r)
    /\ (published (trace r) = false -> deletions (trace r) = [])
    /\ (forall (harness_account harness_org harness_project secret_identifier
                token : string) (tags : json) (description secret_manager : string)
               (W' : Type) (h' : handler W') (w' : W'),
           let u := run h' (update_harness_secret env harness_account harness_org
                              harness_project secret_identifier token tags
                              description secret_manager) w' in
           result u = Return true <-> published (trace u) = true).
Proof.
  intros env json_loads b64 W h w r.
  pose proof (wp_sound _ _ (main_deletions_after_publish env json_loads b64) h w)
    as Hdap.
  fold r in Hdap. split; [|split; [|split]].
  - intros pre post secret_name namespace x Htr.
    change (published pre) with (false || published pre)%bool.
    eapply dap_split; [exact Hdap|exact Htr|reflexivity].
  - apply (wp_sound _ _ (main_deletes_only_after_publish env json_loads b64) h w).
  - intro Hpub. eapply dap_unpublished; [exact Hdap|exact Hpub].
  - intros a o p i k g d m W' h' w' u.
    pose proof (wp_sound _ _ (upsert_any_env env a o p i k g d m) h' w') as H.
    fold u in H. destruct H as (_ & _ & Hiff & _). exact Hiff.
Qed.

Lemma no_deletion_before_publish_witness :
  let r := run world_step (plugin_main settings_cleanup) stale_world in
  trace r = (firstn 12 (trace r)
             ++ Entry (delete_namespaced_secret "svc-a-1699990001" "ns1") (Ok tt)
             :: skipn 13 (trace r))%list
  /\ published (firstn 12 (trace r)) = true.
Proof.
  cbv zeta.
  assert (Hsplit :
            trace (run world_step (plugin_main settings_cleanup) stale_world)
            = (firstn 12 (trace (run world_step (plugin_main settings_cleanup)
                                   stale_world))
               ++ Entry (delete_namespaced_secret "svc-a-1699990001" "ns1") (Ok tt)
               :: skipn 13 (trace (run world_step (plugin_main settings_cleanup)
                                     stale_world)))%list)
    by (vm_compute; reflexivity).
  split; [exact Hsplit|].
  exact (proj1 (no_deletion_before_publish (env_of settings_cleanup) loads_braces
                  decode_tok123 world_step stale_world) _ _ _ _ _ Hsplit).
Defined.

(** C2 (amended). The cleanup loop requests the deletion of the
    discovered secrets one by one, in the order of discovery, and stops at
    the first request that fails: its deletion requests are an initial
    segment of the discovered names, and all of them when the loop
    returns.  In a run of [main], after a deletion request that failed no
    further deletion is requested, no output is written and the run ends
    with the error of that request. *)
Theorem failed_deletion_aborts_run :
  (forall (namespace : string) (secrets : list secret_info)
          (W : Type) (h : handler W) (w : W),
      let c := run h (cleanup namespace secrets) w in
      initial_segment (map fst (deletions (trace c))) (map name secrets)
      /\ (result c = Return tt ->
          map fst (deletions (trace c)) = map name secrets
          /\ failed_deletions (trace c) = []))
  /\ (forall (env : string -> option string) (json_loads : string -> reply json)
             (b64decode_utf8 : string -> reply string)
             (W : Type) (h : handler W) (w : W),
         let r := run h (main env json_loads b64decode_utf8) w in
         forall pre post secret_name namespace e,
           trace r = (pre ++ Entry (delete_namespaced_secret secret_name namespace)
                               (Err e) :: post)%list ->
           deletions post = []
           /\ written_files (trace r) = []
           /\ result r = Raise e).
Proof.
  split.
  - intros namespace secrets W h w c.
    pose proof (wp_sound _ _ (cleanup_wp namespace secrets) h w) as H.
    fold c in H. destruct H as (_ & _ & _ & Hseg & Hret & _). auto.
  - intros env json_loads b64 W h w r pre post secret_name namespace e Htr.
    pose proof (wp_sound _ _ (main_aborts_on_failed_deletion env json_loads b64) h w)
      as H.
    fold r in H. eapply aofd_split; [exact H|exact Htr|reflexivity].
Qed.

Lemma failed_deletion_aborts_run_witness :
  let r := run (override (deleting_fails "svc-a-1699990002"
                            (ApiException 500 "Internal Server Error")) world_step)
             (plugin_main settings_cleanup) stale_world in
  trace r = (firstn 16 (trace r)
             ++ Entry (delete_namespaced_secret "svc-a-1699990002" "ns1")
                  (Err (ApiException 500 "Internal Server Error"))
             :: skipn 17 (trace r))%list
  /\ deletions (skipn 17 (trace r)) = []
  /\ written_files (trace r) = []
  /\ result r = Raise (ApiException 500 "Internal Server Error").
Proof.
  cbv zeta.
  set (h := override (deleting_fails "svc-a-1699990002"
                        (ApiException 500 "Internal Server Error")) world_step).
  assert (Hsplit :
            trace (run h (plugin_main settings_cleanup) stale_world)
            = (firstn 16 (trace (run h (plugin_main settings_cleanup) stale_world))
               ++ Entry (delete_namespaced_secret "svc-a-1699990002" "ns1")
                    (Err (ApiException 500 "Internal Server Error"))
               :: skipn 17 (trace (run h (plugin_main settings_cleanup)
                                     stale_world)))%list)
    by (vm_compute; reflexivity).
  split; [exact Hsplit|].
  exact (proj2 failed_deletion_aborts_run (env_of settings_cleanup) loads_braces
           decode_tok123 _ h stale_world _ _ _ _ _ Hsplit).
Defined.

(** C2, as stated, fails: of three discovered secrets the deletion of the
    second raises; the third is never requested and stays in the cluster,
    no output is written and the run ends with the error. *)
Lemma cleanup_is_not_best_effort :
  let r := run (override (deleting_fails "svc-a-1699990002"
                            (ApiException 500 "Internal Server Error")) world_step)
             (plugin_main settings_cleanup) stale_world in
  deletions (trace r)
  = [("svc-a-1699990001", Ok tt);
     ("svc-a-1699990002", Err (ApiException 500 "Internal Server Error"))]
  /\ In "svc-a-1699990003" (secret_names (world r))
  /\ written_files (trace r) = []
  /\ result r = Raise (ApiException 500 "Internal Server Error")
  /\ exit_status (result r) = 1.
Proof.
  cbv zeta. split; [vm_compute; reflexivity|].
  split; [vm_compute; auto|].
  split; [vm_compute; reflexivity|].
  split; vm_compute; reflexivity.
Qed.

(** ** Deleting an absent secret *)

(** C8 (amended). [delete_k8s_secret] does not tell an absent secret from
    any other failure: it returns only if the cluster acknowledged the
    deletion, and an error reply to the deletion request, the 404 of an
    absent secret included, is raised to the caller.  A run of [main] in
    which a deletion request is answered with 404 ends with that error and
    writes no output. *)
Theorem absent_secret_is_an_error :
  (forall (namespace secret_name : string) (kubeconfig_path : option string)
          (W : Type) (h : handler W) (w : W),
      let r := run h (delete_k8s_secret namespace secret_name kubeconfig_path) w in
      (forall n e, In (n, Err e) (deletions (trace r)) -> result r = Raise e)
      /\ (forall u, result r = Return u ->
                    deletions (trace r) = [(secret_name, Ok tt)]))
  /\ (forall (env : string -> option string) (json_loads : string -> reply json)
             (b64decode_utf8 : string -> reply string)
             (W : Type) (h : handler W) (w : W),
         let r := run h (main env json_loads b64decode_utf8) w in
         forall pre post secret_name namespace api_reason,
           trace r = (pre ++ Entry (delete_namespaced_secret secret_name namespace)
                               (Err (ApiException 404 api_reason)) :: post)%list ->
           result r = Raise (ApiException 404 api_reason)
           /\ written_files (trace r) = []).
Proof.
  split.
  - intros namespace secret_name kube W h w r.
    pose proof (wp_sound _ _ (delete_wp namespace secret_name kube) h w) as H.
    fold r in H. destruct H as (_ & _ & _ & _ & H).
    destruct (result r) as [u|e|code]; [| |contradiction].
    + rewrite H. split; [|reflexivity].
      intros n e' [Hin|[]]. discriminate Hin.
    + split; [|discriminate].
      intros n e' Hin. destruct H as [H|H]; rewrite H in Hin.
      * destruct Hin.
      * destruct Hin as [Hin|[]]. now injection Hin as _ <-.
  - intros env json_loads b64 W h w r pre post secret_name namespace api_reason Htr.
    pose proof (wp_sound _ _ (main_aborts_on_failed_deletion env json_loads b64) h w)
      as H.
    fold r in H.
    assert (Hsplit : deletions post = [] /\ written_files (trace r) = []
                     /\ result r = Raise (ApiException 404 api_reason))
      by (eapply aofd_split; [exact H|exact Htr|reflexivity]).
    destruct Hsplit as (_ & Hw & Hr). auto.
Qed.

Lemma absent_secret_is_an_error_witness :
  (let r := run world_step (delete_k8s_secret "ns1" "svc-a-1699990001" None)
              (fresh_world 0) in
   In ("svc-a-1699990001", Err (ApiException 404 "Not Found")) (deletions (trace r))
   /\ result r = Raise (ApiException 404 "Not Found"))
  /\ (let r := run (meanwhile is_put_event (removed "ns1" "svc-a-1699990001")
                      world_step)
                 (plugin_main settings_cleanup) stale_world in
      trace r = (firstn 12 (trace r)
                 ++ Entry (delete_namespaced_secret "svc-a-1699990001" "ns1")
                      (Err (ApiException 404 "Not Found"))
                 :: skipn 13 (trace r))%list
      /\ result r = Raise (ApiException 404 "Not Found")
      /\ written_files (trace r) = []).
Proof.
  destruct absent_secret_is_an_error as [Hdelete Hmain].
  split.
  - cbv zeta.
    assert (Hin : In ("svc-a-1699990001", Err (ApiException 404 "Not Found"))
                    (deletions (trace (run world_step
                                         (delete_k8s_secret "ns1" "svc-a-1699990001" None)
                                         (fresh_world 0)))))
      by (vm_compute; auto).
    split; [exact Hin|].
    exact (proj1 (Hdelete "ns1" "svc-a-1699990001" None World world_step
                    (fresh_world 0)) _ _ Hin).
  - cbv zeta.
    set (h := meanwhile is_put_event (removed "ns1" "svc-a-1699990001") world_step).
    assert (Hsplit :
              trace (run h (plugin_main settings_cleanup) stale_world)
              = (firstn 12 (trace (run h (plugin_main settings_cleanup) stale_world))
                 ++ Entry (delete_namespaced_secret "svc-a-1699990001" "ns1")
                      (Err (ApiException 404 "Not Found"))
                 :: skipn 13 (trace (run h (plugin_main settings_cleanup)
                                       stale_world)))%list)
      by (vm_compute; reflexivity).
    split; [exact Hsplit|].
    exact (Hmain (env_of settings_cleanup) loads_braces decode_tok123 World h
             stale_world _ _ _ _ _ Hsplit).
Defined.

(** C8, as stated, fails: deleting a secret that is absent raises the 404
    of the cluster; when a discovered secret has been removed by someone
    else before the cleanup, the run ends with that error, deletes none of
    the other discovered secrets and writes no output. *)
Lemma deleting_an_absent_secret_fails :
  (let r := run world_step (delete_k8s_secret "ns1" "svc-a-1699990001" None)
              (fresh_world 0) in
   result r = Raise (ApiException 404 "Not Found"))
  /\ (let r := run (meanwhile is_put_event (removed "ns1" "svc-a-1699990001")
                      world_step)
                 (plugin_main settings_cleanup) stale_world in
      result r = Raise (ApiException 404 "Not Found")
      /\ exit_status (result r) = 1
      /\ deletions (trace r)
         = [("svc-a-1699990001", Err (ApiException 404 "Not Found"))]
      /\ written_files (trace r) = []
      /\ secret_names (world r)
         = ["svc-a-1699990002"; "svc-a-1699990003"; "svc-a-1700000000"]).
Proof.
  cbv zeta. repeat split; vm_compute; reflexivity.
Qed.

(** ** A failed publish *)

(** C3: the code departs from the claim.  The remote manager answers the
    update with a server error; [main] logs the failure and returns, so
    the process ends with exit status 0, although nothing was published
    and no output was written. *)
Theorem failed_publish_exits_with_status_zero :
  let r := run (override (put_replies (Ok server_error)) world_step)
             (plugin_main settings_cleanup) stale_world in
  puts (trace r) = [Ok server_error]
  /\ published (trace r) = false
  /\ result r = Return tt
  /\ exit_status (result r) = 0
  /\ error_log (trace r)
     = ["Failed to update harness secret: 500 Server Error: Internal Server Error for url: https://app.harness.io/gateway/ng/api/v2/secrets/cred-svc-a"]
  /\ written_files (trace r) = []
  /\ deletions (trace r) = []
  /\ remote (world r) = [("cred-svc-a", "old")].
Proof.
  cbv zeta. repeat split; vm_compute; reflexivity.
Qed.

(** ** The secret behind the published token *)

(** C9: the code departs from the claim.  Two rotations of one service
    account run in the same second with cleanup requested.  The second one
    finds the token secret of the first in its discovery, meets the
    conflict on creation, publishes the token of that secret and then
    deletes the secret with the rest of the discovered ones: the run is
    successful, the remote manager holds the token, and the cluster no
    longer holds the secret behind it. *)
Theorem conflict_path_deletes_published_secret :
  let r1 := run world_step (plugin_main settings_cleanup) (fresh_world 0) in
  let r2 := run world_step (plugin_main settings_cleanup) (world r1) in
  result r1 = Return tt
  /\ secret_names (world r1) = ["svc-a-1700000000"]
  /\ now (world r1) = 1700000000
  /\ result r2 = Return tt
  /\ after_create (trace r2)
     = Some (Err (ApiException 409 "Conflict"),
             skipn 6 (trace r2))
  /\ written_files (trace r2)
     = [("DRONE_OUTPUT.env",
         ["created_token=svc-a-1700000000" ++ String "010" EmptyString;
          "updated_secret=cred-svc-a" ++ String "010" EmptyString]);
        ("HARNESS_OUTPUT_SECRET.env", ["token=tok123" ++ String "010" EmptyString])]
  /\ remote (world r2) = [("cred-svc-a", "tok123")]
  /\ deletions (trace r2) = [("svc-a-1700000000", Ok tt)]
  /\ secret_names (world r2) = [].
Proof.
  cbv zeta. repeat split; vm_compute; reflexivity.
Qed.

(** * Further properties of the plugin *)

(** ** Settings *)

Lemma prefix_app (p rest : string) : String.prefix p (p ++ rest) = true.
Proof.
  induction p as [|c p IH]; simpl.
  - destruct rest; reflexivity.
  - destruct (ascii_dec c c) as [_|Hne]; [exact IH|now elim Hne].
Qed.

Lemma contains_eq (needle hay : string) :
  PyStr.contains needle hay
  = if String.prefix needle hay then true
    else match hay with
         | EmptyString => false
         | String _ rest => PyStr.contains needle rest
         end.
Proof. destruct hay; reflexivity. Qed.

Lemma contains_app_r (p rest : string) : PyStr.contains p (p ++ rest) = true.
Proof. rewrite contains_eq, prefix_app. reflexivity. Qed.

Transparent check_env.

(** X1. [check_env] returns the value of a variable that is set, also when
    the value is empty, and the default of one that is not set; neither
    prints anything.  For a variable that is not set and has no default it
    prints the name of the setting followed by " required", with the
    prefix "PLUGIN_" removed, and leaves with status 1.  It never raises
    an exception. *)
Theorem check_env_resolves :
  forall (env : string -> option string) (variable : string)
         (default : option string) (W : Type) (h : handler W) (w : W),
    let r := run h (check_env env variable default) w in
    (forall value, env variable = Some value ->
                   result r = Return value /\ trace r = [])
    /\ (forall d, env variable = None -> default = Some d ->
                  result r = Return d /\ trace r = [])
    /\ (env variable = None -> default = None ->
        result r = Exit 1
        /\ exists line,
             printed (trace r) = [line ++ " required"]
             /\ length (trace r) = 1%nat
             /\ (forall rest, variable = "PLUGIN_" ++ rest -> line = rest)
             /\ (PyStr.contains "PLUGIN_" variable = false -> line = variable))
    /\ (forall e, result r <> Raise e).
Proof.
  intros env variable default W h w r. subst r.
  unfold check_env, getenv.
  destruct (env variable) as [value|]; [|destruct default as [d|]]; simpl.
  - split; [intros v [= <-]; auto|].
    split; [discriminate|]. split; [discriminate|]. discriminate.
  - split; [discriminate|].
    split; [intros d' _ [= <-]; auto|]. split; [discriminate|]. discriminate.
  - split; [discriminate|]. split; [discriminate|]. split; [|discriminate].
    intros _ _. split; [reflexivity|].
    eexists. split; [reflexivity|]. split; [reflexivity|]. split.
    + intros rest ->. rewrite contains_app_r. reflexivity.
    + intros ->. reflexivity.
Qed.

Lemma check_env_resolves_witness :
  (env_of settings_a "PLUGIN_HARNESS_ORG" = Some EmptyString
   /\ let r := run world_step (check_env (env_of settings_a) "PLUGIN_HARNESS_ORG" None)
                 (fresh_world 0) in
      result r = Return EmptyString /\ trace r = [])
  /\ (env_of settings_a "PLUGIN_HARNESS_URL" = None
      /\ let r := run world_step
                    (check_env (env_of settings_a) "PLUGIN_HARNESS_URL"
                       (Some "app.harness.io")) (fresh_world 0) in
         result r = Return "app.harness.io" /\ trace r = [])
  /\ (env_of settings_without_key "PLUGIN_HARNESS_PLATFORM_API_KEY" = None
      /\ let r := run world_step
                    (check_env (env_of settings_without_key)
                       "PLUGIN_HARNESS_PLATFORM_API_KEY" None) (fresh_world 0) in
         result r = Exit 1
         /\ printed (trace r) = ["HARNESS_PLATFORM_API_KEY required"]).
Proof.
  split; [|split]; (split; [reflexivity|]).
  - apply (proj1 (check_env_resolves (env_of settings_a) "PLUGIN_HARNESS_ORG" None
                    world_step (fresh_world 0))).
    reflexivity.
  - apply (proj1 (proj2 (check_env_resolves (env_of settings_a) "PLUGIN_HARNESS_URL"
                           (Some "app.harness.io") world_step (fresh_world 0))));
      reflexivity.
  - destruct (proj1 (proj2 (proj2 (check_env_resolves (env_of settings_without_key)
                                     "PLUGIN_HARNESS_PLATFORM_API_KEY" None
                                     world_step (fresh_world 0))))
                eq_refl eq_refl) as (Hexit & line & Hline & _ & Hrest & _).
    split; [exact Hexit|].
    rewrite Hline. now rewrite (Hrest "HARNESS_PLATFORM_API_KEY" eq_refl).
Defined.

Opaque check_env.

(** ** Cluster configuration *)

(** X4. With a non-empty path [load_k8s_config] loads that kubeconfig
    file and nothing else.  Without a path, or with an empty one, it tries
    the in-cluster configuration first and loads the default kubeconfig
    only if that attempt raises a [ConfigException]; any other error of
    the in-cluster attempt reaches the caller without a fallback. *)
Theorem load_k8s_config_falls_back :
  forall (kubeconfig_path : option string) (W : Type) (h : handler W) (w : W),
    let r := run h (load_k8s_config kubeconfig_path) w in
    (forall c rest,
        kubeconfig_path = Some (String c rest) ->
        exists x,
          trace r = [Entry (load_kube_config kubeconfig_path) x]
          /\ result r = of_reply x)
    /\ (kubeconfig_path = None \/ kubeconfig_path = Some EmptyString ->
        exists x,
          match x with
          | Err (ConfigException _) =>
              exists y,
                trace r = [Entry load_incluster_config x;
                           Entry (load_kube_config None) y]
                /\ result r = of_reply y
          | _ => trace r = [Entry load_incluster_config x] /\ result r = of_reply x
          end).
Proof.
  intros kube W h w r. subst r. split.
  - intros c rest ->. simpl. eexists. split; reflexivity.
  - intros Hkube.
    assert (Hload : load_k8s_config kube
                    = try_except (call load_incluster_config) is_ConfigException
                        (fun _ => call (load_kube_config None)))
      by (destruct Hkube as [->| ->]; reflexivity).
    rewrite Hload. clear Hload Hkube. simpl.
    exists (fst (h _ load_incluster_config w)).
    destruct (h _ load_incluster_config w) as [[u|e] w1]; simpl.
    + split; reflexivity.
    + destruct e; simpl; try (split; reflexivity).
      eexists. split; reflexivity.
Qed.

Lemma load_k8s_config_falls_back_witness :
  (let r := run world_step (load_k8s_config (Some "/etc/kube/config")) (fresh_world 0) in
   exists x,
     trace r = [Entry (load_kube_config (Some "/etc/kube/config")) x]
     /\ result r = of_reply x)
  /\ (let r := run world_step (load_k8s_config (Some EmptyString)) (fresh_world 0) in
      exists x,
        match x with
        | Err (ConfigException _) =>
            exists y,
              trace r = [Entry load_incluster_config x;
                         Entry (load_kube_config None) y]
              /\ result r = of_reply y
        | _ => trace r = [Entry load_incluster_config x] /\ result r = of_reply x
        end).
Proof.
  split.
  - eapply (proj1 (load_k8s_config_falls_back (Some "/etc/kube/config")
                     world_step (fresh_world 0))).
    reflexivity.
  - apply (proj2 (load_k8s_config_falls_back (Some EmptyString)
                    world_step (fresh_world 0))).
    right. reflexivity.
Defined.

(** ** Discovery *)

Ltac observe_all :=
  unfold list_replies, creations, requests, printed, error_log in *;
  observe.

Transparent list_k8s_secrets.

Lemma list_wp (namespace search_string : string) (kubeconfig_path : option string) :
  wp (list_k8s_secrets namespace search_string kubeconfig_path)
     (list_contract search_string).
Proof.
  unfold list_k8s_secrets, load_k8s_config, list_contract, quiet.
  destruct kubeconfig_path as [[|c path]|].
  all: wp_run; observe_all; repeat split; eauto.
Qed.

Opaque list_k8s_secrets.

(** X5. [list_k8s_secrets] only reads: it sends at most one listing
    request and no creation, read, deletion or remote request.  When the
    listing succeeds it returns the listed secrets whose name matches the
    search string, in the order of the listing; when the listing fails it
    raises the error of the listing. *)
Theorem list_k8s_secrets_only_reads :
  forall (namespace search_string : string) (kubeconfig_path : option string)
         (W : Type) (h : handler W) (w : W),
    let r := run h (list_k8s_secrets namespace search_string kubeconfig_path) w in
    (length (list_replies (trace r)) <= 1)%nat
    /\ creations (trace r) = [] /\ reads (trace r) = []
    /\ deletions (trace r) = [] /\ remote_log (trace r) = []
    /\ written_files (trace r) = []
    /\ (forall secrets,
           list_replies (trace r) = [Ok secrets] ->
           result r = Return (discovered search_string secrets))
    /\ (forall e, list_replies (trace r) = [Err e] -> result r = Raise e)
    /\ (forall found, result r = Return found ->
                      exists secrets, list_replies (trace r) = [Ok secrets]).
Proof.
  intros namespace search kube W h w r.
  pose proof (wp_sound _ _ (list_wp namespace search kube) h w) as H.
  fold r in H. destruct H as ((Hd & Hr & Hw) & Hc & Hreads & Ho).
  assert (Hlen : (length (list_replies (trace r)) <= 1)%nat).
  { destruct (result r) as [found|e|code]; [| |contradiction].
    - destruct Ho as (secrets & -> & _). simpl. lia.
    - destruct Ho as [-> | ->]; simpl; lia. }
  repeat (split; [assumption|]).
  split; [|split].
  - intros secrets Hl. destruct (result r) as [found|e|code]; [| |contradiction].
    + destruct Ho as (secrets' & Hl' & ->). rewrite Hl in Hl'.
      now injection Hl' as <-.
    + rewrite Hl in Ho. destruct Ho as [Ho|Ho]; discriminate Ho.
  - intros e Hl. destruct (result r) as [found|e'|code]; [| |contradiction].
    + destruct Ho as (secrets' & Hl' & _). rewrite Hl in Hl'. discriminate Hl'.
    + rewrite Hl in Ho. destruct Ho as [Ho|Ho]; [discriminate Ho|].
      now injection Ho as <-.
  - intros found Hres. rewrite Hres in Ho.
    destruct Ho as (secrets & Hl & _). eauto.
Qed.

Lemma list_k8s_secrets_only_reads_witness :
  let r := run world_step (list_k8s_secrets "ns1" "SVC-A" None) stale_world in
  list_replies (trace r) = [Ok (map stored_secret (cluster stale_world))]
  /\ result r = Return (discovered "SVC-A" (map stored_secret (cluster stale_world)))
  /\ map name (discovered "SVC-A" (map stored_secret (cluster stale_world)))
     = ["svc-a-1699990001"; "svc-a-1699990002"; "svc-a-1699990003"].
Proof.
  cbv zeta.
  assert (Hl : list_replies
                 (trace (run world_step (list_k8s_secrets "ns1" "SVC-A" None)
                           stale_world))
               = [Ok (map stored_secret (cluster stale_world))])
    by (vm_compute; reflexivity).
  split; [exact Hl|]. split; [|vm_compute; reflexivity].
  apply (proj1 (proj2 (proj2 (proj2 (proj2 (proj2 (proj2
           (list_k8s_secrets_only_reads "ns1" "SVC-A" None world_step
              stale_world)))))))).
  exact Hl.
Defined.

Lemma lower_ascii_idem (c : ascii) :
  PyStr.lower_ascii (PyStr.lower_ascii c) = PyStr.lower_ascii c.
Proof.
  destruct c as [[] [] [] [] [] [] [] []]; reflexivity.
Qed.

Lemma lower_idem (s : string) : PyStr.lower (PyStr.lower s) = PyStr.lower s.
Proof.
  induction s as [|c s IH]; simpl; [reflexivity|].
  now rewrite lower_ascii_idem, IH.
Qed.

Lemma lower_app (a b : string) :
  PyStr.lower (a ++ b) = PyStr.lower a ++ PyStr.lower b.
Proof.
  induction a as [|c a IH]; simpl; [reflexivity|].
  now rewrite IH.
Qed.

Lemma truthy_lower (s : string) : PyStr.truthy (PyStr.lower s) = PyStr.truthy s.
Proof. destruct s; reflexivity. Qed.

(** X6. The filter of [list_k8s_secrets]: an empty search string keeps
    every listed secret; otherwise a secret is kept exactly when its name
    contains the search string, letter case ignored on both sides.  The
    result keeps the order of the listing and holds only listed
    secrets. *)
Theorem discovery_filter :
  (forall secrets, discovered EmptyString secrets = map secret_info_of secrets)
  /\ (forall search_string secrets,
         map name (discovered search_string secrets)
         = filter (name_matches search_string) (map metadata_name secrets))
  /\ (forall search_string secret_name,
         name_matches (PyStr.lower search_string) secret_name
         = name_matches search_string secret_name
         /\ name_matches search_string (PyStr.lower secret_name)
            = name_matches search_string secret_name)
  /\ (forall search_string secrets info,
         In info (discovered search_string secrets) ->
         (exists secret, In secret secrets /\ info = secret_info_of secret)
         /\ (search_string <> EmptyString ->
             PyStr.contains (PyStr.lower search_string) (PyStr.lower (name info))
             = true)).
Proof.
  split; [|split; [|split]].
  - intro secrets. unfold discovered.
    induction secrets as [|s secrets IH]; simpl; [reflexivity|]. now rewrite IH.
  - intros search secrets. unfold discovered.
    induction secrets as [|s secrets IH]; simpl; [reflexivity|].
    destruct (name_matches search (metadata_name s)); simpl; now rewrite IH.
  - intros search secret_name. unfold name_matches.
    now rewrite truthy_lower, !lower_idem.
  - intros search secrets info Hin. unfold discovered in Hin.
    apply in_map_iff in Hin as (secret & <- & Hin).
    apply filter_In in Hin as [Hin Hmatch].
    split; [eauto|].
    intro Hne. unfold name_matches in Hmatch. simpl.
    destruct search; [now elim Hne|]. exact Hmatch.
Qed.

Lemma discovery_filter_witness :
  In (secret_info_of (stored_secret (stale_secret "svc-a-1699990002")))
     (discovered "Svc-A" (map stored_secret (cluster stale_world)))
  /\ (exists secret,
         In secret (map stored_secret (cluster stale_world))
         /\ secret_info_of (stored_secret (stale_secret "svc-a-1699990002"))
            = secret_info_of secret)
  /\ "Svc-A" <> EmptyString
  /\ PyStr.contains (PyStr.lower "Svc-A")
       (PyStr.lower
          (name (secret_info_of (stored_secret (stale_secret "svc-a-1699990002")))))
     = true.
Proof.
  assert (Hin : In (secret_info_of (stored_secret (stale_secret "svc-a-1699990002")))
                  (discovered "Svc-A" (map stored_secret (cluster stale_world))))
    by (vm_compute; auto).
  assert (Hne : "Svc-A" <> EmptyString) by discriminate.
  destruct (proj2 (proj2 (proj2 discovery_filter)) _ _ _ Hin) as [Hex Hc].
  split; [exact Hin|]. split; [exact Hex|]. split; [exact Hne|]. exact (Hc Hne).
Defined.

(** X7. The name [main] gives to the token secret of a rotation matches
    the search [main] uses for discovery: a listing that holds the token
    secret of an earlier rotation of the same service account yields it
    among the discovered secrets. *)
Theorem rotation_secrets_are_discovered :
  forall (service_account_name : string) (current_unix_timestamp : Z),
    name_matches service_account_name
      (new_token_name_of service_account_name current_unix_timestamp) = true
    /\ forall secrets secret,
         In secret secrets ->
         metadata_name secret
         = new_token_name_of service_account_name current_unix_timestamp ->
         In (secret_info_of secret) (discovered service_account_name secrets).
Proof.
  intros sa ts.
  assert (Hm : name_matches sa (new_token_name_of sa ts) = true).
  { unfold name_matches, new_token_name_of.
    rewrite lower_app, contains_app_r. apply orb_true_r. }
  split; [exact Hm|].
  intros secrets secret Hin Hname. unfold discovered.
  apply in_map. apply filter_In. split; [exact Hin|]. now rewrite Hname.
Qed.

Lemma rotation_secrets_are_discovered_witness :
  In (stored_secret (stale_secret "svc-a-1699990001"))
     (map stored_secret (cluster stale_world))
  /\ metadata_name (stored_secret (stale_secret "svc-a-1699990001"))
     = new_token_name_of "svc-a" 1699990001
  /\ In (secret_info_of (stored_secret (stale_secret "svc-a-1699990001")))
        (discovered "svc-a" (map stored_secret (cluster stale_world))).
Proof.
  assert (Hin : In (stored_secret (stale_secret "svc-a-1699990001"))
                  (map stored_secret (cluster stale_world)))
    by (simpl; auto).
  assert (Hname : metadata_name (stored_secret (stale_secret "svc-a-1699990001"))
                  = new_token_name_of "svc-a" 1699990001) by reflexivity.
  split; [exact Hin|]. split; [exact Hname|].
  exact (proj2 (rotation_secrets_are_discovered "svc-a" 1699990001) _ _ Hin Hname).
Defined.

(** ** Issuing a token: bounds *)

Transparent poll_token.

Lemma poll_bounds_wp (b64decode_utf8 : string -> reply string)
    (namespace token_name : string) (max_retries remaining : nat) :
  wp (poll_token b64decode_utf8 namespace token_name max_retries remaining)
     (poll_bounds b64decode_utf8 remaining).
Proof.
  induction remaining as [|fewer IH]; simpl.
  - unfold poll_bounds; observe_all. repeat split; auto.
  - intros [secret_obj|e]; simpl.
    + destruct (token_material secret_obj) as [material|] eqn:Hmat; simpl.
      * unfold poll_bounds; observe_all.
        split; [lia|]. split; [lia|]. split; [constructor|].
        split; [reflexivity|]. split; [reflexivity|].
        destruct (b64decode_utf8 material) as [token|e] eqn:Hdec; simpl; [|exact I].
        exists [], secret_obj, material. auto.
      * intros []. simpl. eapply wp_mono; [exact IH|].
        intros o tr (Hr & Hs & Hall & Hc & Hl & Ho).
        unfold poll_bounds in *; observe_all.
        fold (reads tr) (sleeps tr) in *.
        split; [lia|]. split; [lia|]. split; [constructor; auto|].
        split; [exact Hc|]. split; [exact Hl|].
        destruct o as [token|e|code]; auto.
        destruct Ho as (earlier & s & m & -> & Hm & Hd).
        exists (Ok secret_obj :: earlier), s, m. auto.
    + unfold poll_bounds; observe_all.
      split; [lia|]. split; [lia|]. repeat split; auto.
Qed.

Opaque poll_token.
Transparent create_service_account_token.

Lemma issue_bounds_wp (b64decode_utf8 : string -> reply string)
    (namespace service_account token_name : string) (labels : dict string)
    (kubeconfig_path : option string) :
  wp (create_service_account_token b64decode_utf8 namespace service_account
        token_name labels kubeconfig_path)
     (issue_bounds b64decode_utf8 service_account token_name labels).
Proof.
  unfold create_service_account_token, load_k8s_config.
  destruct kubeconfig_path as [[|c path]|]; simpl.
  all: wp_run.
  all: try (wp_focus poll_bounds_wp;
            intros o tp (Hr & Hs & Hall & Hc & Hl & Ho); wp_run).
  all: unfold issue_bounds, initial_segment, is_conflict; observe_all.
  all: unfold reads, sleeps in *; rewrite ?collect_app; simpl; rewrite ?app_nil_r.
  all: repeat match goal with
              | H : collect _ _ = [] |- _ => rewrite H
              | H : (_ =? 409) = _ |- _ => rewrite H
              end; simpl.
  all: try contradiction.
  all: repeat match goal with
              | |- _ /\ _ => split
              end.
  all: try lia; try assumption; try reflexivity; try discriminate; eauto.
  all: try (constructor; fail).
  all: try match goal with
           | H : exists earlier s m, _ = (earlier ++ [Ok s])%list /\ _ |- _ =>
               let earlier := fresh "earlier" in
               let s := fresh "s" in
               let m := fresh "m" in
               let Hre := fresh "Hre" in
               destruct H as (earlier & s & m & Hre & ? & ?);
               rewrite Hre;
               first [ exists earlier, s, m; repeat split; auto; fail
                     | eexists (_ :: earlier), s, m; repeat split; eauto; fail ]
           end.
  all: match goal with
       | |- if match ?e with _ => _ end then _ else _ =>
           destruct e; try destruct (_ =? 409); auto
       end.
Qed.

Opaque create_service_account_token.

(** X8. A call of [create_service_account_token] sends at most one
    creation request, for the token secret of the given name, service
    account and labels; it reads the secret at most eleven times, ten
    times when the creation succeeded; it waits at most ten times, one
    second each.  It deletes nothing and sends nothing to the remote
    manager. *)
Theorem issuance_is_bounded :
  forall (b64decode_utf8 : string -> reply string)
         (namespace service_account token_name : string) (labels : dict string)
         (kubeconfig_path : option string) (W : Type) (h : handler W) (w : W),
    let r := run h (create_service_account_token b64decode_utf8 namespace
                      service_account token_name labels kubeconfig_path) w in
    (creations (trace r) = []
     \/ creations (trace r) = [token_secret service_account token_name labels])
    /\ (length (reads (trace r)) <= 11)%nat
    /\ (forall u rest, after_create (trace r) = Some (Ok u, rest) ->
                       (length (reads (trace r)) <= 10)%nat)
    /\ (length (sleeps (trace r)) <= 10)%nat
    /\ (forall seconds, In seconds (sleeps (trace r)) -> seconds = 1)
    /\ deletions (trace r) = [] /\ remote_log (trace r) = []
    /\ written_files (trace r) = [].
Proof.
  intros b64 namespace sa token_name labels kube W h w r.
  pose proof (wp_sound _ _ (issue_bounds_wp b64 namespace sa token_name labels kube)
                h w) as H.
  pose proof (wp_sound _ _ (issue_quiet b64 namespace sa token_name labels kube) h w)
    as [(Hd & Hrl & Hw) _].
  fold r in H, Hd, Hrl, Hw.
  destruct H as (Hr & Hs & Hall & [more Hseg] & _ & Hafter & _).
  split.
  { destruct (creations (trace r)) as [|body [|? ?]]; [now left|right|].
    - now injection Hseg as <-.
    - discriminate Hseg. }
  split; [exact Hr|]. split.
  { intros u rest Ha. rewrite Ha in Hafter. exact Hafter. }
  split; [exact Hs|]. split.
  { intros seconds Hin. rewrite Forall_forall in Hall. auto. }
  auto.
Qed.

Lemma issuance_is_bounded_witness :
  let r := run world_step
             (create_service_account_token decode_tok123 "ns1" "svc-a"
                "svc-a-1700000000" [("harness_account", "acct")] None)
             (fresh_world 60) in
  after_create (trace r) = Some (Ok tt, skipn 2 (trace r))
  /\ length (reads (trace r)) = 10%nat
  /\ (length (reads (trace r)) <= 10)%nat.
Proof.
  cbv zeta.
  assert (Ha : after_create
                 (trace (run world_step
                           (create_service_account_token decode_tok123 "ns1" "svc-a"
                              "svc-a-1700000000" [("harness_account", "acct")] None)
                           (fresh_world 60)))
               = Some (Ok tt,
                       skipn 2 (trace (run world_step
                                         (create_service_account_token decode_tok123
                                            "ns1" "svc-a" "svc-a-1700000000"
                                            [("harness_account", "acct")] None)
                                         (fresh_world 60)))))
    by (vm_compute; reflexivity).
  split; [exact Ha|]. split; [vm_compute; reflexivity|].
  exact (proj1 (proj2 (proj2 (issuance_is_bounded decode_tok123 "ns1" "svc-a"
                                "svc-a-1700000000" [("harness_account", "acct")]
                                None world_step (fresh_world 60)))) _ _ Ha).
Defined.

(** X9. When the creation request fails with anything but the conflict
    409 (a refused permission, a server error, a transport error), the
    call raises that error at once: it neither reads the secret nor
    waits. *)
Theorem creation_error_is_not_polled :
  forall (b64decode_utf8 : string -> reply string)
         (namespace service_account token_name : string) (labels : dict string)
         (kubeconfig_path : option string) (W : Type) (h : handler W) (w : W),
    let r := run h (create_service_account_token b64decode_utf8 namespace
                      service_account token_name labels kubeconfig_path) w in
    forall e rest,
      after_create (trace r) = Some (Err e, rest) ->
      is_conflict e = false ->
      result r = Raise e /\ reads (trace r) = [] /\ sleeps (trace r) = [].
Proof.
  intros b64 namespace sa token_name labels kube W h w r e rest Ha Hc.
  pose proof (wp_sound _ _ (issue_bounds_wp b64 namespace sa token_name labels kube)
                h w) as H.
  fold r in H. destruct H as (_ & _ & _ & _ & _ & Hafter & _).
  rewrite Ha, Hc in Hafter. exact Hafter.
Qed.

Lemma creation_error_is_not_polled_witness :
  let r := run (override (create_replies (Err (ApiException 403 "Forbidden")))
                  world_step)
             (create_service_account_token decode_tok123 "ns1" "svc-a"
                "svc-a-1700000000" [("harness_account", "acct")] None)
             (fresh_world 0) in
  after_create (trace r) = Some (Err (ApiException 403 "Forbidden"), skipn 2 (trace r))
  /\ is_conflict (ApiException 403 "Forbidden") = false
  /\ result r = Raise (ApiException 403 "Forbidden")
  /\ reads (trace r) = [] /\ sleeps (trace r) = [].
Proof.
  cbv zeta.
  set (h := override (create_replies (Err (ApiException 403 "Forbidden"))) world_step).
  set (p := create_service_account_token decode_tok123 "ns1" "svc-a"
              "svc-a-1700000000" [("harness_account", "acct")] None).
  assert (Ha : after_create (trace (run h p (fresh_world 0)))
               = Some (Err (ApiException 403 "Forbidden"),
                       skipn 2 (trace (run h p (fresh_world 0)))))
    by (vm_compute; reflexivity).
  split; [exact Ha|]. split; [reflexivity|].
  exact (creation_error_is_not_polled decode_tok123 "ns1" "svc-a" "svc-a-1700000000"
           [("harness_account", "acct")] None h (fresh_world 0) Ha eq_refl).
Defined.

(** X10. A token that [create_service_account_token] returns is the
    decoded token material of the secret shown by the last read of the
    call. *)
Theorem issued_token_is_the_last_read :
  forall (b64decode_utf8 : string -> reply string)
         (namespace service_account token_name : string) (labels : dict string)
         (kubeconfig_path : option string) (W : Type) (h : handler W) (w : W),
    let r := run h (create_service_account_token b64decode_utf8 namespace
                      service_account token_name labels kubeconfig_path) w in
    forall token,
      result r = Return token ->
      exists earlier secret_obj material,
        reads (trace r) = (earlier ++ [Ok secret_obj])%list
        /\ token_material secret_obj = Some material
        /\ b64decode_utf8 material = Ok token.
Proof.
  intros b64 namespace sa token_name labels kube W h w r token Hres.
  pose proof (wp_sound _ _ (issue_bounds_wp b64 namespace sa token_name labels kube)
                h w) as H.
  fold r in H. destruct H as (_ & _ & _ & _ & _ & _ & Ho).
  rewrite Hres in Ho. exact Ho.
Qed.

Lemma issued_token_is_the_last_read_witness :
  let r := run world_step
             (create_service_account_token decode_tok123 "ns1" "svc-a"
                "svc-a-1700000000" [("harness_account", "acct")] None)
             (fresh_world 2) in
  result r = Return "tok123"
  /\ exists earlier secret_obj material,
       reads (trace r) = (earlier ++ [Ok secret_obj])%list
       /\ token_material secret_obj = Some material
       /\ decode_tok123 material = Ok "tok123".
Proof.
  cbv zeta. split; [vm_compute; reflexivity|].
  apply (issued_token_is_the_last_read decode_tok123 "ns1" "svc-a" "svc-a-1700000000"
           [("harness_account", "acct")] None world_step (fresh_world 2)).
  vm_compute. reflexivity.
Defined.

(** ** Reading a secret *)

Lemma decode_items_pure (b64decode_utf8 : string -> reply string) (items : dict string) :
  exists o,
    decode_items b64decode_utf8 items = Ret o
    /\ match o with
       | Return decoded => decodes_to b64decode_utf8 items decoded
       | Raise e => first_undecodable b64decode_utf8 items e
       | Exit _ => False
       end.
Proof.
  induction items as [|[key value] items (o & Heq & Ho)]; simpl.
  - exists (Return []). split; [reflexivity|constructor].
  - destruct (b64decode_utf8 value) as [decoded|e] eqn:Hdec; simpl.
    + rewrite Heq. simpl. destruct o as [rest|e|code]; simpl.
      * eexists. split; [reflexivity|]. constructor; auto.
      * eexists. split; [reflexivity|].
        destruct Ho as (before & k & v & after & dec & -> & Hbefore & Hv).
        exists ((key, value) :: before), k, v, after, ((key, decoded) :: dec).
        repeat split; auto. constructor; auto.
      * contradiction.
    + eexists. split; [reflexivity|].
      exists [], key, value, items, []. repeat split; auto. constructor.
Qed.

Lemma get_wp (b64decode_utf8 : string -> reply string) (namespace name : string)
    (kubeconfig_path : option string) :
  wp (get_k8s_secret b64decode_utf8 namespace name kubeconfig_path)
     (get_contract b64decode_utf8).
Proof.
  unfold get_k8s_secret, load_k8s_config, get_contract, quiet.
  destruct kubeconfig_path as [[|c path]|]; simpl.
  all: repeat (intros [?|?]; simpl);
    try match goal with
        | e : exn |- _ => destruct (is_ConfigException e) eqn:?; simpl
        end;
    repeat (intros [?|?]; simpl).
  all: try match goal with
           | x : V1Secret |- _ =>
               let Hd := fresh "Hd" in
               destruct (data x) as [[|kv items]|] eqn:Hd; simpl;
               [ | let o := fresh "o" in
                   let Heq := fresh "Heq" in
                   let Ho := fresh "Ho" in
                   destruct (decode_items_pure b64decode_utf8 (kv :: items))
                     as (o & Heq & Ho);
                   simpl in Heq; rewrite Heq; simpl;
                   destruct o as [?|?|?]; [| |contradiction]; simpl
                 | ];
               try match goal with
                   | |- wp (if is_ApiException ?e then _ else _) _ =>
                       destruct (is_ApiException e) eqn:?; simpl; try intros []
                   end;
               observe_all; repeat split; auto;
               try (exists x; unfold secret_items; rewrite Hd; split;
                    [reflexivity|auto; constructor]);
               try (right; right; exists x; unfold secret_items; rewrite Hd; split;
                    [reflexivity|assumption])
           end.
  all: try match goal with
           | |- wp (if is_ApiException ?e then _ else _) _ =>
               destruct (is_ApiException e) eqn:?; simpl; try intros []
           end.
  all: observe_all; repeat split; eauto.
Qed.

(** X11. [get_k8s_secret] reads the named secret once and changes
    nothing.  It returns the keys of the secret's data in their order,
    each with its value decoded, and the empty dictionary for a secret
    without data; it raises the error of the read when the read fails, and
    the error of the first value that does not decode otherwise. *)
Theorem get_k8s_secret_decodes :
  forall (b64decode_utf8 : string -> reply string) (namespace name : string)
         (kubeconfig_path : option string) (W : Type) (h : handler W) (w : W),
    let r := run h (get_k8s_secret b64decode_utf8 namespace name kubeconfig_path) w in
    (length (reads (trace r)) <= 1)%nat
    /\ creations (trace r) = [] /\ deletions (trace r) = []
    /\ remote_log (trace r) = []
    /\ (forall decoded,
           result r = Return decoded ->
           exists secret,
             reads (trace r) = [Ok secret]
             /\ decodes_to b64decode_utf8 (secret_items secret) decoded)
    /\ (forall secret,
           reads (trace r) = [Ok secret] -> secret_items secret = [] ->
           result r = Return [])
    /\ (forall secret e,
           reads (trace r) = [Ok secret] -> result r = Raise e ->
           first_undecodable b64decode_utf8 (secret_items secret) e)
    /\ (forall e, reads (trace r) = [Err e] -> result r = Raise e).
Proof.
  intros b64 namespace name kube W h w r.
  pose proof (wp_sound _ _ (get_wp b64 namespace name kube) h w) as H.
  fold r in H. destruct H as ((Hd & Hrl & _) & Hc & _ & Ho).
  split.
  { destruct (result r) as [d|e|code]; [| |contradiction].
    - destruct Ho as (secret & -> & _). simpl. lia.
    - destruct Ho as [-> |[-> |(secret & -> & _)]]; simpl; lia. }
  repeat (split; [assumption|]).
  split; [|split; [|split]].
  - intros decoded Hres. rewrite Hres in Ho. exact Ho.
  - intros secret Hreads Hitems.
    destruct (result r) as [d|e|code]; [| |contradiction].
    + destruct Ho as (secret' & Hreads' & Hdec). rewrite Hreads in Hreads'.
      injection Hreads' as <-. rewrite Hitems in Hdec. now inversion Hdec.
    + rewrite Hreads in Ho.
      destruct Ho as [Ho|[Ho|(secret' & Hreads' & Hund)]]; try discriminate Ho.
      injection Hreads' as <-. rewrite Hitems in Hund.
      destruct Hund as (before & k & v & after & dec & Happ & _).
      destruct before; discriminate Happ.
  - intros secret e Hreads Hres. rewrite Hres, Hreads in Ho.
    destruct Ho as [Ho|[Ho|(secret' & Hreads' & Hund)]]; try discriminate Ho.
    now injection Hreads' as <-.
  - intros e Hreads. destruct (result r) as [d|e'|code]; [| |contradiction].
    + destruct Ho as (secret' & Hreads' & _). rewrite Hreads in Hreads'.
      discriminate Hreads'.
    + rewrite Hreads in Ho.
      destruct Ho as [Ho|[Ho|(secret' & Hreads' & _)]]; try discriminate.
      now injection Ho as <-.
Qed.

Lemma get_k8s_secret_decodes_witness :
  (let r := run world_step (get_k8s_secret decode_samples "ns1" "svc-a-1699990002" None)
              stale_world in
   result r = Return [("token", "old")]
   /\ exists secret,
        reads (trace r) = [Ok secret]
        /\ decodes_to decode_samples (secret_items secret) [("token", "old")])
  /\ (let r := run world_step (get_k8s_secret decode_samples "ns1" "svc-a-1700000000" None)
                 (pending_world 5) in
      exists secret,
        reads (trace r) = [Ok secret] /\ secret_items secret = []
        /\ result r = Return [])
  /\ (let r := run world_step (get_k8s_secret decode_tok123 "ns1" "svc-a-1699990002" None)
                 stale_world in
      exists secret,
        reads (trace r) = [Ok secret]
        /\ result r = Raise (ValueError "Incorrect padding")
        /\ first_undecodable decode_tok123 (secret_items secret)
             (ValueError "Incorrect padding"))
  /\ (let r := run world_step (get_k8s_secret decode_samples "ns1" "missing" None)
                 stale_world in
      reads (trace r) = [Err (ApiException 404 "Not Found")]
      /\ result r = Raise (ApiException 404 "Not Found")).
Proof.
  split; [|split; [|split]]; cbv zeta.
  - split; [vm_compute; reflexivity|].
    apply (get_k8s_secret_decodes decode_samples "ns1" "svc-a-1699990002" None
             world_step stale_world).
    vm_compute. reflexivity.
  - eexists. split; [vm_compute; reflexivity|]. split; [reflexivity|].
    eapply (proj1 (proj2 (proj2 (proj2 (proj2 (proj2
              (get_k8s_secret_decodes decode_samples "ns1" "svc-a-1700000000" None
                 world_step (pending_world 5)))))))).
    + vm_compute. reflexivity.
    + reflexivity.
  - eexists. split; [vm_compute; reflexivity|]. split; [vm_compute; reflexivity|].
    eapply (proj1 (proj2 (proj2 (proj2 (proj2 (proj2 (proj2
              (get_k8s_secret_decodes decode_tok123 "ns1" "svc-a-1699990002" None
                 world_step stale_world))))))));
      vm_compute; reflexivity.
  - split; [vm_compute; reflexivity|].
    apply (proj2 (proj2 (proj2 (proj2 (proj2 (proj2 (proj2
             (get_k8s_secret_decodes decode_samples "ns1" "missing" None
                world_step stale_world)))))))).
    vm_compute. reflexivity.
Defined.

(** ** The remote client *)

Transparent check_env update_harness_secret.

Lemma create_remote_wp (env : string -> option string)
    (harness_account harness_org harness_project secret_identifier token : string)
    (tags : json) (description secret_manager : string) :
  wp (create_harness_secret env harness_account harness_org harness_project
        secret_identifier token tags description secret_manager)
     (fun o tr =>
        match env "PLUGIN_HARNESS_PLATFORM_API_KEY" with
        | None => tr <> [] /\ remote_log tr = [] /\ o = Exit 1
        | Some _ =>
            exists reply q,
              remote_log tr = [(POST, reply)]
              /\ requests tr = [q] /\ method q = POST
              /\ carries env harness_account harness_org harness_project
                   secret_identifier token tags description secret_manager q
              /\ o = (if accepted reply then Return true
                      else Raise (failure_of reply))
              /\ printed tr = error_text reply
        end).
Proof.
  unfold create_harness_secret, check_env, getenv, raise_for_status, carries, setting,
    error_text, accepted, status_is_error.
  destruct (env "PLUGIN_HARNESS_PLATFORM_API_KEY") as [api_key|];
    destruct (env "PLUGIN_HARNESS_URL") as [host|]; simpl.
  all: wp_run.
  all: observe_all.
  all: try (split; [discriminate|split; reflexivity]).
  all: eexists; eexists; split; [reflexivity|]; split; [reflexivity|]; simpl;
    repeat match goal with H : (_ && _)%bool = _ |- _ => rewrite H end;
    repeat split; reflexivity.
Qed.

(** X12. With the API key set, [create_harness_secret] sends exactly one
    request, a POST to the secrets collection of the configured host
    ("app.harness.io" when none is set) with the account header, the key,
    the scope parameters and the secret body.  It returns [True] when the
    reply is accepted; otherwise it raises the transport error, or prints
    the response text and raises the HTTP error.  Without the API key it
    sends nothing and leaves with status 1. *)
Theorem create_harness_secret_posts_once :
  forall (env : string -> option string)
         (harness_account harness_org harness_project secret_identifier token : string)
         (tags : json) (description secret_manager : string)
         (W : Type) (h : handler W) (w : W),
    let r := run h (create_harness_secret env harness_account harness_org
                      harness_project secret_identifier token tags description
                      secret_manager) w in
    (forall api_key,
        env "PLUGIN_HARNESS_PLATFORM_API_KEY" = Some api_key ->
        exists reply q,
          remote_log (trace r) = [(POST, reply)]
          /\ requests (trace r) = [q] /\ method q = POST
          /\ carries env harness_account harness_org harness_project
               secret_identifier token tags description secret_manager q
          /\ result r = (if accepted reply then Return true
                         else Raise (failure_of reply))
          /\ printed (trace r) = error_text reply)
    /\ (env "PLUGIN_HARNESS_PLATFORM_API_KEY" = None ->
        remote_log (trace r) = [] /\ result r = Exit 1).
Proof.
  intros env a o p i k g d m W h w r.
  pose proof (wp_sound _ _ (create_remote_wp env a o p i k g d m) h w) as H.
  fold r in H. split.
  - intros api_key Hkey. rewrite Hkey in H. exact H.
  - intro Hkey. rewrite Hkey in H. destruct H as (_ & H1 & H2). auto.
Qed.

Lemma create_harness_secret_posts_once_witness :
  (env_of settings_a "PLUGIN_HARNESS_PLATFORM_API_KEY" = Some "pat.acct.key"
   /\ let r := run world_step
                 (create_harness_secret (env_of settings_a) "acct" EmptyString
                    EmptyString "cred-svc-a" "tok123" (JObj [])
                    "created by automation" "harnessSecretManager") stale_world in
      exists reply q,
        remote_log (trace r) = [(POST, reply)]
        /\ requests (trace r) = [q] /\ method q = POST
        /\ carries (env_of settings_a) "acct" EmptyString EmptyString "cred-svc-a"
             "tok123" (JObj []) "created by automation" "harnessSecretManager" q
        /\ result r = (if accepted reply then Return true
                       else Raise (failure_of reply))
        /\ printed (trace r) = error_text reply)
  /\ (env_of settings_without_key "PLUGIN_HARNESS_PLATFORM_API_KEY" = None
      /\ let r := run world_step
                    (create_harness_secret (env_of settings_without_key) "acct"
                       EmptyString EmptyString "cred-svc-a" "tok123" (JObj [])
                       "created by automation" "harnessSecretManager") stale_world in
         remote_log (trace r) = [] /\ result r = Exit 1).
Proof.
  split; (split; [reflexivity|]).
  - eapply (proj1 (create_harness_secret_posts_once (env_of settings_a) "acct"
                     EmptyString EmptyString "cred-svc-a" "tok123" (JObj [])
                     "created by automation" "harnessSecretManager"
                     world_step stale_world)).
    reflexivity.
  - apply (proj2 (create_harness_secret_posts_once (env_of settings_without_key)
                    "acct" EmptyString EmptyString "cred-svc-a" "tok123" (JObj [])
                    "created by automation" "harnessSecretManager"
                    world_step stale_world)).
    reflexivity.
Defined.

Lemma upsert_requests_wp (env : string -> option string)
    (harness_account harness_org harness_project secret_identifier token : string)
    (tags : json) (description secret_manager : string) :
  wp (update_harness_secret env harness_account harness_org harness_project
        secret_identifier token tags description secret_manager)
     (fun o tr =>
        Forall (carries env harness_account harness_org harness_project
                  secret_identifier token tags description secret_manager)
          (requests tr)
        /\ map method (requests tr) = remote_calls tr
        /\ (env "PLUGIN_HARNESS_PLATFORM_API_KEY" = None -> requests tr = [])).
Proof.
  unfold update_harness_secret, create_harness_secret, check_env, getenv.
  unfold raise_for_status, response_json, json_get, py_in, carries, setting,
    remote_calls.
  destruct (env "PLUGIN_HARNESS_PLATFORM_API_KEY") as [api_key|];
    destruct (env "PLUGIN_HARNESS_URL") as [host|]; simpl.
  all: wp_run.
  all: observe_all.
  all: repeat split; try discriminate; auto.
  all: repeat (constructor; [simpl; repeat split; reflexivity|]); constructor.
Qed.

(** X13. Every request a run of [update_harness_secret] sends, the
    update and the create it may fall back to, carries the same headers
    (account and API key), the same scope parameters and the same secret
    body, built from the arguments of the call alone; the update addresses
    the secret under the collection of the configured host, the create the
    collection itself.  The requests are the remote calls of the run, in
    order. *)
Theorem upsert_requests_agree :
  forall (env : string -> option string)
         (harness_account harness_org harness_project secret_identifier token : string)
         (tags : json) (description secret_manager : string)
         (W : Type) (h : handler W) (w : W),
    let r := run h (update_harness_secret env harness_account harness_org
                      harness_project secret_identifier token tags description
                      secret_manager) w in
    Forall (carries env harness_account harness_org harness_project
              secret_identifier token tags description secret_manager)
      (requests (trace r))
    /\ map method (requests (trace r)) = remote_calls (trace r)
    /\ forall q1 q2,
         In q1 (requests (trace r)) -> In q2 (requests (trace r)) ->
         headers q1 = headers q2 /\ params q1 = params q2 /\ payload q1 = payload q2.
Proof.
  intros env a o p i k g d m W h w r.
  destruct (wp_sound _ _ (upsert_requests_wp env a o p i k g d m) h w) as (H1 & H2 & _).
  fold r in H1, H2. split; [exact H1|]. split; [exact H2|].
  intros q1 q2 In1 In2. rewrite Forall_forall in H1.
  destruct (H1 _ In1) as (Hh1 & Hp1 & Hb1 & _).
  destruct (H1 _ In2) as (Hh2 & Hp2 & Hb2 & _).
  rewrite Hh1, Hh2, Hp1, Hp2, Hb1, Hb2. auto.
Qed.

Lemma upsert_requests_agree_witness :
  let r := run world_step
             (update_harness_secret (env_of settings_a) "acct" EmptyString EmptyString
                "cred-svc-a" "tok123" (JObj []) "created by automation"
                "harnessSecretManager") (fresh_world 0) in
  exists q1 q2,
    requests (trace r) = [q1; q2]
    /\ method q1 = PUT /\ method q2 = POST
    /\ headers q1 = headers q2 /\ params q1 = params q2 /\ payload q1 = payload q2.
Proof.
  cbv zeta.
  assert (Hq : exists q1 q2,
             requests
               (trace (run world_step
                         (update_harness_secret (env_of settings_a) "acct" EmptyString
                            EmptyString "cred-svc-a" "tok123" (JObj [])
                            "created by automation" "harnessSecretManager")
                         (fresh_world 0)))
             = [q1; q2] /\ method q1 = PUT /\ method q2 = POST).
  { do 2 eexists. split; [vm_compute; reflexivity|]. split; reflexivity. }
  destruct Hq as (q1 & q2 & Hq & H1 & H2).
  exists q1, q2. split; [exact Hq|]. split; [exact H1|]. split; [exact H2|].
  apply (proj2 (proj2 (upsert_requests_agree (env_of settings_a) "acct" EmptyString
                         EmptyString "cred-svc-a" "tok123" (JObj [])
                         "created by automation" "harnessSecretManager"
                         world_step (fresh_world 0)))).
  - rewrite Hq. left. reflexivity.
  - rewrite Hq. right. left. reflexivity.
Defined.

(** X14. The optional scope reaches the token labels, the query
    parameters and the secret body together: the organisation (the
    project) is a label, a parameter and a member of the body exactly when
    it is a non-empty string, and then with that value.  The account is
    always the routing and the account parameter, the token is the value of
    the body's spec, and the identifier is both its name and its
    identifier. *)
Theorem scope_reaches_labels_params_and_body :
  forall (harness_account harness_org harness_project secret_identifier token : string)
         (tags : json) (description secret_manager : string),
    let labels := token_labels harness_account harness_org harness_project in
    let query := secret_params harness_account harness_org harness_project in
    let body := secret_payload harness_org harness_project secret_identifier token
                  tags description secret_manager in
    let scoped (s : string) := if PyStr.truthy s then Some s else None in
    (dict_get "harness_org" labels = scoped harness_org
     /\ dict_get "orgIdentifier" query = scoped harness_org
     /\ json_path ["secret"; "orgIdentifier"] body
        = option_map JStr (scoped harness_org))
    /\ (dict_get "harness_project" labels = scoped harness_project
        /\ dict_get "projectIdentifier" query = scoped harness_project
        /\ json_path ["secret"; "projectIdentifier"] body
           = option_map JStr (scoped harness_project))
    /\ (dict_get "harness_account" labels = Some harness_account
        /\ dict_get "routingId" query = Some harness_account
        /\ dict_get "accountIdentifier" query = Some harness_account)
    /\ json_path ["secret"; "spec"; "value"] body = Some (JStr token)
    /\ json_path ["secret"; "name"] body = Some (JStr secret_identifier)
    /\ json_path ["secret"; "identifier"] body = Some (JStr secret_identifier)
    /\ json_path ["secret"; "tags"] body = Some tags.
Proof.
  intros a o p i k g d m.
  unfold token_labels, secret_params, secret_payload.
  destruct (PyStr.truthy o), (PyStr.truthy p); cbn; repeat split; reflexivity.
Qed.

Opaque check_env update_harness_secret.

(** ** Runs of [main]: settings *)

Lemma requests_are_remote_calls (tr : list entry) :
  map method (requests tr) = remote_calls tr.
Proof.
  unfold requests, remote_calls, remote_log.
  induction tr as [|[X e x] tr IH]; [reflexivity|].
  destruct e; simpl; try exact IH; now rewrite IH.
Qed.

Lemma requests_nil (tr : list entry) : remote_log tr = [] -> requests tr = [].
Proof.
  intro H. pose proof (requests_are_remote_calls tr) as Hm.
  unfold remote_calls in Hm. rewrite H in Hm.
  destruct (requests tr); [reflexivity|discriminate Hm].
Qed.

Lemma getenv_default (env : string -> option string) (variable default value : string) :
  getenv env variable (Some default) = Some value ->
  value = setting env variable default.
Proof. unfold getenv, setting. destruct (env variable); congruence. Qed.

Lemma getenv_required (env : string -> option string) (variable value : string) :
  getenv env variable None = Some value -> env variable = Some value.
Proof. unfold getenv. destruct (env variable); congruence. Qed.

Lemma getenv_missing (env : string -> option string) (variable : string) :
  getenv env variable None = None -> env variable = None.
Proof. unfold getenv. destruct (env variable); congruence. Qed.

Ltac settings_facts :=
  repeat match goal with
  | H : getenv _ _ (Some _) = Some _ |- _ => apply getenv_default in H
  | H : getenv _ _ None = Some _ |- _ => apply getenv_required in H
  | H : getenv _ _ None = None |- _ => apply getenv_missing in H
  end.

Transparent check_env.

Lemma check_env_line (env : string -> option string) (variable : string)
    (default : option string) :
  wp (check_env env variable default)
     (fun o tr =>
        match getenv env variable default with
        | Some value => o = Return value /\ tr = []
        | None =>
            o = Exit 1
            /\ tr = [Entry (print ((if negb (PyStr.contains "PLUGIN_" variable)
                                    then variable else PyStr.drop 7 variable)
                                   ++ " required")) tt]
        end).
Proof.
  unfold check_env. destruct (getenv env variable default); simpl; [auto|].
  intros []. auto.
Qed.

Opaque check_env.

Ltac env_line_step :=
  wp_focus check_env_line;
  let o := fresh "o" in
  let t := fresh "t" in
  let H := fresh "Henv" in
  intros o t H;
  match type of H with
  | match getenv ?env ?v ?d with _ => _ end =>
      let E := fresh "Hget" in
      destruct (getenv env v d) eqn:E;
      [ destruct H as [-> ->]
      | destruct H as [-> ->];
        try (unfold getenv in E; destruct (env v); discriminate E) ]
  end.

Section Settings.

Variable env : string -> option string.
Variable json_loads : string -> reply json.
Variable b64decode_utf8 : string -> reply string.

Lemma main_stops_early :
  wp (main env json_loads b64decode_utf8)
     (fun o tr =>
        match env "PLUGIN_HARNESS_ACCOUNT", env "PLUGIN_HARNESS_ORG",
              env "PLUGIN_HARNESS_PROJECT" with
        | Some _, Some _, Some _ =>
            match json_loads (setting env "PLUGIN_SECRET_TAGS" "{}") with
            | Ok _ => True
            | Err e => o = Raise e /\ exists ts, tr = [Entry time_time ts]
            end
        | _, _, _ =>
            o = Exit 1
            /\ exists ts,
                 tr = [Entry time_time ts;
                       Entry (print (first_missing env ++ " required")) tt]
        end).
Proof.
  unfold main, first_missing.
  intro ts. simpl.
  env_line_step; simpl. env_line_step; simpl.
  env_line_step; simpl; settings_facts.
  2:{ rewrite Hget1. eauto. }
  env_line_step; simpl; settings_facts.
  2:{ rewrite Hget2, Hget1. eauto. }
  env_line_step; simpl; settings_facts.
  2:{ rewrite Hget3, Hget2, Hget1. eauto. }
  env_line_step; simpl. env_line_step; simpl. settings_facts. subst.
  rewrite Hget1, Hget2, Hget3.
  destruct (json_loads (setting env "PLUGIN_SECRET_TAGS" "{}")) as [tags|e]; simpl.
  - apply wp_any.
  - eauto.
Qed.

End Settings.

(** X2. The organisation and the project are resolved without a default:
    when PLUGIN_HARNESS_ORG or PLUGIN_HARNESS_PROJECT is not set (an empty
    value counts as set), [main] reads the clock, prints the name of the
    first of account, organisation and project that is missing, followed
    by " required", and leaves with status 1: it calls neither the cluster
    nor the remote manager and writes no output. *)
Theorem missing_scope_setting_aborts :
  forall (env : string -> option string) (json_loads : string -> reply json)
         (b64decode_utf8 : string -> reply string)
         (W : Type) (h : handler W) (w : W),
    let r := run h (main env json_loads b64decode_utf8) w in
    env "PLUGIN_HARNESS_ORG" = None \/ env "PLUGIN_HARNESS_PROJECT" = None ->
    result r = Exit 1
    /\ printed (trace r) = [first_missing env ++ " required"]
    /\ length (trace r) = 2%nat
    /\ external_calls (trace r) = []
    /\ written_files (trace r) = [].
Proof.
  intros env json_loads b64 W h w r Hmissing.
  pose proof (wp_sound _ _ (main_stops_early env json_loads b64) h w) as H.
  fold r in H.
  assert (Hstop : result r = Exit 1
                  /\ exists ts,
                       trace r = [Entry time_time ts;
                                  Entry (print (first_missing env ++ " required")) tt]).
  { destruct (env "PLUGIN_HARNESS_ACCOUNT"); [|exact H].
    destruct Hmissing as [Hm|Hm]; rewrite Hm in H; [exact H|].
    destruct (env "PLUGIN_HARNESS_ORG"); exact H. }
  destruct Hstop as (Ho & ts & Htr). rewrite Htr. auto.
Qed.

Lemma missing_scope_setting_aborts_witness :
  (env_of settings_without_org "PLUGIN_HARNESS_ORG" = None
   \/ env_of settings_without_org "PLUGIN_HARNESS_PROJECT" = None)
  /\ let r := run world_step (plugin_main settings_without_org) stale_world in
     result r = Exit 1
     /\ printed (trace r) = ["HARNESS_ORG required"]
     /\ length (trace r) = 2%nat
     /\ external_calls (trace r) = []
     /\ written_files (trace r) = [].
Proof.
  split; [left; reflexivity|].
  apply (missing_scope_setting_aborts (env_of settings_without_org) loads_braces
           decode_tok123 world_step stale_world).
  left. reflexivity.
Defined.

(** X3. When account, organisation and project are set and the text of
    PLUGIN_SECRET_TAGS (by default the empty object) is not valid JSON,
    [main] ends with the error of [json.loads] right after reading the
    clock: it prints nothing, calls neither the cluster nor the remote
    manager and writes no output. *)
Theorem invalid_tags_end_the_run :
  forall (env : string -> option string) (json_loads : string -> reply json)
         (b64decode_utf8 : string -> reply string)
         (W : Type) (h : handler W) (w : W)
         (harness_account harness_org harness_project : string) (e : exn),
    let r := run h (main env json_loads b64decode_utf8) w in
    env "PLUGIN_HARNESS_ACCOUNT" = Some harness_account ->
    env "PLUGIN_HARNESS_ORG" = Some harness_org ->
    env "PLUGIN_HARNESS_PROJECT" = Some harness_project ->
    json_loads (setting env "PLUGIN_SECRET_TAGS" "{}") = Err e ->
    result r = Raise e
    /\ length (trace r) = 1%nat
    /\ printed (trace r) = []
    /\ external_calls (trace r) = []
    /\ written_files (trace r) = [].
Proof.
  intros env json_loads b64 W h w a o p e r Ha Ho Hp He.
  pose proof (wp_sound _ _ (main_stops_early env json_loads b64) h w) as H.
  fold r in H. rewrite Ha, Ho, Hp, He in H.
  destruct H as (Hres & ts & Htr). rewrite Htr. auto.
Qed.

Lemma invalid_tags_end_the_run_witness :
  (env_of settings_bad_tags "PLUGIN_HARNESS_ACCOUNT" = Some "acct"
   /\ env_of settings_bad_tags "PLUGIN_HARNESS_ORG" = Some EmptyString
   /\ env_of settings_bad_tags "PLUGIN_HARNESS_PROJECT" = Some EmptyString
   /\ loads_braces (setting (env_of settings_bad_tags) "PLUGIN_SECRET_TAGS" "{}")
      = Err (JSONDecodeError "Expecting value"))
  /\ let r := run world_step (plugin_main settings_bad_tags) stale_world in
     result r = Raise (JSONDecodeError "Expecting value")
     /\ length (trace r) = 1%nat
     /\ printed (trace r) = []
     /\ external_calls (trace r) = []
     /\ written_files (trace r) = [].
Proof.
  split; [repeat split; reflexivity|].
  apply (@invalid_tags_end_the_run (env_of settings_bad_tags) loads_braces
           decode_tok123 World world_step stale_world "acct" EmptyString EmptyString
           (JSONDecodeError "Expecting value")); reflexivity.
Defined.

(** ** Runs of [main]: the rotation *)

Transparent update_harness_secret check_env cleanup.

Lemma upsert_calm (env : string -> option string)
    (harness_account harness_org harness_project secret_identifier token : string)
    (tags : json) (description secret_manager : string) :
  wp (update_harness_secret env harness_account harness_org harness_project
        secret_identifier token tags description secret_manager)
     (fun _ tr => reads tr = [] /\ creations tr = [] /\ list_replies tr = []).
Proof.
  unfold update_harness_secret, create_harness_secret, check_env, getenv.
  unfold raise_for_status, response_json, json_get, py_in.
  destruct (env "PLUGIN_HARNESS_PLATFORM_API_KEY") as [api_key|];
    destruct (env "PLUGIN_HARNESS_URL") as [host|]; simpl.
  all: wp_run.
  all: observe_all; auto.
Qed.

Lemma delete_calm (namespace secret_name : string) (kubeconfig_path : option string) :
  wp (delete_k8s_secret namespace secret_name kubeconfig_path)
     (fun _ tr => reads tr = [] /\ creations tr = [] /\ list_replies tr = []).
Proof.
  unfold delete_k8s_secret, load_k8s_config. destruct kubeconfig_path as [[|c path]|].
  all: wp_run; observe_all; auto.
Qed.

Opaque delete_k8s_secret.

Lemma cleanup_calm (namespace : string) (secrets : list secret_info) :
  wp (cleanup namespace secrets)
     (fun _ tr => reads tr = [] /\ creations tr = [] /\ list_replies tr = []).
Proof.
  induction secrets as [|secret rest IH]; simpl; [observe_all; auto|].
  wp_focus delete_calm. intros o t1 (H1 & H2 & H3).
  destruct o as [u|e|code]; simpl.
  - intros []. eapply wp_mono; [exact IH|].
    intros o t2 (H4 & H5 & H6).
    unfold reads, creations, list_replies in *.
    rewrite !collect_app, H1, H2, H3. simpl. auto.
  - rewrite app_nil_r. auto.
  - rewrite app_nil_r. auto.
Qed.

Transparent delete_k8s_secret.
Opaque update_harness_secret check_env cleanup.

Lemma issue_full (b64decode_utf8 : string -> reply string)
    (namespace service_account token_name : string) (labels : dict string)
    (kubeconfig_path : option string) :
  wp (create_service_account_token b64decode_utf8 namespace service_account
        token_name labels kubeconfig_path)
     (fun o tr =>
        issue_bounds b64decode_utf8 service_account token_name labels o tr
        /\ quiet tr).
Proof.
  apply wp_conj; [apply issue_bounds_wp|].
  eapply wp_mono; [apply issue_quiet|]. intros o tr [H _]. exact H.
Qed.

Lemma upsert_full (env : string -> option string)
    (harness_account harness_org harness_project secret_identifier token : string)
    (tags : json) (description secret_manager : string) :
  wp (update_harness_secret env harness_account harness_org harness_project
        secret_identifier token tags description secret_manager)
     (fun o tr =>
        (upsert_post env o tr
         /\ Forall (carries env harness_account harness_org harness_project
                      secret_identifier token tags description secret_manager)
              (requests tr))
        /\ reads tr = [] /\ creations tr = [] /\ list_replies tr = []).
Proof.
  apply wp_conj; [apply wp_conj|apply upsert_calm]; [apply upsert_any_env|].
  eapply wp_mono; [apply upsert_requests_wp|]. intros o tr (H & _). exact H.
Qed.

Lemma cleanup_full (namespace : string) (secrets : list secret_info) :
  wp (cleanup namespace secrets)
     (fun o tr =>
        cleanup_post secrets o tr
        /\ reads tr = [] /\ creations tr = [] /\ list_replies tr = []).
Proof. apply wp_conj; [apply cleanup_wp|apply cleanup_calm]. Qed.

Lemma output_path (env : string -> option string) (variable default : string) :
  match getenv env variable (Some default) with
  | Some path => path
  | None => default
  end = setting env variable default.
Proof. unfold getenv, setting. destruct (env variable); reflexivity. Qed.

Lemma after_create_creations (tr : list entry) (x : reply unit * list entry) :
  after_create tr = Some x -> creations tr <> [].
Proof.
  unfold creations. induction tr as [|[X e r] tr IH]; simpl; [discriminate|].
  destruct e; simpl; auto; discriminate.
Qed.

Lemma issue_reads_after_creation (b64decode_utf8 : string -> reply string)
    (service_account token_name : string) (labels : dict string)
    (o : outcome string) (tr : list entry) :
  issue_bounds b64decode_utf8 service_account token_name labels o tr ->
  reads tr <> [] -> creations tr <> [].
Proof.
  intros (_ & _ & _ & _ & _ & Hafter & _) Hreads.
  destruct (after_create tr) as [x|] eqn:Ha.
  - exact (after_create_creations _ Ha).
  - destruct Hafter as [Hr _]. contradiction.
Qed.

(** The contracts of the calls of [main], taken apart. *)
Ltac rotation_facts_of_calls :=
  repeat match goal with
  | u : unit |- _ => destruct u
  | H : _ /\ _ |- _ => destruct H
  | H : list_contract _ _ _ |- _ => unfold list_contract in H
  | H : issue_bounds _ _ _ _ _ _ |- _ =>
      pose proof (issue_reads_after_creation H);
      destruct H as (_ & _ & _ & ? & ? & _ & ?)
  | H : upsert_post _ (Return ?a) _ |- _ =>
      let Hiff := fresh "Hiff" in
      let Hv := fresh "Hv" in
      destruct H as (? & ? & Hiff & Hv & _ & _);
      pose proof (Hv a eq_refl); subst a;
      pose proof (proj1 Hiff eq_refl); clear Hiff Hv
  | H : upsert_post _ _ _ |- _ => destruct H as (? & ? & _ & _ & ? & _)
  | H : cleanup_post _ (Return tt) _ |- _ =>
      let Hret := fresh "Hret" in
      destruct H as (? & ? & _ & ? & Hret & _);
      destruct (Hret eq_refl); clear Hret
  | H : cleanup_post _ _ _ |- _ => destruct H as (? & ? & _ & ? & _ & ?)
  | H : quiet _ |- _ => unfold quiet in H
  | H : False |- _ => destruct H
  | H : list_replies _ = [] \/ _ |- _ => destruct H
  | H : exists secrets, list_replies _ = _ /\ _ |- _ =>
      let secrets := fresh "secrets" in
      let Hl := fresh "Hlisted" in
      let Hf := fresh "Hfound" in
      destruct H as (secrets & Hl & Hf)
  | H : exists earlier secret_obj material, _ |- _ =>
      let earlier := fresh "earlier" in
      let secret_obj := fresh "secret_obj" in
      let material := fresh "material" in
      destruct H as (earlier & secret_obj & material & ? & ? & ?)
  | H : remote_log ?t = [] |- _ =>
      lazymatch goal with
      | _ : requests t = [] |- _ => fail
      | _ => pose proof (requests_nil _ H);
             pose proof (remote_log_nil_published _ H)
      end
  | H : deletions ?t = [] |- _ =>
      lazymatch goal with
      | _ : failed_deletions t = [] |- _ => fail
      | _ => pose proof (no_deletions_no_failed _ H)
      end
  end.

(** The observations of a composed trace, from those of its parts: each
    one is computed once, aside, and put back. *)
Ltac tally_in Hv :=
  repeat (progress (rewrite ?collect_app, ?published_app, ?output_path in Hv;
                    repeat match type of Hv with
                           | context [collect ?f ?t] =>
                               match goal with
                               | H : collect f t = _ |- _ => rewrite H in Hv
                               end
                           | context [published ?t] =>
                               match goal with
                               | H : published t = _ |- _ => rewrite H in Hv
                               end
                           end;
                    simpl in Hv; rewrite ?app_nil_r in Hv)).

Ltac tally_of T term :=
  let v := fresh "v" in
  let Hv := fresh "Hv" in
  remember term as v eqn:Hv;
  unfold T in Hv;
  tally_in Hv;
  subst v.

Ltac tally T :=
  unfold list_replies, creations, reads, requests, deletions, written_files,
    failed_deletions, sleeps, remote_log, printed in *;
  repeat match goal with
         | |- context [collect ?f T] => tally_of T (collect f T)
         | |- context [published T] => tally_of T (published T)
         end;
  clear T.

Ltac rotation_close :=
  repeat first
    [ match goal with
      | H : [] <> [] |- _ => exfalso; apply H; reflexivity
      | H : ?x = false, H' : ?x = true |- _ => rewrite H in H'; discriminate H'
      | H : [] = [_] |- _ => discriminate H
      | H : forall code, Exit ?c <> Exit code |- _ => exfalso; apply (H c); reflexivity
      | H : Return _ = Exit _ |- _ => discriminate H
      | H : Raise _ = Exit _ |- _ => discriminate H
      end
    | match goal with
      | |- _ /\ _ => split
      | |- _ -> _ => intro
      | |- forall _, _ => intro
      | |- exists _, _ => eexists
      end ];
  try match goal with
      | H : [_] = [_] |- _ => injection H as H; subst
      end;
  subst;
  try solve [ lia | eassumption | reflexivity | discriminate | auto
            | eexists; reflexivity
            | match goal with
              | H : collect read_reply_of ?t <> [] -> collect creation_of ?t <> [],
                H' : collect read_reply_of ?t = (?earlier ++ _)%list
                |- collect creation_of ?t <> [] =>
                  apply H; rewrite H'; destruct earlier; discriminate
              | H : forall code, _ = Exit code -> code = 1 |- _ = 1 =>
                  apply H; first [reflexivity | congruence]
              end ].

Ltac rotation_step :=
  simpl;
  lazymatch goal with
  | |- forall _, _ => intros ?
  | |- wp ?p _ =>
      let q := head_of p in
      lazymatch q with
      | check_env _ _ _ => env_line_step
      | list_k8s_secrets _ _ _ => call_step list_wp
      | create_service_account_token _ _ _ _ _ _ => call_step issue_full
      | update_harness_secret _ _ _ _ _ _ _ _ _ => call_step upsert_full
      | cleanup _ _ => call_step cleanup_full
      | match ?x with _ => _ end => destruct x eqn:?
      | andThen (of_reply ?x) _ => destruct x eqn:?
      end
  end.

Section Rotation.

Variable env : string -> option string.
Variable json_loads : string -> reply json.
Variable b64decode_utf8 : string -> reply string.
Variables harness_account harness_org harness_project : string.
Variable tags : json.

Hypothesis account_set : env "PLUGIN_HARNESS_ACCOUNT" = Some harness_account.
Hypothesis org_set : env "PLUGIN_HARNESS_ORG" = Some harness_org.
Hypothesis project_set : env "PLUGIN_HARNESS_PROJECT" = Some harness_project.
Hypothesis tags_parsed :
  json_loads (setting env "PLUGIN_SECRET_TAGS" "{}") = Ok tags.

Lemma rotation_wp :
  wp (main env json_loads b64decode_utf8)
     (rotation_facts env b64decode_utf8 harness_account harness_org
        harness_project tags).
Proof.
  unfold main.
  repeat rotation_step.
  all: simpl.
  all: settings_facts; subst.
  all: try congruence.
  all: assert (s1 = harness_account) by congruence.
  all: assert (s2 = harness_org) by congruence.
  all: assert (s3 = harness_project) by congruence.
  all: assert (x0 = tags) by congruence.
  all: subst; clear Hget1 Hget2 Hget3 Heqr.
  all: rotation_facts_of_calls.
  all: match goal with
       | |- rotation_facts _ _ _ _ _ _ _ ?tr => set (T := tr)
       end.
  all: unfold rotation_facts, issued, initial_segment in *; cbv zeta.
  all: repeat match goal with
              | H : exists rest, _ = (_ ++ rest)%list |- _ => destruct H
              end.
  all: eexists; eexists; (split; [reflexivity|]).
  all: tally T.
  all: rotation_close.
Qed.

End Rotation.

Lemma main_facts_or_stop (env : string -> option string)
    (json_loads : string -> reply json) (b64decode_utf8 : string -> reply string) :
  wp (main env json_loads b64decode_utf8)
     (fun o tr =>
        stopped_early tr
        \/ exists harness_account harness_org harness_project tags,
             rotation_facts env b64decode_utf8 harness_account harness_org
               harness_project tags o tr).
Proof.
  destruct (env "PLUGIN_HARNESS_ACCOUNT") as [a|] eqn:Ha.
  1: destruct (env "PLUGIN_HARNESS_ORG") as [g|] eqn:Hg.
  1: destruct (env "PLUGIN_HARNESS_PROJECT") as [p|] eqn:Hp.
  1: destruct (json_loads (setting env "PLUGIN_SECRET_TAGS" "{}")) as [tags|e] eqn:Ht.
  1:{ eapply wp_mono; [exact (@rotation_wp env json_loads b64decode_utf8 a g p tags Ha Hg Hp Ht)|].
      intros o tr H. right. eauto. }
  all: eapply wp_mono; [apply main_stops_early|]; cbv beta.
  all: rewrite ?Ha, ?Hg, ?Hp, ?Ht.
  all: intros o tr (_ & ts & ->); left; exists ts; eauto.
Qed.






(** X17. Cleanup follows discovery.  A run of [main] requests deletions
    only when PLUGIN_DELETE_K8S_SECRETS is a non-empty string and the
    listing succeeded, and then the names it requests, in order, are an
    initial segment of the names of the listed secrets that contain the
    service-account name, whatever their case.  When the outputs are
    written and deletion is requested by the setting, every one of those
    secrets was requested for deletion and no deletion failed. *)
Theorem cleanup_follows_discovery :
  forall (env : string -> option string) (json_loads : string -> reply json)
         (b64decode_utf8 : string -> reply string)
         (W : Type) (h : handler W) (w : W),
    let r := run h (main env json_loads b64decode_utf8) w in
    let service_account_name :=
      setting env "PLUGIN_SERVICE_ACCOUNT_NAME" "harness-delegate-ng" in
    let delete_flag := setting env "PLUGIN_DELETE_K8S_SECRETS" EmptyString in
    (deletions (trace r) <> [] ->
     PyStr.truthy delete_flag = true
     /\ exists secrets,
          list_replies (trace r) = [Ok secrets]
          /\ initial_segment (map fst (deletions (trace r)))
               (map name (discovered service_account_name secrets)))
    /\ (written_files (trace r) <> [] ->
        exists secrets,
          list_replies (trace r) = [Ok secrets]
          /\ failed_deletions (trace r) = []
          /\ map fst (deletions (trace r))
             = if PyStr.truthy delete_flag
               then map name (discovered service_account_name secrets)
               else []).
Proof.
  intros env json_loads b64 W h w r sa flag.
  destruct (wp_sound _ _ (main_facts_or_stop env json_loads b64) h w)
    as [(ts & Hstop)|(a & g & p & tags & H)]; fold r in Hstop || fold r in H.
  - destruct Hstop as [->|(line & ->)]; simpl.
    all: split; intros; contradiction.
  - destruct H as (ts & rest & _ & _ & _ & _ & _ & _ & Hd & Hw & _).
    split; [exact Hd|].
    intro Hne.
    destruct (Hw Hne) as (_ & _ & Hf & token & secrets & _ & Hl & _ & Hall).
    exists secrets. split; [exact Hl|]. split; [exact Hf|].
    fold sa flag in Hall, Hd.
    destruct (PyStr.truthy flag) eqn:Hflag; [auto|].
    destruct (deletions (trace r)) as [|d ds] eqn:Hds; [reflexivity|].
    destruct Hd as [Htrue _]; [discriminate|discriminate Htrue].
Qed.

Lemma cleanup_follows_discovery_witness :
  let r := run world_step (plugin_main settings_cleanup) stale_world in
  deletions (trace r) <> []
  /\ written_files (trace r) <> []
  /\ PyStr.truthy (setting (env_of settings_cleanup) "PLUGIN_DELETE_K8S_SECRETS"
                     EmptyString) = true
  /\ (exists secrets,
         list_replies (trace r) = [Ok secrets]
         /\ initial_segment (map fst (deletions (trace r)))
              (map name
                 (discovered
                    (setting (env_of settings_cleanup) "PLUGIN_SERVICE_ACCOUNT_NAME"
                       "harness-delegate-ng") secrets)))
  /\ (exists secrets,
         list_replies (trace r) = [Ok secrets]
         /\ failed_deletions (trace r) = []
         /\ map fst (deletions (trace r))
            = if PyStr.truthy (setting (env_of settings_cleanup)
                                 "PLUGIN_DELETE_K8S_SECRETS" EmptyString)
              then map name
                     (discovered
                        (setting (env_of settings_cleanup)
                           "PLUGIN_SERVICE_ACCOUNT_NAME" "harness-delegate-ng")
                        secrets)
              else []).
Proof.
  cbv zeta.
  destruct (cleanup_follows_discovery (env_of settings_cleanup) loads_braces
              decode_tok123 world_step stale_world) as (Hd & Hw).
  assert (H1 : deletions (trace (run world_step (plugin_main settings_cleanup)
                                   stale_world)) <> [])
    by (vm_compute; discriminate).
  assert (H2 : written_files (trace (run world_step (plugin_main settings_cleanup)
                                       stale_world)) <> [])
    by (vm_compute; discriminate).
  split; [exact H1|]. split; [exact H2|].
  split; [exact (proj1 (Hd H1))|]. split; [exact (proj2 (Hd H1))|exact (Hw H2)].
Defined.

(** ** Runs of [main]: the namespace *)

Lemma stays_in_nil (namespace token_name : string) : stays_in namespace token_name [].
Proof. split; constructor. Qed.

Lemma stays_in_app (namespace token_name : string) (t1 t2 : list entry) :
  stays_in namespace token_name t1 -> stays_in namespace token_name t2 ->
  stays_in namespace token_name (t1 ++ t2).
Proof.
  unfold stays_in, namespaces, read_names. intros [H1 H2] [H3 H4].
  rewrite !collect_app. split; apply Forall_app; auto.
Qed.

Lemma stays_in_cons (namespace token_name : string) (en : entry) (tr : list entry) :
  stays_in namespace token_name [en] -> stays_in namespace token_name tr ->
  stays_in namespace token_name (en :: tr).
Proof. apply (stays_in_app (t1 := [en])). Qed.

Ltac stays_solve :=
  repeat first
    [ eassumption
    | apply stays_in_nil
    | apply stays_in_app
    | match goal with
      | |- stays_in _ _ [_] =>
          solve [unfold stays_in, namespaces, read_names; simpl;
                 split; repeat constructor]
      | |- stays_in _ _ (_ :: _) => apply stays_in_cons
      end ].

Transparent list_k8s_secrets create_service_account_token poll_token
  update_harness_secret check_env cleanup.

Lemma list_stays_in (namespace search_string token_name : string)
    (kubeconfig_path : option string) :
  wp (list_k8s_secrets namespace search_string kubeconfig_path)
     (fun _ tr => stays_in namespace token_name tr).
Proof.
  unfold list_k8s_secrets, load_k8s_config. destruct kubeconfig_path as [[|c path]|].
  all: wp_run; stays_solve.
Qed.

Lemma poll_stays_in (b64decode_utf8 : string -> reply string)
    (namespace token_name : string) (max_retries remaining : nat) :
  wp (poll_token b64decode_utf8 namespace token_name max_retries remaining)
     (fun _ tr => stays_in namespace token_name tr).
Proof.
  induction remaining as [|fewer IH]; simpl; [stays_solve|].
  intros [secret_obj|e]; simpl; [|stays_solve].
  destruct (token_material secret_obj); simpl; [stays_solve|].
  intros []. simpl. eapply wp_mono; [exact IH|].
  intros o tr H. stays_solve.
Qed.

Opaque poll_token.

Lemma issue_stays_in (b64decode_utf8 : string -> reply string)
    (namespace service_account token_name : string) (labels : dict string)
    (kubeconfig_path : option string) :
  wp (create_service_account_token b64decode_utf8 namespace service_account
        token_name labels kubeconfig_path)
     (fun _ tr => stays_in namespace token_name tr).
Proof.
  unfold create_service_account_token, load_k8s_config.
  destruct kubeconfig_path as [[|c path]|]; simpl.
  all: wp_run.
  all: try (wp_focus poll_stays_in; intros o tp Hp; wp_run).
  all: stays_solve.
Qed.

Lemma upsert_stays_in (env : string -> option string)
    (harness_account harness_org harness_project secret_identifier token : string)
    (tags : json) (description secret_manager namespace token_name : string) :
  wp (update_harness_secret env harness_account harness_org harness_project
        secret_identifier token tags description secret_manager)
     (fun _ tr => stays_in namespace token_name tr).
Proof.
  unfold update_harness_secret, create_harness_secret, check_env, getenv.
  unfold raise_for_status, response_json, json_get, py_in.
  destruct (env "PLUGIN_HARNESS_PLATFORM_API_KEY") as [api_key|];
    destruct (env "PLUGIN_HARNESS_URL") as [host|]; simpl.
  all: wp_run.
  all: stays_solve.
Qed.

Lemma delete_stays_in (namespace secret_name token_name : string)
    (kubeconfig_path : option string) :
  wp (delete_k8s_secret namespace secret_name kubeconfig_path)
     (fun _ tr => stays_in namespace token_name tr).
Proof.
  unfold delete_k8s_secret, load_k8s_config. destruct kubeconfig_path as [[|c path]|].
  all: wp_run; stays_solve.
Qed.

Opaque delete_k8s_secret.

Lemma cleanup_stays_in (namespace token_name : string) (secrets : list secret_info) :
  wp (cleanup namespace secrets) (fun _ tr => stays_in namespace token_name tr).
Proof.
  induction secrets as [|secret rest IH]; simpl; [stays_solve|].
  wp_focus delete_stays_in. intros o t1 H1.
  destruct o as [u|e|code]; simpl; try (rewrite app_nil_r; eassumption).
  intros []. eapply wp_mono; [exact IH|].
  intros o t2 H2. stays_solve.
Qed.

Transparent delete_k8s_secret.
Opaque list_k8s_secrets create_service_account_token update_harness_secret
  check_env cleanup.

Ltac stays_step :=
  simpl;
  lazymatch goal with
  | |- forall _, _ => intros ?
  | |- wp ?p _ =>
      let q := head_of p in
      lazymatch q with
      | check_env _ _ _ => env_line_step
      | list_k8s_secrets _ _ _ => call_step list_stays_in
      | create_service_account_token _ _ _ _ _ _ => call_step issue_stays_in
      | update_harness_secret _ _ _ _ _ _ _ _ _ => call_step upsert_stays_in
      | cleanup _ _ => call_step cleanup_stays_in
      | match ?x with _ => _ end => destruct x eqn:?
      | andThen (of_reply ?x) _ => destruct x eqn:?
      end
  end.

Lemma main_stays_in (env : string -> option string)
    (json_loads : string -> reply json) (b64decode_utf8 : string -> reply string) :
  wp (main env json_loads b64decode_utf8)
     (fun _ tr =>
        exists current_unix_timestamp rest,
          tr = Entry time_time current_unix_timestamp :: rest
          /\ stays_in (setting env "PLUGIN_NAMESPACE" "harness-delegate-ng")
               (new_token_name_of
                  (setting env "PLUGIN_SERVICE_ACCOUNT_NAME" "harness-delegate-ng")
                  current_unix_timestamp)
               tr).
Proof.
  unfold main.
  repeat stays_step.
  all: simpl.
  all: settings_facts; subst.
  all: eexists; eexists; (split; [reflexivity|]).
  all: rewrite <- ?app_assoc.
  all: stays_solve.
Qed.

(** X18. A run of [main] stays in its namespace: every request it sends
    to the cluster (listing, creation, read, deletion) addresses the
    namespace of PLUGIN_NAMESPACE (by default "harness-delegate-ng"), and
    every secret it reads is the one it asked to create, named after the
    service account and the clock reading the run started with. *)
Theorem rotation_stays_in_namespace :
  forall (env : string -> option string) (json_loads : string -> reply json)
         (b64decode_utf8 : string -> reply string)
         (W : Type) (h : handler W) (w : W),
    let r := run h (main env json_loads b64decode_utf8) w in
    exists current_unix_timestamp rest,
      trace r = Entry time_time current_unix_timestamp :: rest
      /\ (forall namespace,
             In namespace (namespaces (trace r)) ->
             namespace = setting env "PLUGIN_NAMESPACE" "harness-delegate-ng")
      /\ (forall secret_name,
             In secret_name (read_names (trace r)) ->
             secret_name
             = new_token_name_of
                 (setting env "PLUGIN_SERVICE_ACCOUNT_NAME" "harness-delegate-ng")
                 current_unix_timestamp).
Proof.
  intros env json_loads b64 W h w r.
  destruct (wp_sound _ _ (main_stays_in env json_loads b64) h w)
    as (ts & rest & Htr & Hn & Hr).
  fold r in Htr, Hn, Hr. rewrite Forall_forall in Hn, Hr.
  exists ts, rest. split; [exact Htr|].
  split; intros x Hin; symmetry; auto.
Qed.

Lemma rotation_stays_in_namespace_witness :
  let r := run world_step (plugin_main settings_cleanup) stale_world in
  In "ns1" (namespaces (trace r))
  /\ In "svc-a-1700000000" (read_names (trace r))
  /\ exists current_unix_timestamp,
       "ns1" = setting (env_of settings_cleanup) "PLUGIN_NAMESPACE"
                 "harness-delegate-ng"
       /\ "svc-a-1700000000"
          = new_token_name_of
              (setting (env_of settings_cleanup) "PLUGIN_SERVICE_ACCOUNT_NAME"
                 "harness-delegate-ng")
              current_unix_timestamp.
Proof.
  cbv zeta.
  destruct (rotation_stays_in_namespace (env_of settings_cleanup) loads_braces
              decode_tok123 world_step stale_world)
    as (ts & rest & _ & Hn & Hr).
  assert (H1 : In "ns1" (namespaces (trace (run world_step
                                              (plugin_main settings_cleanup)
                                              stale_world))))
    by (vm_compute; auto).
  assert (H2 : In "svc-a-1700000000"
                 (read_names (trace (run world_step (plugin_main settings_cleanup)
                                       stale_world))))
    by (vm_compute; auto).
  split; [exact H1|]. split; [exact H2|].
  exists ts. split; [exact (Hn _ H1)|exact (Hr _ H2)].
Defined.

(** ** The output files *)









(** ** Missing settings *)

Lemma main_without_scope (env : string -> option string)
    (json_loads : string -> reply json) (b64decode_utf8 : string -> reply string) :
  env "PLUGIN_HARNESS_ACCOUNT" = None
  \/ env "PLUGIN_HARNESS_ORG" = None
  \/ env "PLUGIN_HARNESS_PROJECT" = None ->
  wp (main env json_loads b64decode_utf8)
     (fun o tr => external_calls tr = [] /\ o = Exit 1).
Proof.
  intro Hmissing.
  eapply wp_mono; [apply main_stops_early|]. cbv beta. intros o tr H.
  assert (Hstop : o = Exit 1
                  /\ exists ts,
                       tr = [Entry time_time ts;
                             Entry (print (first_missing env ++ " required")) tt]).
  { destruct (env "PLUGIN_HARNESS_ACCOUNT"); [|exact H].
    destruct (env "PLUGIN_HARNESS_ORG");
      [|destruct (env "PLUGIN_HARNESS_PROJECT"); exact H].
    destruct (env "PLUGIN_HARNESS_PROJECT"); [|exact H].
    destruct Hmissing as [Hm|[Hm|Hm]]; discriminate Hm. }
  destruct Hstop as (-> & ts & ->). split; reflexivity.
Qed.

Lemma main_exit_follows_issuance (env : string -> option string)
    (json_loads : string -> reply json) (b64decode_utf8 : string -> reply string) :
  wp (main env json_loads b64decode_utf8)
     (fun o tr =>
        o = Exit 1 -> external_calls tr <> [] ->
        exists secrets token,
          list_replies tr = [Ok secrets]
          /\ creations tr <> []
          /\ issued b64decode_utf8 tr token).
Proof.
  eapply wp_mono; [apply main_facts_or_stop|]. cbv beta.
  intros o tr [(ts & Hstop)|(a & g & p & tags & H)] Ho Hcalls.
  - exfalso. apply Hcalls. destruct Hstop as [->|(line & ->)]; reflexivity.
  - destruct H as (ts & rest & _ & _ & _ & _ & _ & _ & _ & _ & Hexit).
    destruct (Hexit 1 Ho) as (_ & Hfound). exact Hfound.
Qed.

(** C7 (amended). When the account, the organisation or the project
    setting is absent, the run ends with exit status 1 before any call to
    the cluster or to the remote manager.  The remote API key is looked up
    only when the remote request is built: when it is absent, the run
    makes no request to the remote manager, deletes nothing, writes no
    output and ends with exit status 1, either through [exit(1)] or with
    a raised error.  The cluster may have been called by then: a run that
    has called the cluster and ends through [exit(1)] has listed the
    cluster successfully, sent the creation request and read a secret
    that showed the token. *)
Theorem missing_setting_aborts :
  forall (env : string -> option string) (json_loads : string -> reply json)
         (b64decode_utf8 : string -> reply string)
         (W : Type) (h : handler W) (w : W),
    let r := run h (main env json_loads b64decode_utf8) w in
    (env "PLUGIN_HARNESS_ACCOUNT" = None
     \/ env "PLUGIN_HARNESS_ORG" = None
     \/ env "PLUGIN_HARNESS_PROJECT" = None ->
     external_calls (trace r) = [] /\ result r = Exit 1)
    /\ (env "PLUGIN_HARNESS_PLATFORM_API_KEY" = None ->
        remote_log (trace r) = []
        /\ deletions (trace r) = []
        /\ written_files (trace r) = []
        /\ exit_status (result r) = 1
        /\ (result r = Exit 1 \/ exists e, result r = Raise e)
        /\ (result r = Exit 1 ->
            external_calls (trace r) <> [] ->
            exists secrets token,
              list_replies (trace r) = [Ok secrets]
              /\ creations (trace r) <> []
              /\ issued b64decode_utf8 (trace r) token)).
Proof.
  intros env json_loads b64 W h w r. split.
  - intro Hmissing.
    apply (wp_sound _ _ (@main_without_scope env json_loads b64 Hmissing) h w).
  - intro Hkey.
    destruct (wp_sound _ _ (@main_without_api_key env json_loads b64 Hkey) h w)
      as (Hr & Hd & Hw & Hs).
    fold r in Hr, Hd, Hw, Hs.
    split; [exact Hr|]. split; [exact Hd|]. split; [exact Hw|]. split; [exact Hs|].
    split.
    + destruct (result r) as [u|e|code]; simpl in Hs.
      * discriminate Hs.
      * right. eauto.
      * left. now rewrite Hs.
    + apply (wp_sound _ _ (main_exit_follows_issuance env json_loads b64) h w).
Qed.

Lemma missing_setting_aborts_witness :
  ((env_of settings_without_account "PLUGIN_HARNESS_ACCOUNT" = None
    \/ env_of settings_without_account "PLUGIN_HARNESS_ORG" = None
    \/ env_of settings_without_account "PLUGIN_HARNESS_PROJECT" = None)
   /\ let r := run world_step (plugin_main settings_without_account) (fresh_world 0) in
      external_calls (trace r) = [] /\ result r = Exit 1)
  /\ ((env_of settings_without_org "PLUGIN_HARNESS_ACCOUNT" = None
       \/ env_of settings_without_org "PLUGIN_HARNESS_ORG" = None
       \/ env_of settings_without_org "PLUGIN_HARNESS_PROJECT" = None)
      /\ let r := run world_step (plugin_main settings_without_org) stale_world in
         external_calls (trace r) = [] /\ result r = Exit 1)
  /\ (env_of settings_without_key "PLUGIN_HARNESS_PLATFORM_API_KEY" = None
      /\ let r := run world_step (plugin_main settings_without_key) stale_world in
         (result r = Exit 1 /\ external_calls (trace r) <> [])
         /\ remote_log (trace r) = []
         /\ deletions (trace r) = []
         /\ written_files (trace r) = []
         /\ exit_status (result r) = 1
         /\ exists secrets token,
              list_replies (trace r) = [Ok secrets]
              /\ creations (trace r) <> []
              /\ issued decode_tok123 (trace r) token).
Proof.
  split; [|split].
  - split; [left; reflexivity|].
    apply (proj1 (missing_setting_aborts (env_of settings_without_account)
                    loads_braces decode_tok123 world_step (fresh_world 0))).
    left. reflexivity.
  - split; [right; left; reflexivity|].
    apply (proj1 (missing_setting_aborts (env_of settings_without_org)
                    loads_braces decode_tok123 world_step stale_world)).
    right. left. reflexivity.
  - split; [reflexivity|]. cbv zeta.
    destruct (proj2 (missing_setting_aborts (env_of settings_without_key)
                       loads_braces decode_tok123 world_step stale_world)
                eq_refl) as (Hr & Hd & Hw & Hs & _ & Hafter).
    assert (Hexit : result (run world_step (plugin_main settings_without_key)
                              stale_world) = Exit 1)
      by (vm_compute; reflexivity).
    assert (Hcalls : external_calls
                       (trace (run world_step (plugin_main settings_without_key)
                                 stale_world)) <> [])
      by (vm_compute; discriminate).
    split; [split; [exact Hexit|exact Hcalls]|].
    split; [exact Hr|]. split; [exact Hd|]. split; [exact Hw|]. split; [exact Hs|].
    exact (Hafter Hexit Hcalls).
Defined.

(** C7, as stated, fails: without the remote API key the run lists the
    cluster, creates the new token secret and reads it before it ends with
    exit status 1; the created secret stays in the cluster. *)
Lemma cluster_is_called_before_the_key_is_checked :
  let r := run world_step (plugin_main settings_without_key) (fresh_world 0) in
  env_of settings_without_key "PLUGIN_HARNESS_PLATFORM_API_KEY" = None
  /\ result r = Exit 1
  /\ calls (external_calls (trace r))
     = [Called (list_namespaced_secret "ns1");
        Called (create_namespaced_secret "ns1"
                  (token_secret "svc-a" "svc-a-1700000000"
                     [("harness_account", "acct")]));
        Called (read_namespaced_secret "svc-a-1700000000" "ns1")]
  /\ secret_names (fresh_world 0) = []
  /\ secret_names (world r) = ["svc-a-1700000000"].
Proof.
  cbv zeta. repeat split; vm_compute; reflexivity.
Qed.

